(** * Result processing: a shallow embedding of [gradescope_report.ts]

    The reporting engine of [gradescope_report.ts] takes the evaluations of a
    test suite against the student's code, the wheats and the chaffs, and
    turns them into Gradescope reports.  The functions are embedded below
    under the names they have in the source, and the properties the
    specification states about them are settled at the end of the file.

    Conventions of the embedding:
    - a JavaScript [string] is a [string]; template literals are written
      with [+:+];
    - [Result] is the tagged union the upstream tooling serialises (exactly
      one of [Ok] and [Err] is populated);
    - a JavaScript [number] is an element of a type with the operations of
      [JsNumber], the four the engine uses: the literals [0] and [1], [+]
      and [===].  [binary64] is the instance the code runs on, the IEEE 754
      doubles with rounding to nearest even; [Z] is the instance of exact
      integral points.  The properties of the verdicts, of the exceptions
      and of the score aggregator are proved over every such type; a
      statement that writes a score as the integer 0 or 1 is about the
      scores of the detailed reports, which are these two literals over
      every type ([report_of_Z]);
    - [Map<string, number>] is a [gmap string number];
    - a function that may [throw] returns in [Exc];
    - in-place mutation (the normalizer) is a function returning the updated
      evaluation. *)

From Stdlib Require Import String Ascii List ZArith Bool Lia DecimalString.
From Stdlib Require SpecFloat.
From stdpp Require Import base option list strings gmap.
Import ListNotations.

Local Open Scope string_scope.
Local Open Scope list_scope.

(** ** Input data types *)

Definition PathName := string.

Module Test.
Record t : Type := mk { loc : string; passed : bool }.
End Test.

Module TestBlock.
Record t : Type := mk {
  name : string;
  loc : string;
  error : bool;
  tests : list Test.t
}.
End TestBlock.

(** [enum Err]; the enumerators are their own names as strings. *)
Module Err.
Inductive t : Type := Unknown | Compilation | OutOfMemory | Timeout | Runtime.

Definition to_string (e : t) : string :=
  match e with
  | Unknown => "Unknown"
  | Compilation => "Compilation"
  | OutOfMemory => "OutOfMemory"
  | Timeout => "Timeout"
  | Runtime => "Runtime"
  end.
End Err.

(** [interface Result { Ok?: TestBlock[]; Err?: Err }]: one of the two fields
    is present. *)
Inductive Result : Type :=
| Ok (blocks : list TestBlock.t)
| Err (e : Err.t).

Module Evaluation.
Record t : Type := mk {
  code : PathName;
  tests : string;
  result : Result
}.
End Evaluation.

Module ExamplarConfig.
Record t : Type := mk {
  useWheats : bool;
  chaffs : option (list string)
}.
End ExamplarConfig.

(** ** Numbers

    The engine builds its numbers from the literals [0] and [1] and the
    point values of the score file, adds them with [+=] and compares them
    with [===]. *)
Class JsNumber (number : Type) : Type := {
  zero : number;
  one : number;
  add : number -> number -> number;
  strict_equal : number -> number -> bool
}.

(** The numbers of JavaScript: IEEE 754 binary64 (53 bits of precision,
    exponents up to 1024), with the addition rounded to nearest, ties to
    even, and the comparison of the standard ([NaN] differs from itself,
    the two zeros are equal).  The carrier is the one of [SpecFloat],
    whose operations return values of the format. *)
Definition binary64 : Type := SpecFloat.spec_float.

#[global] Instance JsNumber_binary64 : JsNumber binary64 | 10 := {|
  zero := SpecFloat.S754_zero false;
  one := SpecFloat.SFone 53 1024;
  add := SpecFloat.SFadd 53 1024;
  strict_equal := SpecFloat.SFeqb
|}.

(** The double nearest to an integer, and to a ratio of two integers whose
    nearest doubles they are. *)
Definition binary64_of_Z (z : Z) : binary64 :=
  SpecFloat.binary_normalize 53 1024 z 0 false.

Definition binary64_of_ratio (numerator denominator : Z) : binary64 :=
  SpecFloat.SFdiv 53 1024 (binary64_of_Z numerator)
    (binary64_of_Z denominator).

(** Exact integers. *)
#[global] Instance JsNumber_Z : JsNumber Z | 0 := {|
  zero := 0%Z;
  one := 1%Z;
  add := Z.add;
  strict_equal := Z.eqb
|}.

(** [x === y] on two optional [number] fields: [undefined] is strictly equal
    to itself only. *)
Definition strict_equal_opt {number : Type} `{JsNumber number}
    (x y : option number) : bool :=
  match x, y with
  | Some a, Some b => strict_equal a b
  | None, None => true
  | _, _ => false
  end.

Module PointData.
Record t {number : Type} : Type := mk {
  functionality : gmap string number;
  testing : gmap string number
}.
Arguments mk {number} functionality testing.
End PointData.

(** ** Gradescope types *)

Inductive Visibility : Type := Visible | AfterPublished | Hidden.

Module ReportSection.
Inductive t : Type := Functionality | Wheat | Chaff.
End ReportSection.

Module ReportType.
Inductive t : Type := Examplar | Detailed | Score.
End ReportType.

Module GradescopeTestReport.
Record t {number : Type} : Type := mk {
  name : string;
  output : string;
  score : option number;
  max_score : option number;
  visibility : Visibility;
  section : ReportSection.t;
  type : ReportType.t
}.
Arguments mk {number} name output score max_score visibility section type.
End GradescopeTestReport.

Module GradescopeReport.
Record t {number : Type} : Type := mk {
  visibility : Visibility;
  stdout_visibility : Visibility;
  tests : list (@GradescopeTestReport.t number);
  score : number;
  max_score : number
}.
Arguments mk {number} visibility stdout_visibility tests score max_score.
End GradescopeReport.

(** ** Exceptions

    The source throws strings ([throw "..."]); dereferencing [undefined]
    raises a [TypeError]. *)

Inductive Thrown : Type :=
| ThrowString (msg : string)
| TypeError.

Inductive Exc (A : Type) : Type :=
| Return (a : A)
| Throw (e : Thrown).
Arguments Return {A} a.
Arguments Throw {A} e.

Definition bind {A B : Type} (m : Exc A) (k : A -> Exc B) : Exc B :=
  match m with
  | Return a => k a
  | Throw e => Throw e
  end.

Notation "'let*' x ':=' m 'in' k" := (bind m (fun x => k))
  (at level 10, x name, m at level 100, k at level 200).

(** [xs.map(f)] for an [f] that may throw: the first exception wins. *)
Fixpoint map_exc {A B : Type} (f : A -> Exc B) (xs : list A) : Exc (list B) :=
  match xs with
  | [] => Return []
  | x :: xs' =>
      let* y := f x in
      let* ys := map_exc f xs' in
      Return (y :: ys)
  end.

(** ** JavaScript string primitives *)

(** [s.includes(sub)]. *)
Fixpoint includes (sub s : string) : bool :=
  String.prefix sub s ||
  match s with
  | EmptyString => false
  | String _ s' => includes sub s'
  end.

(** [s.split(sep)] for a non-empty separator (the source splits on ["/"],
    [".arr:"] and [";"]): the pieces between the leftmost non-overlapping
    occurrences of [sep].  [skip] counts the characters of an occurrence
    still to be passed over. *)
Fixpoint split_go (sep : string) (skip : nat) (s : string) : list string :=
  match s with
  | EmptyString => [EmptyString]
  | String c s' =>
      match skip with
      | S k => split_go sep k s'
      | O =>
          if String.prefix sep s
          then EmptyString :: split_go sep (String.length sep - 1) s'
          else match split_go sep 0 s' with
               | p :: ps => String c p :: ps
               | [] => [String c EmptyString]
               end
      end
  end.

Definition split (sep s : string) : list string := split_go sep 0 s.

(** [`${x}`] for a possibly [undefined] string. *)
Definition template_of (o : option string) : string :=
  match o with
  | Some s => s
  | None => "undefined"
  end.

(** [`${n}`] for a non-negative integer. *)
Definition string_of_nat (n : nat) : string :=
  NilEmpty.string_of_uint (Nat.to_uint n).

(** [xs.join(sep)]. *)
Fixpoint join (sep : string) (xs : list string) : string :=
  match xs with
  | [] => EmptyString
  | [x] => x
  | x :: xs' => x +:+ sep +:+ join sep xs'
  end.

(** [xs.indexOf(v)], with [None] for [-1]. *)
Fixpoint indexOf (xs : list string) (v : string) : option nat :=
  match xs with
  | [] => None
  | x :: xs' => if String.eqb x v then Some 0 else S <$> indexOf xs' v
  end.

(** [xs.filter((v, i) => p(v, i))]. *)
Fixpoint filteri_from {A : Type} (p : A -> nat -> bool) (i : nat) (xs : list A)
  : list A :=
  match xs with
  | [] => []
  | x :: xs' =>
      if p x i then x :: filteri_from p (S i) xs' else filteri_from p (S i) xs'
  end.

Definition filteri {A : Type} (p : A -> nat -> bool) (xs : list A) : list A :=
  filteri_from p 0 xs.

(** ** Helpers *)

Definition get_line_number (test_loc : string) : option string :=
  split ".arr:" test_loc !! 1%nat.

(** [get_loc_name]: the last piece of [loc.split("/")]. *)
Definition get_loc_name (loc : string) : string :=
  let parts := split "/" loc in
  List.last parts loc.

(** The line feed of the [\n] escapes, and the double quote that the
    templates put around block names. *)
Definition nl : string := String "010"%char EmptyString.
Definition dq : string := String "034"%char EmptyString.

Definition Result_Err (r : Result) : option Err.t :=
  match r with
  | Ok _ => None
  | Err e => Some e
  end.

(** [`${evaluation.result.Err}`]. *)
Definition template_of_Err (r : Result) : string :=
  template_of (Err.to_string <$> Result_Err r).

(** ** Handling input *)

(** [normalize_code_names] mutates the evaluation in place; the embedding
    returns the evaluation as it stands after the call. *)
Definition normalize_test (test : Test.t) : Test.t :=
  {| Test.loc := get_loc_name (Test.loc test);
     Test.passed := Test.passed test |}.

Definition normalize_block (block : TestBlock.t) : TestBlock.t :=
  {| TestBlock.name := TestBlock.name block;
     TestBlock.loc := get_loc_name (TestBlock.loc block);
     TestBlock.error := TestBlock.error block;
     TestBlock.tests := map normalize_test (TestBlock.tests block) |}.

Definition normalize_code_names (evaluation : Evaluation.t) : Evaluation.t :=
  match Evaluation.result evaluation with
  | Ok blocks =>
      {| Evaluation.code := Evaluation.code evaluation;
         Evaluation.tests := Evaluation.tests evaluation;
         Evaluation.result := Ok (map normalize_block blocks) |}
  | Err _ => evaluation
  end.

(** ** The failure detector *)

Module TestAndBlock.
Record t : Type := mk { test : Test.t; block : TestBlock.t }.
End TestAndBlock.

Module TestFailure.
Inductive t : Type := Pass | Fail | Err.
End TestFailure.

(** The object type of the optional [failures] field. *)
Module Failures.
Record t : Type := mk {
  tests : list TestAndBlock.t;
  blocks : list TestBlock.t
}.
End Failures.

Module TestFailureReport.
Record t : Type := mk {
  success : TestFailure.t;
  failures : option Failures.t
}.
End TestFailureReport.

(** The inner [for (test of block.tests)] loop of
    [get_invalid_tests_and_blocks]. *)
Fixpoint push_invalid_tests (block : TestBlock.t) (tests : list Test.t)
    (invalid_tests : list TestAndBlock.t) : list TestAndBlock.t :=
  match tests with
  | [] => invalid_tests
  | test :: rest =>
      if negb (Test.passed test)
      then push_invalid_tests block rest
             (invalid_tests ++ [TestAndBlock.mk test block])
      else push_invalid_tests block rest invalid_tests
  end.

(** The outer [for (block of wheat.result.Ok)] loop, threading the two
    arrays it pushes to. *)
Fixpoint collect_invalid (blocks : list TestBlock.t)
    (invalid_tests : list TestAndBlock.t) (invalid_blocks : list TestBlock.t)
  : list TestAndBlock.t * list TestBlock.t :=
  match blocks with
  | [] => (invalid_tests, invalid_blocks)
  | block :: rest =>
      let invalid_blocks' :=
        if TestBlock.error block then invalid_blocks ++ [block]
        else invalid_blocks in
      let invalid_tests' :=
        push_invalid_tests block (TestBlock.tests block) invalid_tests in
      collect_invalid rest invalid_tests' invalid_blocks'
  end.

Definition get_invalid_tests_and_blocks (wheat : Evaluation.t)
  : TestFailureReport.t :=
  match Evaluation.result wheat with
  | Err _ => TestFailureReport.mk TestFailure.Err None
  | Ok blocks =>
      let '(invalid_tests, invalid_blocks) := collect_invalid blocks [] [] in
      if (length invalid_tests =? 0)%nat && (length invalid_blocks =? 0)%nat
      then TestFailureReport.mk TestFailure.Pass None
      else TestFailureReport.mk TestFailure.Fail
             (Some (Failures.mk invalid_tests invalid_blocks))
  end.

(** ** Student (examplar) reports *)

Module WheatMessagesReport.
Record t : Type := mk {
  valid : bool;
  messages : option (list string)
}.
End WheatMessagesReport.

(** The messages pushed by the two loops of the [Fail] branch of
    [generate_wheat_messages]. *)
Definition wheat_block_message (block : TestBlock.t) : string :=
  "Block " +:+ dq +:+ TestBlock.name block +:+ dq +:+ " at lines "
  +:+ template_of (get_line_number (TestBlock.loc block))
  +:+ " raised an error.".

Definition wheat_test_message (test : TestAndBlock.t) : string :=
  "Test failed in block " +:+ dq
  +:+ TestBlock.name (TestAndBlock.block test) +:+ dq +:+ " at lines "
  +:+ template_of (get_line_number (TestBlock.loc (TestAndBlock.block test)))
  +:+ "; " +:+ "Test location: "
  +:+ template_of (get_line_number (Test.loc (TestAndBlock.test test))).

(** [for (x of xs) { messages.push(f(x)) }]. *)
Fixpoint push_each {A : Type} (f : A -> string) (xs : list A)
    (messages : list string) : list string :=
  match xs with
  | [] => messages
  | x :: rest => push_each f rest (messages ++ [f x])
  end.

(** The body of [generate_wheat_messages] once [test_report] is bound. *)
Definition generate_wheat_messages_of (wheat_result : Evaluation.t)
    (test_report : TestFailureReport.t) : Exc WheatMessagesReport.t :=
  match TestFailureReport.success test_report with
  | TestFailure.Pass => Return (WheatMessagesReport.mk true None)
  | TestFailure.Err =>
      Return (WheatMessagesReport.mk false
                (Some ["Wheat errored; "
                       +:+ template_of_Err (Evaluation.result wheat_result)]))
  | TestFailure.Fail =>
      match TestFailureReport.failures test_report with
      | None => Throw TypeError
      | Some invalids =>
          let messages := push_each wheat_block_message
                            (Failures.blocks invalids) [] in
          let messages := push_each wheat_test_message
                            (Failures.tests invalids) messages in
          if (length messages =? 0)%nat
          then Throw (ThrowString
                 "Contact instructor; Wheat failed, but no reason given.")
          else Return (WheatMessagesReport.mk true (Some messages))
      end
  end.

Definition generate_wheat_messages (wheat_result : Evaluation.t)
  : Exc WheatMessagesReport.t :=
  let test_report := get_invalid_tests_and_blocks wheat_result in
  generate_wheat_messages_of wheat_result test_report.

(** The loop of [generate_examplar_wheat_report] over the wheats, threading
    [full_wheat_report].  Spreading an absent [messages] is a [TypeError]. *)
Fixpoint collect_wheat_messages (wheat_results : list Evaluation.t)
    (full_wheat_report : bool * list string) : Exc (bool * list string) :=
  match wheat_results with
  | [] => Return full_wheat_report
  | wheat_result :: rest =>
      let* wheat_report := generate_wheat_messages wheat_result in
      if negb (WheatMessagesReport.valid wheat_report)
      then match WheatMessagesReport.messages wheat_report with
           | None => Throw TypeError
           | Some messages =>
               collect_wheat_messages rest
                 (false, snd full_wheat_report ++ messages)
           end
      else collect_wheat_messages rest full_wheat_report
  end.

(** [messages.filter((v, i) => messages.indexOf(v) === i)]. *)
Definition remove_duplicates (messages : list string) : list string :=
  filteri (fun v i => bool_decide (indexOf messages v = Some i)) messages.

Definition generate_examplar_wheat_report {number : Type} `{JsNumber number}
    (wheat_results : list Evaluation.t)
  : Exc (@GradescopeTestReport.t number) :=
  let* full_wheat_report :=
    collect_wheat_messages wheat_results (true, []) in
  let name_output : string * string :=
    if fst full_wheat_report
    then ("VALID",
          "These tests are valid and consistent with the assignment handout.")
    else
      let messages := snd full_wheat_report in
      let messages := remove_duplicates messages in
      ("INVALID",
       "Your test suite failed at least one of our wheats." +:+ nl
       +:+ join nl messages) in
  let '(name, output) := name_output in
  Return {| GradescopeTestReport.name := name;
            GradescopeTestReport.output := output;
            GradescopeTestReport.score := None;
            GradescopeTestReport.max_score := None;
            GradescopeTestReport.visibility := Visible;
            GradescopeTestReport.section := ReportSection.Wheat;
            GradescopeTestReport.type := ReportType.Examplar |}.

Definition chaff_block_message (block : TestBlock.t) : string :=
  "Block " +:+ dq +:+ TestBlock.name block +:+ dq +:+ " at lines "
  +:+ template_of (get_line_number (TestBlock.loc block))
  +:+ " raised an error.".

Definition chaff_test_message (test : TestAndBlock.t) : string :=
  "Test block: " +:+ dq +:+ TestBlock.name (TestAndBlock.block test) +:+ dq
  +:+ "; Test lines: "
  +:+ template_of (get_line_number (Test.loc (TestAndBlock.test test))).

(** The body of [generate_examplar_chaff_report] once [test_report] is
    bound; it yields the [name] and the [output] of the report. *)
Definition generate_examplar_chaff_report_of (chaff_result : Evaluation.t)
    (chaff_number : nat) (test_report : TestFailureReport.t)
  : Exc (string * string) :=
  match TestFailureReport.success test_report with
  | TestFailure.Pass =>
      Return ("Chaff number " +:+ string_of_nat chaff_number
              +:+ " not caught.", EmptyString)
  | TestFailure.Err =>
      Return ("Chaff number " +:+ string_of_nat chaff_number +:+ " caught!",
              "Chaff errored: "
              +:+ template_of_Err (Evaluation.result chaff_result)
              +:+ "." +:+ nl
              +:+ "Note that this means you are not testing defensively.")
  | TestFailure.Fail =>
      match TestFailureReport.failures test_report with
      | None => Throw TypeError
      | Some invalids =>
          let messages := push_each chaff_block_message
                            (Failures.blocks invalids) [] in
          let messages := push_each chaff_test_message
                            (Failures.tests invalids) messages in
          if (length messages =? 0)%nat
          then Throw (ThrowString
                 "Contact instructor; Chaff failed, but no reason given.")
          else Return ("Chaff number " +:+ string_of_nat chaff_number
                       +:+ " caught!",
                       "The following tests caught this chaff:" +:+ nl
                       +:+ join nl messages)
      end
  end.

Definition generate_examplar_chaff_report {number : Type} `{JsNumber number}
    (chaff_result : Evaluation.t)
    (chaff_number : nat) : Exc (@GradescopeTestReport.t number) :=
  let test_report := get_invalid_tests_and_blocks chaff_result in
  let* name_output :=
    generate_examplar_chaff_report_of chaff_result chaff_number test_report in
  let '(name, output) := name_output in
  Return {| GradescopeTestReport.name := name;
            GradescopeTestReport.output := output;
            GradescopeTestReport.score := None;
            GradescopeTestReport.max_score := None;
            GradescopeTestReport.visibility := Visible;
            GradescopeTestReport.section := ReportSection.Chaff;
            GradescopeTestReport.type := ReportType.Examplar |}.

(** ** TA (detailed) reports *)

Definition Array_includes (xs : list string) (v : string) : bool :=
  existsb (String.eqb v) xs.

(** [for (x of xs) { output += f(x) }] and [for (x of xs) { output = f(x) }]. *)
Fixpoint append_each {A : Type} (f : A -> string) (xs : list A)
    (output : string) : string :=
  match xs with
  | [] => output
  | x :: rest => append_each f rest (output +:+ f x)
  end.

Fixpoint assign_each {A : Type} (f : A -> string) (xs : list A)
    (output : string) : string :=
  match xs with
  | [] => output
  | x :: rest => assign_each f rest (f x)
  end.

Definition detailed_wheat_test_message (test : TestAndBlock.t) : string :=
  "Wheat failed test in block " +:+ dq
  +:+ TestBlock.name (TestAndBlock.block test) +:+ dq +:+ " at location "
  +:+ Test.loc (TestAndBlock.test test) +:+ nl.

Definition detailed_wheat_block_message (block : TestBlock.t) : string :=
  "Wheat caused error in block " +:+ dq +:+ TestBlock.name block +:+ dq +:+ nl.

(** The body of [generate_detailed_wheat_report] once [test_report] is bound;
    it yields [output] and [score]. *)
Definition generate_detailed_wheat_report_of {number : Type} `{JsNumber number}
    (wheat_result : Evaluation.t)
    (test_report : TestFailureReport.t) : Exc (string * number) :=
  match TestFailureReport.success test_report with
  | TestFailure.Pass => Return ("Passed wheat!", one)
  | TestFailure.Err =>
      Return ("Wheat errored; "
              +:+ template_of_Err (Evaluation.result wheat_result), zero)
  | TestFailure.Fail =>
      match TestFailureReport.failures test_report with
      | None => Throw TypeError
      | Some invalids =>
          let output := EmptyString in
          let score := zero in
          let output := append_each detailed_wheat_test_message
                          (Failures.tests invalids) output in
          let output := assign_each detailed_wheat_block_message
                          (Failures.blocks invalids) output in
          if String.eqb output EmptyString
          then Throw (ThrowString "Wheat failed but no reason given.")
          else Return (output, score)
      end
  end.

(** The first phase of [generate_detailed_chaff_report]: the loop over the
    wheats, threading [all_invalid_tests] and [all_invalid_blocks].  The
    report of an errored wheat has no [failures] field, and reading
    [invalids.tests] off it is a [TypeError]. *)
Fixpoint collect_all_invalid (wheat_results : list Evaluation.t)
    (all_invalid_tests : list Test.t) (all_invalid_blocks : list TestBlock.t)
  : Exc (list Test.t * list TestBlock.t) :=
  match wheat_results with
  | [] => Return (all_invalid_tests, all_invalid_blocks)
  | wheat_result :: rest =>
      let test_report := get_invalid_tests_and_blocks wheat_result in
      match TestFailureReport.success test_report with
      | TestFailure.Pass =>
          collect_all_invalid rest all_invalid_tests all_invalid_blocks
      | _ =>
          match TestFailureReport.failures test_report with
          | None => Throw TypeError
          | Some invalids =>
              collect_all_invalid rest
                (all_invalid_tests
                 ++ map TestAndBlock.test (Failures.tests invalids))
                (all_invalid_blocks ++ Failures.blocks invalids)
          end
      end
  end.

Definition all_invalid_locs_of (wheat_results : list Evaluation.t)
  : Exc (list string) :=
  let* invalid := collect_all_invalid wheat_results [] [] in
  let '(all_invalid_tests, all_invalid_blocks) := invalid in
  Return (map Test.loc all_invalid_tests ++ map TestBlock.loc all_invalid_blocks).

(** The inner [for (test of block.tests)] loop of [get_score_and_output];
    [Some] is an early [return]. *)
Fixpoint chaff_scan_tests {number : Type} `{JsNumber number}
    (all_invalid_locs : list string)
    (block : TestBlock.t) (tests : list Test.t) : option (string * number) :=
  match tests with
  | [] => None
  | test :: rest =>
      if negb (Test.passed test)
         && negb (Array_includes all_invalid_locs (Test.loc test))
      then Some ("Chaff caught; test failed in block " +:+ dq
                 +:+ TestBlock.name block +:+ dq +:+ "!", one)
      else chaff_scan_tests all_invalid_locs block rest
  end.

(** The outer [for (block of chaff_result.result.Ok)] loop. *)
Fixpoint chaff_scan_blocks {number : Type} `{JsNumber number}
    (all_invalid_locs : list string)
    (blocks : list TestBlock.t) : string * number :=
  match blocks with
  | [] => ("Chaff not caught.", zero)
  | block :: rest =>
      if TestBlock.error block
         && negb (Array_includes all_invalid_locs (TestBlock.loc block))
      then ("Chaff caught; error in block " +:+ dq
            +:+ TestBlock.name block +:+ dq +:+ "!", one)
      else match chaff_scan_tests all_invalid_locs block
                   (TestBlock.tests block) with
           | Some found => found
           | None => chaff_scan_blocks all_invalid_locs rest
           end
  end.

Definition get_score_and_output {number : Type} `{JsNumber number}
    (all_invalid_locs : list string)
    (chaff_result : Evaluation.t) : string * number :=
  match Evaluation.result chaff_result with
  | Err e => ("Chaff caught; error: " +:+ Err.to_string e +:+ "!", one)
  | Ok blocks => chaff_scan_blocks all_invalid_locs blocks
  end.

(** The loop of [generate_score_report], threading [total_score] and
    [possible_score]. *)
Fixpoint score_loop {number : Type} `{JsNumber number}
    (reports : list (@GradescopeTestReport.t number))
    (point_values : gmap string number) (total_score possible_score : number)
  : number * number :=
  match reports with
  | [] => (total_score, possible_score)
  | report :: rest =>
      let points :=
        match point_values !! GradescopeTestReport.name report with
        | Some p => p
        | None => one
        end in
      let total_score :=
        add total_score
          (if strict_equal_opt (GradescopeTestReport.score report)
                (GradescopeTestReport.max_score report)
           then points else zero) in
      let possible_score := add possible_score points in
      score_loop rest point_values total_score possible_score
  end.

Definition generate_score_report {number : Type} `{JsNumber number}
    (reports : list (@GradescopeTestReport.t number))
    (point_values : gmap string number) (name : string)
    (section : ReportSection.t)
  : @GradescopeTestReport.t number :=
  let '(total_score, possible_score) :=
    score_loop reports point_values zero zero in
  {| GradescopeTestReport.name := "Score: " +:+ name;
     GradescopeTestReport.output := EmptyString;
     GradescopeTestReport.score := Some total_score;
     GradescopeTestReport.max_score := Some possible_score;
     GradescopeTestReport.visibility := Hidden;
     GradescopeTestReport.section := section;
     GradescopeTestReport.type := ReportType.Score |}.

Definition generate_overall_report {number : Type} `{JsNumber number}
    (all_reports : list (@GradescopeTestReport.t number))
  : @GradescopeReport.t number :=
  {| GradescopeReport.visibility := Visible;
     GradescopeReport.stdout_visibility := Visible;
     GradescopeReport.tests := all_reports;
     GradescopeReport.score := zero;
     GradescopeReport.max_score := zero |}.

(** ** The functions that go through Node's [path] module

    [path.basename] and [path.dirname] belong to the platform, not to the
    repository; the engine is embedded over any two such functions. *)

Section Paths.

Variable path_basename : string -> string.
Variable path_dirname : string -> string.

Definition get_code_file_name (evaluation : Evaluation.t) : string :=
  path_basename (Evaluation.code evaluation).

Definition get_code_dir_name (evaluation : Evaluation.t) : string :=
  path_basename (path_dirname (Evaluation.code evaluation)).

(** The loop of [partition_results], threading the three arrays. *)
Fixpoint partition_loop (results : list Evaluation.t)
    (test_results wheat_results chaff_results : list Evaluation.t)
  : list Evaluation.t * list Evaluation.t * list Evaluation.t :=
  match results with
  | [] => (test_results, wheat_results, chaff_results)
  | result :: rest =>
      let code_name := get_code_dir_name result in
      if includes "wheat" code_name
      then partition_loop rest test_results (wheat_results ++ [result])
             chaff_results
      else if includes "chaff" code_name
      then partition_loop rest test_results wheat_results
             (chaff_results ++ [result])
      else partition_loop rest (test_results ++ [result]) wheat_results
             chaff_results
  end.

Definition partition_results (results : list Evaluation.t)
  : list Evaluation.t * list Evaluation.t * list Evaluation.t :=
  partition_loop results [] [] [].

Definition functionality_block_report {number : Type} `{JsNumber number}
    (block : TestBlock.t)
  : @GradescopeTestReport.t number :=
  let '(output, score) :=
    if TestBlock.error block
    then ("Block errored.", zero)
    else
      let total_tests := length (TestBlock.tests block) in
      let passed_tests :=
        length (List.filter Test.passed (TestBlock.tests block)) in
      if (passed_tests =? total_tests)%nat
      then ("Passed all " +:+ string_of_nat total_tests
            +:+ " tests in this block!", one)
      else ("Missing " +:+ string_of_nat (total_tests - passed_tests)
            +:+ " tests in this block", zero) in
  {| GradescopeTestReport.name :=
       "Test: " +:+ dq +:+ TestBlock.name block +:+ dq;
     GradescopeTestReport.output := output;
     GradescopeTestReport.score := Some score;
     GradescopeTestReport.max_score := Some one;
     GradescopeTestReport.visibility := AfterPublished;
     GradescopeTestReport.section := ReportSection.Functionality;
     GradescopeTestReport.type := ReportType.Detailed |}.

Definition generate_functionality_report {number : Type} `{JsNumber number}
    (test_result : Evaluation.t)
  : list (@GradescopeTestReport.t number) :=
  match Evaluation.result test_result with
  | Err e =>
      [ {| GradescopeTestReport.name := get_code_file_name test_result;
           GradescopeTestReport.output := "Error: " +:+ Err.to_string e;
           GradescopeTestReport.score := Some zero;
           GradescopeTestReport.max_score := Some one;
           GradescopeTestReport.visibility := Visible;
           GradescopeTestReport.section := ReportSection.Functionality;
           GradescopeTestReport.type := ReportType.Detailed |} ]
  | Ok blocks => map functionality_block_report blocks
  end.

Definition generate_detailed_wheat_report {number : Type} `{JsNumber number}
    (wheat_result : Evaluation.t)
  : Exc (@GradescopeTestReport.t number) :=
  let test_report := get_invalid_tests_and_blocks wheat_result in
  let* output_score :=
    generate_detailed_wheat_report_of wheat_result test_report in
  let '(output, score) := output_score in
  Return {| GradescopeTestReport.name :=
              "Wheat: " +:+ get_code_file_name wheat_result;
            GradescopeTestReport.score := Some score;
            GradescopeTestReport.max_score := Some one;
            GradescopeTestReport.output := output;
            GradescopeTestReport.visibility := AfterPublished;
            GradescopeTestReport.section := ReportSection.Wheat;
            GradescopeTestReport.type := ReportType.Detailed |}.

(** The closure returned by [generate_detailed_chaff_report], with the
    captured [all_invalid_locs] made explicit. *)
Definition detailed_chaff_report {number : Type} `{JsNumber number}
    (all_invalid_locs : list string)
    (chaff_result : Evaluation.t) : @GradescopeTestReport.t number :=
  let result := get_score_and_output all_invalid_locs chaff_result in
  {| GradescopeTestReport.name :=
       "Chaff: " +:+ get_code_file_name chaff_result;
     GradescopeTestReport.output := fst result;
     GradescopeTestReport.score := Some (snd result);
     GradescopeTestReport.max_score := Some one;
     GradescopeTestReport.visibility := AfterPublished;
     GradescopeTestReport.section := ReportSection.Chaff;
     GradescopeTestReport.type := ReportType.Detailed |}.

Definition generate_detailed_chaff_report {number : Type} `{JsNumber number}
    (wheat_results : list Evaluation.t)
  : Exc (Evaluation.t -> @GradescopeTestReport.t number) :=
  let* all_invalid_locs := all_invalid_locs_of wheat_results in
  Return (detailed_chaff_report all_invalid_locs).

(** [examplar_chaff_results.forEach((result, index) => ...)]. *)
Fixpoint examplar_chaff_reports {number : Type} `{JsNumber number}
    (index : nat)
    (examplar_chaff_results : list Evaluation.t)
  : Exc (list (@GradescopeTestReport.t number)) :=
  match examplar_chaff_results with
  | [] => Return []
  | result :: rest =>
      let* report := generate_examplar_chaff_report result index in
      let* reports := examplar_chaff_reports (S index) rest in
      Return (report :: reports)
  end.

(** The [examplar_reports] block of [main]. *)
Definition examplar_phase {number : Type} `{JsNumber number}
    (examplar_config : option ExamplarConfig.t)
    (wheat_results chaff_results : list Evaluation.t)
  : Exc (list (@GradescopeTestReport.t number)) :=
  match examplar_config with
  | None => Return []
  | Some config =>
      if ExamplarConfig.useWheats config
      then
        let* wheat_report := generate_examplar_wheat_report wheat_results in
        if String.eqb (GradescopeTestReport.name wheat_report) "VALID"
        then
          let examplar_chaff_results :=
            match ExamplarConfig.chaffs config with
            | None => chaff_results
            | Some chaffs =>
                List.filter
                  (fun result =>
                     Array_includes chaffs (get_code_file_name result))
                  chaff_results
            end in
          let* chaff_reports :=
            examplar_chaff_reports 0 examplar_chaff_results in
          Return (wheat_report :: chaff_reports)
        else Return [wheat_report]
      else Return []
  end.

(** The detailed and score block of [main]; it yields
    [(detailed_reports, score_reports)]. *)
Definition detailed_phase {number : Type} `{JsNumber number}
    (point_values : @PointData.t number)
    (test_results wheat_results chaff_results : list Evaluation.t)
  : Exc (list (@GradescopeTestReport.t number)
         * list (@GradescopeTestReport.t number)) :=
  let detailed_test_reports := map generate_functionality_report test_results in
  let* detailed_wheat_reports :=
    map_exc generate_detailed_wheat_report wheat_results in
  let* chaff_report := generate_detailed_chaff_report wheat_results in
  let detailed_chaff_reports := map chaff_report chaff_results in
  let detailed_reports :=
    concat detailed_test_reports ++ detailed_wheat_reports
    ++ detailed_chaff_reports in
  let functionality_scores :=
    map (fun report =>
           generate_score_report report (PointData.functionality point_values)
             "functionality" ReportSection.Functionality)
        detailed_test_reports in
  let wheat_score :=
    generate_score_report detailed_wheat_reports
      (PointData.testing point_values) "wheats" ReportSection.Wheat in
  let chaff_score :=
    generate_score_report detailed_chaff_reports
      (PointData.testing point_values) "chaffs" ReportSection.Chaff in
  let score_reports := functionality_scores ++ [wheat_score] ++ [chaff_score] in
  Return (detailed_reports, score_reports).

(** [main] between reading its three inputs and writing the report. *)
Definition main {number : Type} `{JsNumber number}
    (results : list Evaluation.t)
    (examplar_config : option ExamplarConfig.t)
    (point_values : @PointData.t number)
  : Exc (@GradescopeReport.t number) :=
  let '(test_results, wheat_results, chaff_results) :=
    partition_results results in
  let test_results := map normalize_code_names test_results in
  let wheat_results := map normalize_code_names wheat_results in
  let chaff_results := map normalize_code_names chaff_results in
  let* examplar_reports :=
    examplar_phase examplar_config wheat_results chaff_results in
  let* detailed_score :=
    detailed_phase point_values test_results wheat_results chaff_results in
  let '(detailed_reports, score_reports) := detailed_score in
  let all_reports := examplar_reports ++ detailed_reports ++ score_reports in
  Return (generate_overall_report all_reports).

End Paths.

(** ** Reading the score file

    [json_to_map], the inner function of [read_score_data_from_file]: the
    parsed JSON object is the list of its properties, with distinct names,
    in the order [for (name in obj)] visits them, and each is set in the
    map. *)
Fixpoint json_to_map_from {number : Type} `{JsNumber number}
    (obj : list (string * number)) (map : gmap string number)
  : gmap string number :=
  match obj with
  | [] => map
  | (name, points) :: rest => json_to_map_from rest (<[name := points]> map)
  end.

Definition json_to_map {number : Type} `{JsNumber number}
    (obj : list (string * number)) : gmap string number :=
  json_to_map_from obj ∅.

(** [read_score_data_from_file] from the parsed [raw_score_data] on. *)
Definition read_score_data_from_file {number : Type} `{JsNumber number}
    (raw_functionality raw_testing : list (string * number))
  : @PointData.t number :=
  let functionality_map := json_to_map raw_functionality in
  let testing_map := json_to_map raw_testing in
  {| PointData.functionality := functionality_map;
     PointData.testing := testing_map |}.

(** * Vocabulary of the properties *)

(** What the two loops compute, as list comprehensions. *)
Definition failing_tests_of (block : TestBlock.t) : list TestAndBlock.t :=
  map (fun test => TestAndBlock.mk test block)
      (List.filter (fun test => negb (Test.passed test)) (TestBlock.tests block)).

Definition all_failing_tests (blocks : list TestBlock.t) : list TestAndBlock.t :=
  flat_map failing_tests_of blocks.

Definition all_errored_blocks (blocks : list TestBlock.t) : list TestBlock.t :=
  List.filter TestBlock.error blocks.

(** Sample data for the closed instances below. *)
Definition sample_test_failing : Test.t :=
  Test.mk "tests.arr:2:2-2:20" false.
Definition sample_test_passing : Test.t :=
  Test.mk "tests.arr:6:2-6:20" true.
Definition sample_block_A : TestBlock.t :=
  TestBlock.mk "A" "tests.arr:1:0-3:3" false [sample_test_failing].
Definition sample_block_B : TestBlock.t :=
  TestBlock.mk "B" "tests.arr:5:0-7:3" true [sample_test_passing].
Definition sample_block_C : TestBlock.t :=
  TestBlock.mk "C" "tests.arr:9:0-11:3" false [sample_test_passing].

(** A wheat whose suite ran with a failing test in block A and an error in
    block B, a wheat with only the error in block B, a wheat that timed out
    and a wheat that passed. *)
Definition sample_wheat_failing : Evaluation.t :=
  Evaluation.mk "/autograder/wheat/w1.arr" "tests.arr"
    (Ok [sample_block_A; sample_block_B]).
Definition sample_wheat_block_error : Evaluation.t :=
  Evaluation.mk "/autograder/wheat/w2.arr" "tests.arr" (Ok [sample_block_B]).
Definition sample_wheat_timeout : Evaluation.t :=
  Evaluation.mk "/autograder/wheat/w3.arr" "tests.arr" (Err Err.Timeout).
Definition sample_wheat_passing : Evaluation.t :=
  Evaluation.mk "/autograder/wheat/w4.arr" "tests.arr" (Ok [sample_block_C]).

(** An empty [Fail] report, which the detector never builds. *)
Definition empty_fail_report : TestFailureReport.t :=
  TestFailureReport.mk TestFailure.Fail (Some (Failures.mk [] [])).

(** The message of a wheat that did not run, and the messages of the wheats
    of a list that did not run, in order. *)
Definition wheat_errored_message (e : Err.t) : string :=
  "Wheat errored; " +:+ Err.to_string e.

Definition wheat_errored_messages (wheat_results : list Evaluation.t)
  : list string :=
  flat_map (fun wheat =>
              match Evaluation.result wheat with
              | Err e => [wheat_errored_message e]
              | Ok _ => []
              end) wheat_results.

Definition ran (evaluation : Evaluation.t) : bool :=
  match Evaluation.result evaluation with
  | Ok _ => true
  | Err _ => false
  end.

(** The first occurrences of the elements of [xs] that are not in [seen]. *)
Fixpoint first_occurrences (seen xs : list string) : list string :=
  match xs with
  | [] => []
  | x :: rest =>
      if Array_includes seen x then first_occurrences seen rest
      else x :: first_occurrences (seen ++ [x]) rest
  end.

(** The known-bad location set: the locations of the failing tests and of the
    errored blocks in the failure reports of the wheats. *)
Definition known_bad (wheat_results : list Evaluation.t) (loc : string) : Prop :=
  exists wheat invalids,
    In wheat wheat_results
    /\ TestFailureReport.failures (get_invalid_tests_and_blocks wheat)
       = Some invalids
    /\ (In loc (map (fun tb => Test.loc (TestAndBlock.test tb))
                  (Failures.tests invalids))
        \/ In loc (map TestBlock.loc (Failures.blocks invalids))).

(** A block of a chaff carries an unmasked failure: it errored at a location
    that is not known-bad, or one of its tests failed at a location that is
    not known-bad. *)
Definition unmasked_error (wheat_results : list Evaluation.t)
    (block : TestBlock.t) : Prop :=
  TestBlock.error block = true
  /\ ~ known_bad wheat_results (TestBlock.loc block).

Definition unmasked_failing_test (wheat_results : list Evaluation.t)
    (block : TestBlock.t) : Prop :=
  exists test,
    In test (TestBlock.tests block)
    /\ Test.passed test = false
    /\ ~ known_bad wheat_results (Test.loc test).

Definition unmasked_failure (wheat_results : list Evaluation.t)
    (block : TestBlock.t) : Prop :=
  unmasked_error wheat_results block
  \/ unmasked_failing_test wheat_results block.

(** The same, decided against the array [all_invalid_locs]. *)
Definition error_unmasked (all_invalid_locs : list string)
    (block : TestBlock.t) : bool :=
  TestBlock.error block
  && negb (Array_includes all_invalid_locs (TestBlock.loc block)).

Definition test_unmasked (all_invalid_locs : list string) (test : Test.t)
  : bool :=
  negb (Test.passed test)
  && negb (Array_includes all_invalid_locs (Test.loc test)).

Definition has_unmasked_test (all_invalid_locs : list string)
    (block : TestBlock.t) : bool :=
  existsb (test_unmasked all_invalid_locs) (TestBlock.tests block).

Definition caught_by (all_invalid_locs : list string) (block : TestBlock.t)
  : bool :=
  error_unmasked all_invalid_locs block
  || has_unmasked_test all_invalid_locs block.

(** The two caught verdicts of the detailed chaff report. *)
Definition error_citation (block : TestBlock.t) : string :=
  "Chaff caught; error in block " +:+ dq +:+ TestBlock.name block +:+ dq
  +:+ "!".

Definition test_citation (block : TestBlock.t) : string :=
  "Chaff caught; test failed in block " +:+ dq +:+ TestBlock.name block
  +:+ dq +:+ "!".

(** The scan as the specification words it: the first block with an
    unmasked error is cited; only when there is none, the block of the
    first unmasked failing test. *)
Definition spec_errors_first (all_invalid_locs : list string)
    (blocks : list TestBlock.t) : string * Z :=
  match find (error_unmasked all_invalid_locs) blocks with
  | Some block => (error_citation block, 1%Z)
  | None =>
      match find (has_unmasked_test all_invalid_locs) blocks with
      | Some block => (test_citation block, 1%Z)
      | None => ("Chaff not caught.", 0%Z)
      end
  end.

(** The locations that the loop over the wheats collects. *)
Definition wheat_invalid_tests (wheat : Evaluation.t) : list Test.t :=
  match Evaluation.result wheat with
  | Ok blocks => map TestAndBlock.test (all_failing_tests blocks)
  | Err _ => []
  end.

Definition wheat_invalid_blocks (wheat : Evaluation.t) : list TestBlock.t :=
  match Evaluation.result wheat with
  | Ok blocks => all_errored_blocks blocks
  | Err _ => []
  end.

(** A chaff with a failing test in its first block and an error in its
    second. *)
Definition sample_chaff : Evaluation.t :=
  Evaluation.mk "/autograder/chaff/c1.arr" "tests.arr"
    (Ok [sample_block_A; sample_block_B]).

(** A chaff that did not run. *)
Definition sample_chaff_errored : Evaluation.t :=
  Evaluation.mk "/autograder/chaff/c2.arr" "tests.arr" (Err Err.Runtime).

(** The known-bad set as [main] builds it: the normalized locations of the
    failing tests and of the errored blocks in the failure reports of the
    wheats. *)
Definition normalized_known_bad (wheat_results : list Evaluation.t)
    (loc : string) : Prop :=
  exists raw, known_bad wheat_results raw /\ loc = get_loc_name raw.

(** A block of a chaff that errored, or has a failing test, at a location
    whose normalization is not in that set. *)
Definition genuine_failure (wheat_results : list Evaluation.t)
    (block : TestBlock.t) : Prop :=
  (TestBlock.error block = true
   /\ ~ normalized_known_bad wheat_results (get_loc_name (TestBlock.loc block)))
  \/ (exists test,
        In test (TestBlock.tests block)
        /\ Test.passed test = false
        /\ ~ normalized_known_bad wheat_results (get_loc_name (Test.loc test))).

(** Two path functions for the closed instances below: on a path with
    no trailing slash, the part after the last slash and the part before
    it. *)
Definition sample_path_basename (path : string) : string :=
  List.last (split "/" path) path.

Definition sample_path_dirname (path : string) : string :=
  join "/" (removelast (split "/" path)).

(** The scan of the detailed chaff report as the specification states it:
    whenever a chaff that ran has both a block with an unmasked error and a
    block with an unmasked failing test, the verdict is the one of
    [spec_errors_first]. *)
Definition chaff_cites_errors_first : Prop :=
  forall (all_invalid_locs : list string) (chaff : Evaluation.t)
         (blocks : list TestBlock.t),
    Evaluation.result chaff = Ok blocks ->
    existsb (error_unmasked all_invalid_locs) blocks = true ->
    existsb (has_unmasked_test all_invalid_locs) blocks = true ->
    get_score_and_output all_invalid_locs chaff
    = spec_errors_first all_invalid_locs blocks.

(** The weight of a report under a point map, whether a report earns full
    credit ([report.score === report.max_score]), and what a report adds to
    the achieved total. *)
Definition weight {number : Type} `{JsNumber number}
    (point_values : gmap string number)
    (report : @GradescopeTestReport.t number) : number :=
  match point_values !! GradescopeTestReport.name report with
  | Some points => points
  | None => one
  end.

Definition full_credit {number : Type} `{JsNumber number}
    (report : @GradescopeTestReport.t number) : bool :=
  strict_equal_opt (GradescopeTestReport.score report)
    (GradescopeTestReport.max_score report).

Definition earned {number : Type} `{JsNumber number}
    (point_values : gmap string number)
    (report : @GradescopeTestReport.t number) : number :=
  if full_credit report then weight point_values report else zero.

(** The value of [total] after [total += x] for each [x] of a list, in
    order. *)
Definition add_each {number : Type} `{JsNumber number}
    (total : number) (points : list number) : number :=
  fold_left add points total.

(** The sum of a list of integral points. *)
Definition sum_Z (points : list Z) : Z := fold_right Z.add 0%Z points.

(** The reports and the point map of the specification's example, over any
    numbers and with the integers [2] and [3] as doubles. *)
Definition example_report {number : Type} `{JsNumber number}
    (name : string) (score : number) : @GradescopeTestReport.t number :=
  {| GradescopeTestReport.name := name;
     GradescopeTestReport.output := EmptyString;
     GradescopeTestReport.score := Some score;
     GradescopeTestReport.max_score := Some one;
     GradescopeTestReport.visibility := AfterPublished;
     GradescopeTestReport.section := ReportSection.Chaff;
     GradescopeTestReport.type := ReportType.Detailed |}.

Definition example_point_values : gmap string binary64 :=
  <["a" := binary64_of_Z 2]> (<["b" := binary64_of_Z 3]> ∅).

(** Two reports with full credit whose weights are [2^53] and [1]. *)
Definition large_point_values : gmap string binary64 :=
  <["a" := binary64_of_Z 9007199254740992]> (<["b" := binary64_of_Z 1]> ∅).

(** Two reports with full credit whose weights are [0.1] and [0.2]. *)
Definition fractional_point_values : gmap string binary64 :=
  <["a" := binary64_of_ratio 1 10]> (<["b" := binary64_of_ratio 2 10]> ∅).

(** The same example over the integers. *)
Definition sample_report (name : string) (score : Z)
  : @GradescopeTestReport.t Z :=
  example_report name score.


(** A score computed over the integers, as the literal [0] or [1] of another
    number type, and a report with its scores read so. *)
Definition literal_of_Z {number : Type} `{JsNumber number} (score : Z)
  : number :=
  if (score =? 1)%Z then one else zero.

Definition report_of_Z {number : Type} `{JsNumber number}
    (report : @GradescopeTestReport.t Z) : @GradescopeTestReport.t number :=
  {| GradescopeTestReport.name := GradescopeTestReport.name report;
     GradescopeTestReport.output := GradescopeTestReport.output report;
     GradescopeTestReport.score :=
       literal_of_Z <$> GradescopeTestReport.score report;
     GradescopeTestReport.max_score :=
       literal_of_Z <$> GradescopeTestReport.max_score report;
     GradescopeTestReport.visibility := GradescopeTestReport.visibility report;
     GradescopeTestReport.section := GradescopeTestReport.section report;
     GradescopeTestReport.type := GradescopeTestReport.type report |}.

(** An evaluation whose locations still carry their directories. *)
Definition sample_raw_evaluation : Evaluation.t :=
  Evaluation.mk "/autograder/wheat/w1.arr" "tests.arr"
    (Ok [TestBlock.mk "A"
           "file:///autograder/results/w1.arr;tests.arr/tests.arr:1:0-3:3"
           false
           [Test.mk
              "file:///autograder/results/w1.arr;tests.arr/tests.arr:2:2-2:20"
              false]]).

(** The failures of a report with every location normalized. *)
Definition normalize_test_and_block (tb : TestAndBlock.t) : TestAndBlock.t :=
  TestAndBlock.mk (normalize_test (TestAndBlock.test tb))
    (normalize_block (TestAndBlock.block tb)).

Definition normalize_failures (invalids : Failures.t) : Failures.t :=
  Failures.mk (map normalize_test_and_block (Failures.tests invalids))
    (map normalize_block (Failures.blocks invalids)).

(** A functionality evaluation with one block of three tests, one of which
    failed. *)
Definition sample_functionality : Evaluation.t :=
  Evaluation.mk "/autograder/student/code.arr" "tests.arr"
    (Ok [TestBlock.mk "sum" "tests.arr:1:0-5:3" false
           [Test.mk "tests.arr:2:2-2:20" true;
            Test.mk "tests.arr:3:2-3:20" false;
            Test.mk "tests.arr:4:2-4:20" true]]).

(** The three parts of the evaluations, as [partition_results] classifies
    them by the directory name of the code. *)
Definition classified_wheats (path_basename path_dirname : string -> string)
    (results : list Evaluation.t) : list Evaluation.t :=
  List.filter
    (fun r => includes "wheat" (get_code_dir_name path_basename path_dirname r))
    results.

Definition classified_chaffs (path_basename path_dirname : string -> string)
    (results : list Evaluation.t) : list Evaluation.t :=
  List.filter
    (fun r =>
       negb (includes "wheat" (get_code_dir_name path_basename path_dirname r))
       && includes "chaff" (get_code_dir_name path_basename path_dirname r))
    results.

Definition classified_functionality
    (path_basename path_dirname : string -> string)
    (results : list Evaluation.t) : list Evaluation.t :=
  List.filter
    (fun r =>
       negb (includes "wheat" (get_code_dir_name path_basename path_dirname r))
       && negb (includes "chaff"
                  (get_code_dir_name path_basename path_dirname r)))
    results.

(** The chaffs that the examplar report shows under a configuration. *)
Definition examplar_chaffs (path_basename : string -> string)
    (config : ExamplarConfig.t) (chaff_results : list Evaluation.t)
  : list Evaluation.t :=
  match ExamplarConfig.chaffs config with
  | None => chaff_results
  | Some chaffs =>
      List.filter
        (fun result =>
           Array_includes chaffs (get_code_file_name path_basename result))
        chaff_results
  end.

(** The lines that [output +=] accumulates. *)
Definition concat_lines {A : Type} (line : A -> string) (xs : list A)
  : string :=
  fold_right (fun x rest => line x +:+ rest) EmptyString xs.

(** A wheat whose suite ran with the failing test of block A and no errored
    block. *)
Definition sample_wheat_test_failure : Evaluation.t :=
  Evaluation.mk "/autograder/wheat/w5.arr" "tests.arr" (Ok [sample_block_A]).

(** * Properties *)

(** ** The string helpers on the examples of the source *)

Example get_loc_name_example :
  get_loc_name
    "file:///autograder/results/docdiff-wheat-2017.arr;docdiff-tests.arr/tests.arr:8:0-19:3"
  = "tests.arr:8:0-19:3".
Proof. reflexivity. Qed.

Example get_line_number_example :
  get_line_number "tests.arr:8:0-19:3" = Some "8:0-19:3"
  /\ get_line_number "tests.arr" = None.
Proof. split; reflexivity. Qed.

Example split_example :
  split ".arr:" "a.arr:b.arr:c" = ["a"; "b"; "c"]
  /\ split "/" "/a//b/" = [EmptyString; "a"; EmptyString; "b"; EmptyString]
  /\ split "/" EmptyString = [EmptyString].
Proof. repeat split. Qed.

Example remove_duplicates_example :
  remove_duplicates ["m1"; "m2"; "m1"; "m3"; "m2"] = ["m1"; "m2"; "m3"].
Proof. reflexivity. Qed.

(** ** The failure detector *)

Lemma push_invalid_tests_spec block tests invalid_tests :
  push_invalid_tests block tests invalid_tests
  = invalid_tests
    ++ map (fun test => TestAndBlock.mk test block)
         (List.filter (fun test => negb (Test.passed test)) tests).
Proof.
  revert invalid_tests.
  induction tests as [|test rest IH]; intros acc; simpl.
  - now rewrite app_nil_r.
  - destruct (negb (Test.passed test)); simpl; rewrite IH.
    + now rewrite <- app_assoc.
    + reflexivity.
Qed.

Lemma collect_invalid_spec blocks invalid_tests invalid_blocks :
  collect_invalid blocks invalid_tests invalid_blocks
  = (invalid_tests ++ all_failing_tests blocks,
     invalid_blocks ++ all_errored_blocks blocks).
Proof.
  revert invalid_tests invalid_blocks.
  induction blocks as [|block rest IH]; intros ts bs; simpl.
  - now rewrite !app_nil_r.
  - rewrite IH, push_invalid_tests_spec.
    unfold failing_tests_of.
    destruct (TestBlock.error block); simpl; now rewrite <- !app_assoc.
Qed.

Lemma get_invalid_tests_and_blocks_Ok wheat blocks :
  Evaluation.result wheat = Ok blocks ->
  get_invalid_tests_and_blocks wheat
  = match all_failing_tests blocks, all_errored_blocks blocks with
    | [], [] => TestFailureReport.mk TestFailure.Pass None
    | tests, errored =>
        TestFailureReport.mk TestFailure.Fail (Some (Failures.mk tests errored))
    end.
Proof.
  intros Hres. unfold get_invalid_tests_and_blocks. rewrite Hres.
  rewrite collect_invalid_spec. simpl.
  destruct (all_failing_tests blocks), (all_errored_blocks blocks); reflexivity.
Qed.

Lemma get_invalid_tests_and_blocks_Err wheat e :
  Evaluation.result wheat = Err e ->
  get_invalid_tests_and_blocks wheat = TestFailureReport.mk TestFailure.Err None.
Proof.
  intros Hres. unfold get_invalid_tests_and_blocks. now rewrite Hres.
Qed.

Lemma all_failing_tests_In blocks tb :
  In tb (all_failing_tests blocks) <->
  In (TestAndBlock.block tb) blocks
  /\ In (TestAndBlock.test tb) (TestBlock.tests (TestAndBlock.block tb))
  /\ Test.passed (TestAndBlock.test tb) = false.
Proof.
  unfold all_failing_tests, failing_tests_of.
  rewrite in_flat_map. split.
  - intros (block & Hblock & Hin).
    apply in_map_iff in Hin as (test & <- & Hin).
    apply filter_In in Hin as [Hin Hfail]. simpl.
    apply negb_true_iff in Hfail. auto.
  - intros (Hblock & Htest & Hfail).
    exists (TestAndBlock.block tb). split; [assumption|].
    apply in_map_iff. exists (TestAndBlock.test tb). split.
    + now destruct tb.
    + apply filter_In. split; [assumption|]. now rewrite Hfail.
Qed.

Lemma all_errored_blocks_In blocks block :
  In block (all_errored_blocks blocks) <->
  In block blocks /\ TestBlock.error block = true.
Proof. unfold all_errored_blocks. apply filter_In. Qed.

(** Case analysis on what the detector collected from [blocks], with the
    fields of the report it builds exposed. *)
Ltac report_cases blocks :=
  destruct (all_failing_tests blocks) as [|? ?];
  destruct (all_errored_blocks blocks) as [|? ?];
  cbn [TestFailureReport.success TestFailureReport.failures
       Failures.tests Failures.blocks].

(** A report is one of three shapes, and a [Fail] report is never empty. *)
Lemma get_invalid_tests_and_blocks_shape wheat :
  let report := get_invalid_tests_and_blocks wheat in
  (TestFailureReport.success report = TestFailure.Pass
   /\ TestFailureReport.failures report = None)
  \/ (TestFailureReport.success report = TestFailure.Err
      /\ TestFailureReport.failures report = None)
  \/ (exists invalids,
        TestFailureReport.success report = TestFailure.Fail
        /\ TestFailureReport.failures report = Some invalids
        /\ (Failures.tests invalids <> [] \/ Failures.blocks invalids <> [])).
Proof.
  destruct (Evaluation.result wheat) as [blocks|e] eqn:Hres; simpl.
  - rewrite (get_invalid_tests_and_blocks_Ok _ _ Hres).
    destruct (all_failing_tests blocks) as [|tb tbs];
      destruct (all_errored_blocks blocks) as [|b bs]; simpl; auto;
      right; right; eexists; (split; [reflexivity|]);
      (split; [reflexivity|]); simpl; auto; left; discriminate.
  - rewrite (get_invalid_tests_and_blocks_Err _ _ Hres). simpl. auto.
Qed.

(** ** C7: the invariants of a failure report *)

(** C7.  For every evaluation, the report of the failure detector is
    well-formed.  When it carries failures it is tagged [Fail], every block
    in its [blocks] field has [error = true], every entry of its [tests]
    field is a test with [passed = false] paired with the block of the
    evaluation that owns it, and the two fields are not both empty.  A
    [Pass] report carries no failures, and an evaluation that ran to
    completion is reported [Pass] exactly when the loop collected no failing
    test and no errored block. *)
Theorem C7_failure_report_invariants (evaluation : Evaluation.t) :
  let report := get_invalid_tests_and_blocks evaluation in
  (forall invalids,
     TestFailureReport.failures report = Some invalids ->
     TestFailureReport.success report = TestFailure.Fail
     /\ Forall (fun block => TestBlock.error block = true)
          (Failures.blocks invalids)
     /\ Forall (fun tb =>
                  Test.passed (TestAndBlock.test tb) = false
                  /\ In (TestAndBlock.test tb)
                       (TestBlock.tests (TestAndBlock.block tb))
                  /\ exists blocks,
                       Evaluation.result evaluation = Ok blocks
                       /\ In (TestAndBlock.block tb) blocks)
          (Failures.tests invalids)
     /\ (Failures.tests invalids <> [] \/ Failures.blocks invalids <> []))
  /\ (TestFailureReport.success report = TestFailure.Pass ->
      TestFailureReport.failures report = None)
  /\ (TestFailureReport.success report = TestFailure.Fail ->
      exists invalids, TestFailureReport.failures report = Some invalids)
  /\ (forall blocks,
        Evaluation.result evaluation = Ok blocks ->
        (TestFailureReport.success report = TestFailure.Pass
         <-> collect_invalid blocks [] [] = ([], []))
        /\ (collect_invalid blocks [] [] = ([], [])
            <-> forall block, In block blocks ->
                  TestBlock.error block = false
                  /\ forall test, In test (TestBlock.tests block) ->
                        Test.passed test = true)).
Proof.
  intros report. subst report.
  destruct (Evaluation.result evaluation) as [blocks|e] eqn:Hres.
  2:{ rewrite (get_invalid_tests_and_blocks_Err _ _ Hres). simpl.
      repeat split; try discriminate. }
  rewrite (get_invalid_tests_and_blocks_Ok _ _ Hres).
  assert (Hblocks : Forall (fun block => TestBlock.error block = true)
                      (all_errored_blocks blocks)).
  { apply List.Forall_forall. intros b Hb.
    now apply all_errored_blocks_In in Hb. }
  assert (Htests : Forall (fun tb =>
                  Test.passed (TestAndBlock.test tb) = false
                  /\ In (TestAndBlock.test tb)
                       (TestBlock.tests (TestAndBlock.block tb))
                  /\ exists blocks0,
                       Ok blocks = Ok blocks0
                       /\ In (TestAndBlock.block tb) blocks0)
          (all_failing_tests blocks)).
  { apply List.Forall_forall. intros tb Htb.
    apply all_failing_tests_In in Htb as (Hb & Ht & Hp).
    repeat split; try assumption. exists blocks. auto. }
  assert (Hempty : (all_failing_tests blocks = [] /\ all_errored_blocks blocks = [])
            <-> forall block, In block blocks ->
                  TestBlock.error block = false
                  /\ forall test, In test (TestBlock.tests block) ->
                        Test.passed test = true).
  { split.
    - intros [Ht Hb] block Hin. split.
      + destruct (TestBlock.error block) eqn:He; [|reflexivity].
        assert (Hx : In block (all_errored_blocks blocks))
          by (apply all_errored_blocks_In; auto).
        rewrite Hb in Hx. destruct Hx.
      + intros test Htest.
        destruct (Test.passed test) eqn:Hp; [reflexivity|].
        assert (Hx : In (TestAndBlock.mk test block) (all_failing_tests blocks))
          by (apply all_failing_tests_In; simpl; auto).
        rewrite Ht in Hx. destruct Hx.
    - intros Hall. split.
      + destruct (all_failing_tests blocks) as [|tb tbs] eqn:E; [reflexivity|].
        assert (Hx : In tb (all_failing_tests blocks)) by (rewrite E; now left).
        apply all_failing_tests_In in Hx as (Hb & Ht & Hp).
        destruct (Hall _ Hb) as [_ Hpass]. rewrite (Hpass _ Ht) in Hp.
        discriminate.
      + destruct (all_errored_blocks blocks) as [|b bs] eqn:E; [reflexivity|].
        assert (Hx : In b (all_errored_blocks blocks)) by (rewrite E; now left).
        apply all_errored_blocks_In in Hx as [Hb He].
        destruct (Hall _ Hb) as [He' _]. rewrite He in He'. discriminate. }
  split; [|split; [|split]].
  - intros invalids Hf.
    destruct (all_failing_tests blocks) as [|tb tbs] eqn:Et;
      destruct (all_errored_blocks blocks) as [|b bs] eqn:Eb; simpl in Hf;
      try discriminate; injection Hf as <-; simpl;
      (split; [reflexivity|]); (split; [assumption|]); (split; [assumption|]);
      ((left; discriminate) || (right; discriminate)).
  - destruct (all_failing_tests blocks), (all_errored_blocks blocks);
      simpl; (reflexivity || discriminate).
  - destruct (all_failing_tests blocks), (all_errored_blocks blocks);
      simpl; try discriminate; eauto.
  - intros blocks0 [= <-]. rewrite collect_invalid_spec. simpl.
    split.
    + destruct (all_failing_tests blocks), (all_errored_blocks blocks);
        simpl; split; (reflexivity || discriminate).
    + rewrite <- Hempty. split.
      * intros [= -> ->]. auto.
      * intros [-> ->]. reflexivity.
Qed.

(** The instance of [C7_failure_report_invariants] at a wheat with a
    failing test in block A and an error in block B. *)
Lemma C7_failure_report_invariants_witness :
  let report := get_invalid_tests_and_blocks sample_wheat_failing in
  let invalids :=
    Failures.mk [TestAndBlock.mk sample_test_failing sample_block_A]
      [sample_block_B] in
  TestFailureReport.failures report = Some invalids
  /\ TestFailureReport.success report = TestFailure.Fail
  /\ Forall (fun block => TestBlock.error block = true)
       (Failures.blocks invalids)
  /\ Forall (fun tb =>
               Test.passed (TestAndBlock.test tb) = false
               /\ In (TestAndBlock.test tb)
                    (TestBlock.tests (TestAndBlock.block tb))
               /\ exists blocks,
                    Evaluation.result sample_wheat_failing = Ok blocks
                    /\ In (TestAndBlock.block tb) blocks)
       (Failures.tests invalids)
  /\ (Failures.tests invalids <> [] \/ Failures.blocks invalids <> []).
Proof.
  intros report invalids.
  assert (Hf : TestFailureReport.failures report = Some invalids)
    by reflexivity.
  split; [exact Hf|].
  exact (proj1 (C7_failure_report_invariants sample_wheat_failing) invalids Hf).
Defined.

(** ** C9: an empty [Fail] report is fatal, and is never built *)

Lemma push_each_spec {A : Type} (f : A -> string) xs messages :
  push_each f xs messages = messages ++ map f xs.
Proof.
  revert messages. induction xs as [|x rest IH]; intros messages; simpl.
  - now rewrite app_nil_r.
  - rewrite IH. now rewrite <- app_assoc.
Qed.

Lemma string_length_append (s1 s2 : string) :
  String.length (s1 +:+ s2) = String.length s1 + String.length s2.
Proof. induction s1 as [|c s1 IH]; simpl; [reflexivity|now rewrite IH]. Qed.

Lemma append_each_length {A : Type} (f : A -> string) xs output :
  String.length output <= String.length (append_each f xs output).
Proof.
  revert output. induction xs as [|x rest IH]; intros output; simpl.
  - lia.
  - etransitivity; [|apply IH]. rewrite string_length_append. lia.
Qed.

Lemma assign_each_last {A : Type} (f : A -> string) xs output :
  assign_each f xs output
  = match List.last (map Some xs) None with
    | Some x => f x
    | None => output
    end.
Proof.
  revert output. induction xs as [|x rest IH]; intros output.
  - reflexivity.
  - simpl assign_each. rewrite IH.
    destruct rest as [|y rest']; [reflexivity|].
    change (List.last (map Some (x :: y :: rest')) None)
      with (List.last (map Some (y :: rest')) None).
    destruct (List.last (map Some (y :: rest')) None) eqn:E; [reflexivity|].
    exfalso. clear -E. revert y E.
    induction rest' as [|z rest'' IH']; intros y E.
    + discriminate.
    + apply (IH' z). exact E.
Qed.

Lemma detailed_wheat_output_nonempty tests blocks :
  tests <> [] \/ blocks <> [] ->
  String.eqb
    (assign_each detailed_wheat_block_message blocks
       (append_each detailed_wheat_test_message tests EmptyString))
    EmptyString = false.
Proof.
  intros Hne. rewrite assign_each_last.
  destruct (List.last (map Some blocks) None) as [block|] eqn:E.
  - reflexivity.
  - destruct blocks as [|b bs].
    + destruct Hne as [Hne|Hne]; [|congruence].
      destruct tests as [|t ts]; [congruence|].
      simpl append_each.
      change (EmptyString +:+ detailed_wheat_test_message t)
        with (detailed_wheat_test_message t).
      pose proof (append_each_length detailed_wheat_test_message ts
                    (detailed_wheat_test_message t)) as Hlen.
      destruct (append_each detailed_wheat_test_message ts
                  (detailed_wheat_test_message t)); [|reflexivity].
      simpl in Hlen. lia.
    + exfalso. clear -E. revert b E.
      induction bs as [|z bs IH]; intros b E.
      * discriminate.
      * apply (IH z). exact E.
Qed.

(** What [generate_wheat_messages] returns, by the result of the wheat. *)
Lemma generate_wheat_messages_Err wheat e :
  Evaluation.result wheat = Err e ->
  generate_wheat_messages wheat
  = Return (WheatMessagesReport.mk false
              (Some ["Wheat errored; " +:+ Err.to_string e])).
Proof.
  intros Hres. unfold generate_wheat_messages.
  rewrite (get_invalid_tests_and_blocks_Err _ _ Hres).
  unfold generate_wheat_messages_of, template_of_Err. simpl.
  now rewrite Hres.
Qed.

Lemma generate_wheat_messages_Ok wheat blocks :
  Evaluation.result wheat = Ok blocks ->
  generate_wheat_messages wheat
  = Return
      (match all_failing_tests blocks, all_errored_blocks blocks with
       | [], [] => WheatMessagesReport.mk true None
       | tests, errored =>
           WheatMessagesReport.mk true
             (Some (map wheat_block_message errored
                    ++ map wheat_test_message tests))
       end).
Proof.
  intros Hres. unfold generate_wheat_messages.
  rewrite (get_invalid_tests_and_blocks_Ok _ _ Hres).
  unfold generate_wheat_messages_of.
  report_cases blocks;
    rewrite ?push_each_spec; simpl; rewrite ?app_nil_r; reflexivity.
Qed.

Lemma generate_examplar_chaff_report_total
    {number : Type} {number_ops : JsNumber number} chaff chaff_number :
  exists report, generate_examplar_chaff_report chaff chaff_number = Return report.
Proof.
  unfold generate_examplar_chaff_report.
  destruct (Evaluation.result chaff) as [blocks|e] eqn:Hres.
  - rewrite (get_invalid_tests_and_blocks_Ok _ _ Hres).
    unfold generate_examplar_chaff_report_of.
    report_cases blocks; rewrite ?push_each_spec; simpl; eauto.
  - rewrite (get_invalid_tests_and_blocks_Err _ _ Hres). simpl. eauto.
Qed.

Lemma generate_detailed_wheat_report_of_total
    {number : Type} {number_ops : JsNumber number} wheat :
  exists output,
    generate_detailed_wheat_report_of wheat (get_invalid_tests_and_blocks wheat)
    = Return
        (output,
         match TestFailureReport.success (get_invalid_tests_and_blocks wheat)
         with
         | TestFailure.Pass => one
         | _ => zero
         end).
Proof.
  destruct (get_invalid_tests_and_blocks_shape wheat)
    as [[Hs Hf]|[[Hs Hf]|(invalids & Hs & Hf & Hne)]];
    unfold generate_detailed_wheat_report_of; rewrite Hs; eauto.
  rewrite Hf. rewrite detailed_wheat_output_nonempty by assumption. eauto.
Qed.

(** C9.  Each of the three report generators that turn a failure report
    into a verdict (the wheat messages, the examplar chaff report and the
    detailed wheat report) throws, on a [Fail] report whose [tests] and
    [blocks] are both empty, a string containing [no reason given]; it does
    not return a verdict.  And that branch is unreachable: a [Fail] report
    built by the failure detector carries a failing test or an errored
    block, so on the detector's report of any evaluation the three
    generators return. *)
Theorem C9_empty_fail_report_is_fatal
    {number : Type} {number_ops : JsNumber number} :
  (forall (evaluation : Evaluation.t) (chaff_number : nat)
          (report : TestFailureReport.t),
      TestFailureReport.success report = TestFailure.Fail ->
      TestFailureReport.failures report = Some (Failures.mk [] []) ->
      (exists msg,
          generate_wheat_messages_of evaluation report = Throw (ThrowString msg)
          /\ includes "no reason given" msg = true)
      /\ (exists msg,
            generate_examplar_chaff_report_of evaluation chaff_number report
            = Throw (ThrowString msg)
            /\ includes "no reason given" msg = true)
      /\ (exists msg,
            generate_detailed_wheat_report_of evaluation report
            = Throw (ThrowString msg)
            /\ includes "no reason given" msg = true))
  /\ (forall (evaluation : Evaluation.t) (chaff_number : nat),
        let report := get_invalid_tests_and_blocks evaluation in
        (TestFailureReport.success report = TestFailure.Fail ->
         exists invalids,
           TestFailureReport.failures report = Some invalids
           /\ (Failures.tests invalids <> [] \/ Failures.blocks invalids <> []))
        /\ (exists messages,
              generate_wheat_messages_of evaluation report = Return messages)
        /\ (exists name_output,
              generate_examplar_chaff_report_of evaluation chaff_number report
              = Return name_output)
        /\ (exists output_score,
              generate_detailed_wheat_report_of evaluation report
              = Return output_score)).
Proof.
  split.
  - intros evaluation chaff_number report Hs Hf.
    unfold generate_wheat_messages_of, generate_examplar_chaff_report_of,
      generate_detailed_wheat_report_of.
    rewrite Hs, Hf. simpl.
    repeat split; eexists; (split; [reflexivity|]); reflexivity.
  - intros evaluation chaff_number report. subst report.
    split; [|split; [|split]].
    + intros Hfail.
      destruct (get_invalid_tests_and_blocks_shape evaluation)
        as [[Hs _]|[[Hs _]|(invalids & _ & Hf & Hne)]];
        try (rewrite Hs in Hfail; discriminate).
      eauto.
    + destruct (Evaluation.result evaluation) as [blocks|e] eqn:Hres.
      * pose proof (generate_wheat_messages_Ok _ _ Hres) as H.
        unfold generate_wheat_messages in H. eauto.
      * pose proof (generate_wheat_messages_Err _ _ Hres) as H.
        unfold generate_wheat_messages in H. eauto.
    + destruct (generate_examplar_chaff_report_total evaluation chaff_number)
        as [report H].
      unfold generate_examplar_chaff_report in H.
      destruct (generate_examplar_chaff_report_of evaluation chaff_number
                  (get_invalid_tests_and_blocks evaluation)); [eauto|].
      discriminate.
    + destruct (generate_detailed_wheat_report_of_total evaluation) as [o H].
      eauto.
Qed.

(** The instance of [C9_empty_fail_report_is_fatal] at the empty [Fail]
    report and at a wheat that fails. *)
Lemma C9_empty_fail_report_is_fatal_witness :
  (exists msg,
      generate_wheat_messages_of sample_wheat_failing empty_fail_report
      = Throw (ThrowString msg)
      /\ includes "no reason given" msg = true)
  /\ (exists invalids,
        TestFailureReport.failures
          (get_invalid_tests_and_blocks sample_wheat_failing) = Some invalids
        /\ (Failures.tests invalids <> [] \/ Failures.blocks invalids <> [])).
Proof.
  split.
  - exact (proj1 (proj1 C9_empty_fail_report_is_fatal
                    sample_wheat_failing 0 empty_fail_report
                    eq_refl eq_refl)).
  - exact (proj1 (proj2 C9_empty_fail_report_is_fatal sample_wheat_failing 0)
             eq_refl).
Defined.

(** ** The aggregate wheat verdict (C1, C6) *)

Lemma collect_wheat_messages_spec wheat_results valid messages :
  collect_wheat_messages wheat_results (valid, messages)
  = Return (valid && forallb ran wheat_results,
            messages ++ wheat_errored_messages wheat_results).
Proof.
  revert valid messages.
  induction wheat_results as [|wheat rest IH]; intros valid messages.
  - simpl. now rewrite andb_true_r, app_nil_r.
  - cbn [collect_wheat_messages wheat_errored_messages flat_map forallb].
    unfold ran at 1.
    destruct (Evaluation.result wheat) as [blocks|e] eqn:Hres.
    + rewrite (generate_wheat_messages_Ok _ _ Hres).
      assert (Hvalid : forall r,
                 r = match all_failing_tests blocks, all_errored_blocks blocks
                     with
                     | [], [] => WheatMessagesReport.mk true None
                     | tests, errored =>
                         WheatMessagesReport.mk true
                           (Some (map wheat_block_message errored
                                  ++ map wheat_test_message tests))
                     end ->
                 WheatMessagesReport.valid r = true).
      { intros r ->.
        destruct (all_failing_tests blocks), (all_errored_blocks blocks);
          reflexivity. }
      cbn [bind]. rewrite (Hvalid _ eq_refl). cbn [negb].
      rewrite IH. reflexivity.
    + rewrite (generate_wheat_messages_Err _ _ Hres).
      cbn [bind WheatMessagesReport.valid WheatMessagesReport.messages negb snd].
      rewrite IH. rewrite andb_false_r. cbn [andb].
      unfold wheat_errored_message. now rewrite <- app_assoc.
Qed.

(** The aggregate report always exists; it is [VALID] exactly when every
    wheat ran, whatever its tests did, and otherwise lists the deduplicated
    messages of the wheats that did not run. *)
Lemma generate_examplar_wheat_report_spec
    {number : Type} {number_ops : JsNumber number}
    wheat_results :
  generate_examplar_wheat_report wheat_results
  = Return
      {| GradescopeTestReport.name :=
           if forallb ran wheat_results then "VALID" else "INVALID";
         GradescopeTestReport.output :=
           if forallb ran wheat_results
           then "These tests are valid and consistent with the assignment handout."
           else "Your test suite failed at least one of our wheats." +:+ nl
                +:+ join nl (remove_duplicates
                               (wheat_errored_messages wheat_results));
         GradescopeTestReport.score := None;
         GradescopeTestReport.max_score := None;
         GradescopeTestReport.visibility := Visible;
         GradescopeTestReport.section := ReportSection.Wheat;
         GradescopeTestReport.type := ReportType.Examplar |}.
Proof.
  unfold generate_examplar_wheat_report.
  rewrite collect_wheat_messages_spec. cbn [bind fst snd andb app].
  destruct (forallb ran wheat_results); reflexivity.
Qed.

(** C1.  The aggregate verdict of a single wheat whose suite ran and hit an
    errored block: the failure detector reports [Fail], the wheat's messages
    are built, yet they are returned with [valid: true], so the verdict is
    [VALID] and the output is the success text without the message. *)
Theorem C1_failing_wheat_is_reported_VALID
    {number : Type} {number_ops : JsNumber number} :
  TestFailureReport.success
    (get_invalid_tests_and_blocks sample_wheat_block_error) = TestFailure.Fail
  /\ generate_wheat_messages sample_wheat_block_error
     = Return (WheatMessagesReport.mk true
                 (Some ["Block " +:+ dq +:+ "B" +:+ dq
                        +:+ " at lines 5:0-7:3 raised an error."]))
  /\ exists report,
       generate_examplar_wheat_report [sample_wheat_block_error] = Return report
       /\ GradescopeTestReport.name report = "VALID"
       /\ GradescopeTestReport.output report
          = "These tests are valid and consistent with the assignment handout."
       /\ includes "raised an error" (GradescopeTestReport.output report)
          = false.
Proof.
  split; [reflexivity|]. split; [reflexivity|].
  eexists. split; [reflexivity|]. repeat split.
Qed.

(** *** The deduplication step *)

Lemma Array_includes_In xs v : Array_includes xs v = true <-> In v xs.
Proof.
  unfold Array_includes. rewrite existsb_exists. split.
  - intros (x & Hin & Heq). apply String.eqb_eq in Heq. now subst.
  - intros Hin. exists v. split; [assumption|apply String.eqb_refl].
Qed.

Lemma Array_includes_app xs ys v :
  Array_includes (xs ++ ys) v = Array_includes xs v || Array_includes ys v.
Proof. unfold Array_includes. apply existsb_app. Qed.

Lemma indexOf_None xs v : indexOf xs v = None <-> Array_includes xs v = false.
Proof.
  induction xs as [|x rest IH]; simpl; [tauto|].
  rewrite (String.eqb_sym v x).
  destruct (String.eqb x v); simpl; [split; discriminate|].
  rewrite <- IH. destruct (indexOf rest v); simpl; split; congruence.
Qed.

Lemma indexOf_lt xs v i : indexOf xs v = Some i -> i < length xs.
Proof.
  revert i. induction xs as [|x rest IH]; intros i; simpl; [discriminate|].
  destruct (String.eqb x v).
  - intros [= <-]. lia.
  - destruct (indexOf rest v) as [j|]; simpl; [|discriminate].
    intros [= <-]. specialize (IH j eq_refl). lia.
Qed.

Lemma indexOf_app pre suf v :
  indexOf (pre ++ suf) v
  = match indexOf pre v with
    | Some i => Some i
    | None => (fun i => length pre + i) <$> indexOf suf v
    end.
Proof.
  induction pre as [|x pre IH]; simpl.
  - now destruct (indexOf suf v).
  - destruct (String.eqb x v); [reflexivity|].
    rewrite IH. destruct (indexOf pre v); simpl; [reflexivity|].
    now destruct (indexOf suf v).
Qed.

Lemma first_occurrences_ext seen seen' xs :
  (forall v, Array_includes seen v = Array_includes seen' v) ->
  first_occurrences seen xs = first_occurrences seen' xs.
Proof.
  revert seen seen'. induction xs as [|x rest IH]; intros seen seen' Hsame.
  - reflexivity.
  - simpl. rewrite <- Hsame.
    destruct (Array_includes seen x); [now apply IH|].
    f_equal. apply IH. intros v. rewrite !Array_includes_app.
    now rewrite Hsame.
Qed.

Lemma filteri_indexOf_first_occurrences pre suf :
  filteri_from
    (fun v i => bool_decide (indexOf (pre ++ suf) v = Some i))
    (length pre) suf
  = first_occurrences pre suf.
Proof.
  revert pre. induction suf as [|x rest IH]; intros pre.
  - reflexivity.
  - cbn [filteri_from first_occurrences].
    assert (Hstep : filteri_from
              (fun v i => bool_decide (indexOf (pre ++ x :: rest) v = Some i))
              (S (length pre)) rest
            = first_occurrences (pre ++ [x]) rest).
    { specialize (IH (pre ++ [x])).
      rewrite <- app_assoc in IH. simpl in IH.
      rewrite length_app in IH. simpl in IH.
      now replace (length pre + 1) with (S (length pre)) in IH by lia. }
    rewrite Hstep. rewrite indexOf_app.
    destruct (indexOf pre x) as [i|] eqn:Hpre.
    + assert (Hin : Array_includes pre x = true).
      { destruct (Array_includes pre x) eqn:E; [reflexivity|].
        apply indexOf_None in E. congruence. }
      rewrite Hin. apply indexOf_lt in Hpre.
      rewrite bool_decide_eq_false_2 by (intros [= ->]; lia).
      apply first_occurrences_ext. intros v.
      rewrite Array_includes_app.
      change (Array_includes [x] v) with (String.eqb v x || false).
      destruct (String.eqb_spec v x) as [->|Hne].
      * now rewrite Hin.
      * now rewrite !orb_false_r.
    + apply indexOf_None in Hpre. rewrite Hpre.
      simpl. rewrite String.eqb_refl. simpl.
      rewrite bool_decide_eq_true_2 by (f_equal; lia).
      reflexivity.
Qed.

(** [remove_duplicates] keeps the first occurrence of every message and
    drops the later ones. *)
Lemma remove_duplicates_first_occurrences messages :
  remove_duplicates messages = first_occurrences [] messages.
Proof.
  unfold remove_duplicates, filteri.
  apply (filteri_indexOf_first_occurrences [] messages).
Qed.

Lemma first_occurrences_In seen xs v :
  In v (first_occurrences seen xs) <-> In v xs /\ ~ In v seen.
Proof.
  revert seen. induction xs as [|x rest IH]; intros seen; simpl; [tauto|].
  destruct (Array_includes seen x) eqn:E.
  - apply Array_includes_In in E. rewrite IH. split.
    + tauto.
    + intros [[->|Hin] Hseen]; tauto.
  - assert (Hx : ~ In x seen).
    { intros Hin. apply Array_includes_In in Hin. congruence. }
    simpl. rewrite IH, in_app_iff. simpl. split.
    + intros [->|[Hin Hseen]]; [tauto|]. split; [tauto|]. tauto.
    + intros [[->|Hin] Hseen]; [tauto|].
      destruct (string_dec x v) as [->|Hne]; [tauto|]. right. tauto.
Qed.

Lemma first_occurrences_NoDup seen xs :
  List.NoDup (first_occurrences seen xs).
Proof.
  revert seen. induction xs as [|x rest IH]; intros seen; simpl.
  - constructor.
  - destruct (Array_includes seen x); [apply IH|].
    apply List.NoDup_cons_iff. split; [|apply IH].
    rewrite first_occurrences_In, in_app_iff. simpl. tauto.
Qed.

Lemma first_occurrences_sublist seen xs : sublist (first_occurrences seen xs) xs.
Proof.
  revert seen. induction xs as [|x rest IH]; intros seen; simpl.
  - constructor.
  - destruct (Array_includes seen x).
    + apply sublist_cons, IH.
    + apply sublist_skip, IH.
Qed.

(** The message block of an [INVALID] explanation holds the first
    occurrences of the collected messages: no message twice, none lost, in
    their order. *)
Lemma invalid_explanation_messages
    {number : Type} {number_ops : JsNumber number}
    wheat_results :
  forallb ran wheat_results = false ->
  exists report,
    generate_examplar_wheat_report wheat_results = Return report
    /\ GradescopeTestReport.name report = "INVALID"
    /\ GradescopeTestReport.output report
       = "Your test suite failed at least one of our wheats." +:+ nl
         +:+ join nl (first_occurrences []
                        (wheat_errored_messages wheat_results)).
Proof.
  intros Hran. rewrite generate_examplar_wheat_report_spec, Hran.
  eexists. split; [reflexivity|]. split; [reflexivity|]. simpl.
  now rewrite remove_duplicates_first_occurrences.
Qed.

(** C6.  The aggregate explanation of a wheat that timed out, a wheat with
    an errored block and the timed-out wheat again: the explanation is
    [INVALID], the repeated time-out message appears once, and the message
    of the wheat with the errored block, which [generate_wheat_messages]
    builds, is not in it, because that wheat's messages come back with
    [valid: true] and are never collected. *)
Theorem C6_failing_wheat_messages_are_not_collected
    {number : Type} {number_ops : JsNumber number} :
  let wheat_results :=
    [sample_wheat_timeout; sample_wheat_block_error; sample_wheat_timeout] in
  let message :=
    "Block " +:+ dq +:+ "B" +:+ dq +:+ " at lines 5:0-7:3 raised an error." in
  generate_wheat_messages sample_wheat_block_error
  = Return (WheatMessagesReport.mk true (Some [message]))
  /\ exists report,
       generate_examplar_wheat_report wheat_results = Return report
       /\ GradescopeTestReport.name report = "INVALID"
       /\ GradescopeTestReport.output report
          = "Your test suite failed at least one of our wheats." +:+ nl
            +:+ "Wheat errored; Timeout"
       /\ includes message (GradescopeTestReport.output report) = false.
Proof.
  split; [reflexivity|].
  eexists. split; [reflexivity|]. repeat split.
Qed.

(** ** The detailed wheat report (C4) *)

Section DetailedReports.

Variable path_basename : string -> string.

(** The detailed report of a wheat always exists, and scores 1 out of 1 when
    the failure report is [Pass] and 0 out of 1 otherwise. *)
Lemma generate_detailed_wheat_report_score
    {number : Type} {number_ops : JsNumber number} wheat :
  exists output,
    generate_detailed_wheat_report path_basename wheat
    = Return
        {| GradescopeTestReport.name :=
             "Wheat: " +:+ get_code_file_name path_basename wheat;
           GradescopeTestReport.score :=
             Some match TestFailureReport.success
                          (get_invalid_tests_and_blocks wheat) with
                  | TestFailure.Pass => one
                  | _ => zero
                  end;
           GradescopeTestReport.max_score := Some one;
           GradescopeTestReport.output := output;
           GradescopeTestReport.visibility := AfterPublished;
           GradescopeTestReport.section := ReportSection.Wheat;
           GradescopeTestReport.type := ReportType.Detailed |}.
Proof.
  destruct (generate_detailed_wheat_report_of_total wheat) as [output H].
  exists output. unfold generate_detailed_wheat_report. now rewrite H.
Qed.

(** With an errored block in the report, the output is the message of the
    last errored block alone: each pass of the loop over the blocks assigns
    [output] afresh. *)
Lemma generate_detailed_wheat_report_of_errored
    {number : Type} {number_ops : JsNumber number} wheat blocks errored block :
  Evaluation.result wheat = Ok blocks ->
  all_errored_blocks blocks = errored ++ [block] ->
  generate_detailed_wheat_report_of wheat (get_invalid_tests_and_blocks wheat)
  = Return (detailed_wheat_block_message block, zero).
Proof.
  intros Hres Herr.
  rewrite (get_invalid_tests_and_blocks_Ok _ _ Hres), Herr.
  assert (Hlast : forall output,
             assign_each detailed_wheat_block_message (errored ++ [block]) output
             = detailed_wheat_block_message block).
  { intros output. rewrite assign_each_last, List.map_app. simpl map.
    now rewrite List.last_last. }
  unfold generate_detailed_wheat_report_of.
  destruct (errored ++ [block]) as [|b l] eqn:El.
  { now destruct errored. }
  destruct (all_failing_tests blocks);
    cbn [TestFailureReport.success TestFailureReport.failures
         Failures.tests Failures.blocks];
    rewrite Hlast; reflexivity.
Qed.

(** C4.  The detailed report of a wheat with a failing test in block A and
    an error in block B scores 0 out of 1, and its output names block B
    only: the line about the failing test in block A, written first, is
    overwritten by the loop over the errored blocks. *)
Theorem C4_block_error_overwrites_failing_test :
  TestFailureReport.failures (get_invalid_tests_and_blocks sample_wheat_failing)
  = Some (Failures.mk [TestAndBlock.mk sample_test_failing sample_block_A]
            [sample_block_B])
  /\ exists report,
       generate_detailed_wheat_report path_basename sample_wheat_failing
       = Return report
       /\ GradescopeTestReport.score report = Some 0%Z
       /\ GradescopeTestReport.max_score report = Some 1%Z
       /\ GradescopeTestReport.output report
          = "Wheat caused error in block " +:+ dq +:+ "B" +:+ dq +:+ nl
       /\ includes (dq +:+ "A" +:+ dq) (GradescopeTestReport.output report)
          = false.
Proof.
  split; [reflexivity|].
  eexists. split; [reflexivity|]. repeat split.
Qed.

End DetailedReports.

(** ** The detailed chaff report (C5, C3) *)

Lemma collect_all_invalid_ran wheat_results tests blocks :
  forallb ran wheat_results = true ->
  collect_all_invalid wheat_results tests blocks
  = Return (tests ++ flat_map wheat_invalid_tests wheat_results,
            blocks ++ flat_map wheat_invalid_blocks wheat_results).
Proof.
  revert tests blocks.
  induction wheat_results as [|wheat rest IH]; intros tests blocks Hran.
  - simpl. now rewrite !app_nil_r.
  - simpl in Hran. apply andb_true_iff in Hran as [Hwheat Hrest].
    unfold ran in Hwheat.
    destruct (Evaluation.result wheat) as [wblocks|e] eqn:Hres;
      [|discriminate].
    cbn [collect_all_invalid flat_map].
    unfold wheat_invalid_tests at 1, wheat_invalid_blocks at 1.
    rewrite (get_invalid_tests_and_blocks_Ok _ _ Hres), Hres.
    report_cases wblocks;
      rewrite (IH _ _ Hrest); cbn [map app]; rewrite ?app_nil_r;
      rewrite <- ?app_assoc; reflexivity.
Qed.

Lemma collect_all_invalid_errored wheat_results tests blocks :
  forallb ran wheat_results = false ->
  collect_all_invalid wheat_results tests blocks = Throw TypeError.
Proof.
  revert tests blocks.
  induction wheat_results as [|wheat rest IH]; intros tests blocks Hran.
  - discriminate.
  - simpl in Hran. cbn [collect_all_invalid].
    destruct (get_invalid_tests_and_blocks_shape wheat)
      as [[Hs Hf]|[[Hs Hf]|(invalids & Hs & Hf & _)]]; rewrite Hs, ?Hf.
    + apply IH. unfold ran in Hran.
      destruct (Evaluation.result wheat) as [wblocks|e] eqn:Hres;
        [exact Hran|].
      rewrite (get_invalid_tests_and_blocks_Err _ _ Hres) in Hs. discriminate.
    + reflexivity.
    + apply IH. unfold ran in Hran.
      destruct (Evaluation.result wheat) as [wblocks|e] eqn:Hres;
        [exact Hran|].
      rewrite (get_invalid_tests_and_blocks_Err _ _ Hres) in Hs. discriminate.
Qed.

Lemma forallb_ran_false wheat_results wheat e :
  In wheat wheat_results -> Evaluation.result wheat = Err e ->
  forallb ran wheat_results = false.
Proof.
  intros Hin Hres.
  destruct (forallb ran wheat_results) eqn:E; [|reflexivity].
  rewrite forallb_forall in E. specialize (E _ Hin).
  unfold ran in E. rewrite Hres in E. discriminate.
Qed.

(** The array [all_invalid_locs] holds exactly the known-bad locations. *)
Lemma all_invalid_locs_of_known_bad wheat_results all_invalid_locs :
  all_invalid_locs_of wheat_results = Return all_invalid_locs ->
  forall loc, In loc all_invalid_locs <-> known_bad wheat_results loc.
Proof.
  unfold all_invalid_locs_of. intros Hlocs loc.
  destruct (forallb ran wheat_results) eqn:Hran.
  2:{ rewrite collect_all_invalid_errored in Hlocs by assumption.
      discriminate. }
  rewrite collect_all_invalid_ran in Hlocs by assumption.
  cbn [bind app] in Hlocs. injection Hlocs as <-.
  rewrite in_app_iff, !in_map_iff. unfold known_bad.
  assert (Hwheat : forall wheat, In wheat wheat_results ->
            exists wblocks, Evaluation.result wheat = Ok wblocks).
  { intros wheat Hin. rewrite forallb_forall in Hran.
    specialize (Hran _ Hin). unfold ran in Hran.
    destruct (Evaluation.result wheat); [eauto|discriminate]. }
  assert (Hfail : forall wheat wblocks invalids,
            Evaluation.result wheat = Ok wblocks ->
            TestFailureReport.failures (get_invalid_tests_and_blocks wheat)
            = Some invalids ->
            Failures.tests invalids = all_failing_tests wblocks
            /\ Failures.blocks invalids = all_errored_blocks wblocks).
  { intros wheat wblocks invalids Hres Hf.
    rewrite (get_invalid_tests_and_blocks_Ok _ _ Hres) in Hf.
    destruct (all_failing_tests wblocks), (all_errored_blocks wblocks);
      simpl in Hf; try discriminate; injection Hf as <-; auto. }
  assert (Hsome : forall wheat wblocks,
            Evaluation.result wheat = Ok wblocks ->
            all_failing_tests wblocks <> [] \/ all_errored_blocks wblocks <> [] ->
            TestFailureReport.failures (get_invalid_tests_and_blocks wheat)
            = Some (Failures.mk (all_failing_tests wblocks)
                      (all_errored_blocks wblocks))).
  { intros wheat wblocks Hres Hne.
    rewrite (get_invalid_tests_and_blocks_Ok _ _ Hres).
    destruct (all_failing_tests wblocks), (all_errored_blocks wblocks);
      try reflexivity. destruct Hne; congruence. }
  split.
  - intros [(test & <- & Hin)|(block & <- & Hin)].
    + apply in_flat_map in Hin as (wheat & Hw & Hin).
      destruct (Hwheat _ Hw) as [wblocks Hres].
      unfold wheat_invalid_tests in Hin. rewrite Hres in Hin.
      apply in_map_iff in Hin as (tb & <- & Hin).
      exists wheat. eexists. split; [assumption|]. split.
      * apply (Hsome _ _ Hres). left. intros E. rewrite E in Hin. destruct Hin.
      * left. simpl. apply in_map_iff. eauto.
    + apply in_flat_map in Hin as (wheat & Hw & Hin).
      destruct (Hwheat _ Hw) as [wblocks Hres].
      unfold wheat_invalid_blocks in Hin. rewrite Hres in Hin.
      exists wheat. eexists. split; [assumption|]. split.
      * apply (Hsome _ _ Hres). right. intros E. rewrite E in Hin. destruct Hin.
      * right. simpl. apply in_map_iff. eauto.
  - intros (wheat & invalids & Hw & Hf & Hin).
    destruct (Hwheat _ Hw) as [wblocks Hres].
    destruct (Hfail _ _ _ Hres Hf) as [Ht Hb]. rewrite Ht, Hb in Hin.
    destruct Hin as [Hin|Hin].
    + left. apply in_map_iff in Hin as (tb & <- & Hin).
      exists (TestAndBlock.test tb). split; [reflexivity|].
      apply in_flat_map. exists wheat. split; [assumption|].
      unfold wheat_invalid_tests. rewrite Hres. apply in_map_iff. eauto.
    + right. apply in_map_iff in Hin as (block & <- & Hin).
      exists block. split; [reflexivity|].
      apply in_flat_map. exists wheat. split; [assumption|].
      unfold wheat_invalid_blocks. now rewrite Hres.
Qed.

Lemma chaff_scan_tests_spec all_invalid_locs block tests :
  chaff_scan_tests all_invalid_locs block tests
  = if existsb (test_unmasked all_invalid_locs) tests
    then Some (test_citation block, 1%Z)
    else None.
Proof.
  induction tests as [|test rest IH]; [reflexivity|].
  cbn [chaff_scan_tests existsb]. fold (test_unmasked all_invalid_locs test).
  destruct (test_unmasked all_invalid_locs test); [reflexivity|exact IH].
Qed.

Lemma chaff_scan_blocks_cons all_invalid_locs block rest :
  chaff_scan_blocks all_invalid_locs (block :: rest)
  = if error_unmasked all_invalid_locs block
    then (error_citation block, 1%Z)
    else if has_unmasked_test all_invalid_locs block
    then (test_citation block, 1%Z)
    else chaff_scan_blocks all_invalid_locs rest.
Proof.
  cbn [chaff_scan_blocks]. fold (error_unmasked all_invalid_locs block).
  rewrite chaff_scan_tests_spec. fold (has_unmasked_test all_invalid_locs block).
  destruct (error_unmasked all_invalid_locs block); [reflexivity|].
  destruct (has_unmasked_test all_invalid_locs block); reflexivity.
Qed.

Lemma chaff_scan_blocks_not_caught all_invalid_locs blocks :
  Forall (fun block => caught_by all_invalid_locs block = false) blocks ->
  chaff_scan_blocks all_invalid_locs blocks = ("Chaff not caught.", 0%Z).
Proof.
  induction 1 as [|block rest Hblock _ IH]; [reflexivity|].
  rewrite chaff_scan_blocks_cons.
  unfold caught_by in Hblock. apply orb_false_iff in Hblock as [-> ->].
  exact IH.
Qed.

Lemma chaff_scan_blocks_caught all_invalid_locs pre block post :
  Forall (fun b => caught_by all_invalid_locs b = false) pre ->
  caught_by all_invalid_locs block = true ->
  chaff_scan_blocks all_invalid_locs (pre ++ block :: post)
  = (if error_unmasked all_invalid_locs block
     then error_citation block else test_citation block, 1%Z).
Proof.
  intros Hpre Hblock.
  induction Hpre as [|b rest Hb _ IH].
  - cbn [app]. rewrite chaff_scan_blocks_cons.
    unfold caught_by in Hblock.
    destruct (error_unmasked all_invalid_locs block); [reflexivity|].
    simpl in Hblock. now rewrite Hblock.
  - cbn [app]. rewrite chaff_scan_blocks_cons.
    unfold caught_by in Hb. apply orb_false_iff in Hb as [-> ->].
    exact IH.
Qed.

(** The first caught block of a list, if any, splits it. *)
Lemma caught_by_split all_invalid_locs blocks :
  Forall (fun b => caught_by all_invalid_locs b = false) blocks
  \/ exists pre block post,
       blocks = pre ++ block :: post
       /\ Forall (fun b => caught_by all_invalid_locs b = false) pre
       /\ caught_by all_invalid_locs block = true.
Proof.
  induction blocks as [|b rest IH].
  - left. constructor.
  - destruct (caught_by all_invalid_locs b) eqn:Hb.
    + right. exists [], b, rest. repeat split; [constructor|assumption].
    + destruct IH as [IH|(pre & block & post & -> & Hpre & Hblock)].
      * left. now constructor.
      * right. exists (b :: pre), block, post.
        repeat split; [now constructor|assumption].
Qed.

Section KnownBad.

Variable wheat_results : list Evaluation.t.
Variable all_invalid_locs : list string.
Hypothesis all_invalid_locs_known_bad :
  forall loc, In loc all_invalid_locs <-> known_bad wheat_results loc.

Lemma Array_includes_known_bad loc :
  Array_includes all_invalid_locs loc = false <-> ~ known_bad wheat_results loc.
Proof.
  rewrite <- all_invalid_locs_known_bad, <- Array_includes_In.
  destruct (Array_includes all_invalid_locs loc); split; congruence.
Qed.

Lemma error_unmasked_iff block :
  error_unmasked all_invalid_locs block = true
  <-> unmasked_error wheat_results block.
Proof.
  unfold error_unmasked, unmasked_error.
  rewrite andb_true_iff, negb_true_iff, Array_includes_known_bad. tauto.
Qed.

Lemma has_unmasked_test_iff block :
  has_unmasked_test all_invalid_locs block = true
  <-> unmasked_failing_test wheat_results block.
Proof.
  unfold has_unmasked_test, unmasked_failing_test, test_unmasked.
  rewrite existsb_exists. split.
  - intros (test & Hin & Htest).
    apply andb_true_iff in Htest as [Hp Hloc].
    apply negb_true_iff in Hp, Hloc.
    apply Array_includes_known_bad in Hloc. eauto.
  - intros (test & Hin & Hp & Hloc). exists test. split; [assumption|].
    apply Array_includes_known_bad in Hloc. now rewrite Hp, Hloc.
Qed.

Lemma caught_by_iff block :
  caught_by all_invalid_locs block = true
  <-> unmasked_failure wheat_results block.
Proof.
  unfold caught_by, unmasked_failure.
  now rewrite orb_true_iff, error_unmasked_iff, has_unmasked_test_iff.
Qed.

Lemma caught_by_false_iff block :
  caught_by all_invalid_locs block = false
  <-> ~ unmasked_failure wheat_results block.
Proof.
  rewrite <- caught_by_iff.
  destruct (caught_by all_invalid_locs block); split; congruence.
Qed.

End KnownBad.

Section DetailedChaffReports.

Variable path_basename : string -> string.
Variable path_dirname : string -> string.

Lemma generate_detailed_chaff_report_inv
    {number : Type} {number_ops : JsNumber number} wheat_results chaff_report :
  generate_detailed_chaff_report path_basename wheat_results
  = Return chaff_report ->
  exists all_invalid_locs,
    all_invalid_locs_of wheat_results = Return all_invalid_locs
    /\ chaff_report = detailed_chaff_report path_basename all_invalid_locs.
Proof.
  unfold generate_detailed_chaff_report.
  destruct (all_invalid_locs_of wheat_results) as [locs|e]; simpl;
    [|discriminate].
  intros [= <-]. eauto.
Qed.

Lemma generate_detailed_chaff_report_errored
    {number : Type} {number_ops : JsNumber number} wheat_results :
  forallb ran wheat_results = false ->
  generate_detailed_chaff_report path_basename wheat_results = Throw TypeError.
Proof.
  intros Hran. unfold generate_detailed_chaff_report, all_invalid_locs_of.
  now rewrite collect_all_invalid_errored.
Qed.

Lemma map_exc_generate_detailed_wheat_report
    {number : Type} {number_ops : JsNumber number} wheat_results :
  exists reports,
    map_exc (generate_detailed_wheat_report path_basename) wheat_results
    = Return reports.
Proof.
  induction wheat_results as [|wheat rest [reports IH]]; simpl; [eauto|].
  destruct (generate_detailed_wheat_report_score path_basename wheat)
    as [output ->].
  simpl. rewrite IH. simpl. eauto.
Qed.

Lemma partition_loop_spec results test_results wheat_results chaff_results :
  partition_loop path_basename path_dirname results
    test_results wheat_results chaff_results
  = (test_results
     ++ List.filter
          (fun r =>
             negb (includes "wheat"
                     (get_code_dir_name path_basename path_dirname r))
             && negb (includes "chaff"
                        (get_code_dir_name path_basename path_dirname r)))
          results,
     wheat_results
     ++ List.filter
          (fun r => includes "wheat"
                      (get_code_dir_name path_basename path_dirname r))
          results,
     chaff_results
     ++ List.filter
          (fun r =>
             negb (includes "wheat"
                     (get_code_dir_name path_basename path_dirname r))
             && includes "chaff"
                  (get_code_dir_name path_basename path_dirname r))
          results).
Proof.
  revert test_results wheat_results chaff_results.
  induction results as [|result rest IH]; intros ts ws cs.
  - simpl. now rewrite !app_nil_r.
  - cbn [partition_loop List.filter].
    destruct (includes "wheat"
                (get_code_dir_name path_basename path_dirname result));
      [|destruct (includes "chaff"
                    (get_code_dir_name path_basename path_dirname result))];
      rewrite IH; cbn [negb andb]; now rewrite <- ?app_assoc.
Qed.

Lemma normalize_code_names_ran evaluation :
  ran (normalize_code_names evaluation) = ran evaluation.
Proof.
  unfold ran, normalize_code_names.
  destruct (Evaluation.result evaluation) eqn:E; simpl; now rewrite ?E.
Qed.

(** C5.  When a wheat did not run, its failure report has no [failures]
    field, building the detailed chaff report generator from the wheats
    raises a [TypeError], and so does the detailed and score phase of
    [main], whatever the chaffs are and also when there are none.  [main]
    itself ends in that [TypeError] on every input in which an evaluation
    classified as a wheat did not run. *)
Theorem C5_errored_wheat_breaks_detailed_reports
    {number : Type} {number_ops : JsNumber number} :
  (forall (wheat_results : list Evaluation.t) (wheat : Evaluation.t)
          (e : Err.t),
      In wheat wheat_results ->
      Evaluation.result wheat = Err e ->
      TestFailureReport.success (get_invalid_tests_and_blocks wheat)
      = TestFailure.Err
      /\ TestFailureReport.failures (get_invalid_tests_and_blocks wheat) = None
      /\ generate_detailed_chaff_report path_basename wheat_results
         = Throw TypeError
      /\ (forall point_values test_results chaff_results,
            detailed_phase path_basename point_values test_results
              wheat_results chaff_results = Throw TypeError)
      /\ (forall point_values test_results,
            detailed_phase path_basename point_values test_results
              wheat_results [] = Throw TypeError))
  /\ (forall (results : list Evaluation.t) (wheat : Evaluation.t) (e : Err.t)
             (examplar_config : option ExamplarConfig.t)
             (point_values : PointData.t),
        In wheat results ->
        includes "wheat" (get_code_dir_name path_basename path_dirname wheat)
        = true ->
        Evaluation.result wheat = Err e ->
        main path_basename path_dirname results examplar_config point_values
        = Throw TypeError).
Proof.
  assert (Hphase : forall wheat_results point_values test_results chaff_results,
            forallb ran wheat_results = false ->
            detailed_phase path_basename point_values test_results
              wheat_results chaff_results = Throw TypeError).
  { intros wheat_results point_values test_results chaff_results Hran.
    unfold detailed_phase.
    destruct (map_exc_generate_detailed_wheat_report wheat_results)
      as [reports ->].
    cbn [bind]. now rewrite generate_detailed_chaff_report_errored. }
  split.
  - intros wheat_results wheat e Hin Hres.
    pose proof (forallb_ran_false _ _ _ Hin Hres) as Hran.
    rewrite (get_invalid_tests_and_blocks_Err _ _ Hres).
    split; [reflexivity|]. split; [reflexivity|].
    split; [now apply generate_detailed_chaff_report_errored|].
    split; intros; now apply Hphase.
  - intros results wheat e examplar_config point_values Hin Hdir Hres.
    unfold main, partition_results. rewrite partition_loop_spec.
    cbn [app].
    set (wheats := map normalize_code_names
                     (List.filter
                        (fun r => includes "wheat"
                           (get_code_dir_name path_basename path_dirname r))
                        results)).
    assert (Hran : forallb ran wheats = false).
    { apply (forallb_ran_false _ (normalize_code_names wheat) e).
      - subst wheats. apply in_map. apply filter_In. auto.
      - unfold normalize_code_names. now rewrite Hres. }
    assert (Hexamplar : exists reports,
              examplar_phase path_basename examplar_config wheats
                (map normalize_code_names
                   (List.filter
                      (fun r =>
                         negb (includes "wheat"
                                 (get_code_dir_name path_basename
                                    path_dirname r))
                         && includes "chaff"
                              (get_code_dir_name path_basename
                                 path_dirname r))
                      results))
              = Return reports).
    { unfold examplar_phase.
      destruct examplar_config as [config|]; [|eauto].
      destruct (ExamplarConfig.useWheats config); [|eauto].
      rewrite generate_examplar_wheat_report_spec, Hran.
      cbn [bind GradescopeTestReport.name]. eauto. }
    destruct Hexamplar as [reports ->]. cbn [bind].
    now rewrite Hphase.
Qed.

(** Once the generator of detailed chaff reports is built from the wheats,
    the report of a chaff is out of 1 and
    - scores 1 when the chaff did not run;
    - when the chaff ran, scores 1 exactly when one of its blocks errored at
      a location that is not known-bad or has a failing test at a location
      that is not known-bad, and scores 0 exactly when there is no such
      block;
    - with no wheat at all, no location is known-bad, and a chaff with an
      errored block or a failing test scores 1.
    The locations are compared as the evaluations hold them at the call. *)
Lemma detailed_chaff_score
    (wheat_results : list Evaluation.t)
    (chaff_report : Evaluation.t -> GradescopeTestReport.t)
    (chaff : Evaluation.t) :
  generate_detailed_chaff_report path_basename wheat_results
  = Return chaff_report ->
  GradescopeTestReport.max_score (chaff_report chaff) = Some 1%Z
  /\ (forall e,
        Evaluation.result chaff = Err e ->
        GradescopeTestReport.score (chaff_report chaff) = Some 1%Z)
  /\ (forall blocks,
        Evaluation.result chaff = Ok blocks ->
        (GradescopeTestReport.score (chaff_report chaff) = Some 1%Z
         <-> exists block,
               In block blocks /\ unmasked_failure wheat_results block)
        /\ (GradescopeTestReport.score (chaff_report chaff) = Some 0%Z
            <-> ~ exists block,
                    In block blocks /\ unmasked_failure wheat_results block))
  /\ (wheat_results = [] ->
      (forall loc, ~ known_bad wheat_results loc)
      /\ forall blocks,
           Evaluation.result chaff = Ok blocks ->
           (exists block,
               In block blocks
               /\ (TestBlock.error block = true
                   \/ exists test,
                        In test (TestBlock.tests block)
                        /\ Test.passed test = false)) ->
           GradescopeTestReport.score (chaff_report chaff) = Some 1%Z).
Proof.
  intros Hgen.
  destruct (generate_detailed_chaff_report_inv _ _ Hgen)
    as (locs & Hlocs & ->).
  pose proof (all_invalid_locs_of_known_bad _ _ Hlocs) as Hknown.
  assert (Hscan : forall blocks,
            Evaluation.result chaff = Ok blocks ->
            (GradescopeTestReport.score
               (detailed_chaff_report path_basename locs chaff) = Some 1%Z
             <-> exists block,
                   In block blocks /\ unmasked_failure wheat_results block)
            /\ (GradescopeTestReport.score
                  (detailed_chaff_report path_basename locs chaff) = Some 0%Z
                <-> ~ exists block,
                        In block blocks
                        /\ unmasked_failure wheat_results block)).
  { intros blocks Hres.
    unfold detailed_chaff_report, get_score_and_output.
    cbn [GradescopeTestReport.score]. rewrite Hres.
    destruct (caught_by_split locs blocks)
      as [Hnone|(pre & block & post & -> & Hpre & Hblock)].
    - rewrite chaff_scan_blocks_not_caught by assumption. cbn [snd].
      assert (Hno : ~ exists block,
                 In block blocks /\ unmasked_failure wheat_results block).
      { intros (block & Hin & Hfail).
        rewrite List.Forall_forall in Hnone. specialize (Hnone _ Hin).
        apply (caught_by_false_iff _ _ Hknown) in Hnone. contradiction. }
      split; split; try discriminate; tauto.
    - rewrite chaff_scan_blocks_caught by assumption. cbn [snd].
      assert (Hyes : exists b,
                 In b (pre ++ block :: post)
                 /\ unmasked_failure wheat_results b).
      { exists block. split.
        - apply in_app_iff. right. now left.
        - now apply (caught_by_iff _ _ Hknown). }
      split; split; try discriminate; tauto. }
  split; [reflexivity|]. split; [|split].
  - intros e Hres. unfold detailed_chaff_report, get_score_and_output.
    now rewrite Hres.
  - exact Hscan.
  - intros ->.
    assert (Hnone : forall loc, ~ known_bad [] loc).
    { intros loc (wheat & _ & [] & _). }
    split; [exact Hnone|].
    intros blocks Hres (block & Hin & Hfail).
    apply (Hscan _ Hres). exists block. split; [assumption|].
    destruct Hfail as [Herr|(test & Htest & Hp)].
    + left. split; [assumption|apply Hnone].
    + right. exists test. repeat split; [assumption..|apply Hnone].
Qed.

(** C3 as amended.  The caught verdict cites the first block, in the order
    of the blocks, that carries an unmasked failure: all blocks before it
    have none.  Within that block an unmasked error is cited in preference
    to the block's failing tests; its unmasked failing test is cited when
    the block has no unmasked error.  A block further down the list is never
    cited, errored or not. *)
Theorem C3_first_block_with_unmasked_failure_is_cited
    (wheat_results : list Evaluation.t)
    (chaff_report : Evaluation.t -> GradescopeTestReport.t)
    (chaff : Evaluation.t)
    (pre : list TestBlock.t) (block : TestBlock.t) (post : list TestBlock.t) :
  generate_detailed_chaff_report path_basename wheat_results
  = Return chaff_report ->
  Evaluation.result chaff = Ok (pre ++ block :: post) ->
  (forall b, In b pre -> ~ unmasked_failure wheat_results b) ->
  unmasked_failure wheat_results block ->
  GradescopeTestReport.score (chaff_report chaff) = Some 1%Z
  /\ (unmasked_error wheat_results block ->
      GradescopeTestReport.output (chaff_report chaff) = error_citation block)
  /\ (~ unmasked_error wheat_results block ->
      GradescopeTestReport.output (chaff_report chaff) = test_citation block).
Proof.
  intros Hgen Hres Hpre Hblock.
  destruct (generate_detailed_chaff_report_inv _ _ Hgen)
    as (locs & Hlocs & ->).
  pose proof (all_invalid_locs_of_known_bad _ _ Hlocs) as Hknown.
  unfold detailed_chaff_report, get_score_and_output.
  cbn [GradescopeTestReport.score GradescopeTestReport.output].
  rewrite Hres, chaff_scan_blocks_caught.
  - cbn [fst snd]. split; [reflexivity|]. split.
    + intros Herr. apply (error_unmasked_iff _ _ Hknown) in Herr.
      now rewrite Herr.
    + intros Herr.
      destruct (error_unmasked locs block) eqn:E; [|reflexivity].
      apply (error_unmasked_iff _ _ Hknown) in E. contradiction.
  - apply List.Forall_forall. intros b Hb.
    apply (caught_by_false_iff _ _ Hknown). now apply Hpre.
  - now apply (caught_by_iff _ _ Hknown).
Qed.

End DetailedChaffReports.

(** The instance of [C5_errored_wheat_breaks_detailed_reports] at a lone
    wheat that timed out: the detailed phase fails with no chaff at all. *)
Lemma C5_errored_wheat_breaks_detailed_reports_witness :
  In sample_wheat_timeout [sample_wheat_timeout]
  /\ Evaluation.result sample_wheat_timeout = Err Err.Timeout
  /\ generate_detailed_chaff_report sample_path_basename [sample_wheat_timeout]
     = Throw TypeError
  /\ detailed_phase sample_path_basename (PointData.mk ∅ ∅) []
       [sample_wheat_timeout] [] = Throw TypeError
  /\ includes "wheat"
       (get_code_dir_name sample_path_basename sample_path_dirname
          sample_wheat_timeout) = true
  /\ main sample_path_basename sample_path_dirname [sample_wheat_timeout]
       (Some (ExamplarConfig.mk true None)) (PointData.mk ∅ ∅)
     = Throw TypeError.
Proof.
  assert (Hin : In sample_wheat_timeout [sample_wheat_timeout]) by (now left).
  assert (Hres : Evaluation.result sample_wheat_timeout = Err Err.Timeout)
    by reflexivity.
  split; [exact Hin|]. split; [exact Hres|].
  pose proof (proj1 (C5_errored_wheat_breaks_detailed_reports
                       sample_path_basename sample_path_dirname)
                [sample_wheat_timeout] sample_wheat_timeout Err.Timeout
                Hin Hres) as (_ & _ & Hgen & _ & Hphase).
  split; [exact Hgen|]. split; [apply Hphase|].
  assert (Hdir : includes "wheat"
                   (get_code_dir_name sample_path_basename sample_path_dirname
                      sample_wheat_timeout) = true) by reflexivity.
  split; [exact Hdir|].
  exact (proj2 (C5_errored_wheat_breaks_detailed_reports
                  sample_path_basename sample_path_dirname)
           [sample_wheat_timeout] sample_wheat_timeout Err.Timeout
           (Some (ExamplarConfig.mk true None)) (PointData.mk ∅ ∅)
           Hin Hdir Hres).
Defined.


(** C3 as stated fails.  With no wheat, a chaff whose first block A has a
    failing test and whose second block B errored has an unmasked errored
    block (B is the first one) and an unmasked failing test positioned
    before it; the verdict cites the failing test of block A, not the error
    of block B. *)
Lemma C3_counterexample :
  (exists chaff_report,
      generate_detailed_chaff_report sample_path_basename [] = Return chaff_report
      /\ Evaluation.result sample_chaff = Ok [sample_block_A; sample_block_B]
      /\ find (error_unmasked []) [sample_block_A; sample_block_B]
         = Some sample_block_B
      /\ find (has_unmasked_test []) [sample_block_A; sample_block_B]
         = Some sample_block_A
      /\ GradescopeTestReport.output (chaff_report sample_chaff)
         = "Chaff caught; test failed in block " +:+ dq +:+ "A" +:+ dq +:+ "!"
      /\ GradescopeTestReport.output (chaff_report sample_chaff)
         <> error_citation sample_block_B)
  /\ ~ chaff_cites_errors_first.
Proof.
  split.
  - eexists. split; [reflexivity|]. repeat split. discriminate.
  - intros Hclaim.
    specialize (Hclaim [] sample_chaff [sample_block_A; sample_block_B]
                  eq_refl eq_refl eq_refl).
    discriminate.
Qed.

(** The instance of [C3_first_block_with_unmasked_failure_is_cited] at no
    wheat and the chaff with a failing test in block A, followed by the
    errored block B: block A is cited, for its failing test. *)
Lemma C3_first_block_with_unmasked_failure_is_cited_witness :
  let chaff_report := detailed_chaff_report sample_path_basename [] in
  generate_detailed_chaff_report sample_path_basename [] = Return chaff_report
  /\ Evaluation.result sample_chaff = Ok ([] ++ sample_block_A :: [sample_block_B])
  /\ unmasked_failure [] sample_block_A
  /\ ~ unmasked_error [] sample_block_A
  /\ GradescopeTestReport.score (chaff_report sample_chaff) = Some 1%Z
  /\ GradescopeTestReport.output (chaff_report sample_chaff)
     = test_citation sample_block_A.
Proof.
  intros chaff_report.
  assert (Hgen : generate_detailed_chaff_report sample_path_basename []
                 = Return chaff_report) by reflexivity.
  assert (Hres : Evaluation.result sample_chaff
                 = Ok ([] ++ sample_block_A :: [sample_block_B]))
    by reflexivity.
  assert (Hnone : forall loc, ~ known_bad [] loc).
  { intros loc (wheat & _ & [] & _). }
  assert (Hfail : unmasked_failure [] sample_block_A).
  { right. exists sample_test_failing. split; [now left|].
    split; [reflexivity|apply Hnone]. }
  assert (Herr : ~ unmasked_error [] sample_block_A).
  { intros [He _]. discriminate He. }
  assert (Hpre : forall b, In b [] -> ~ unmasked_failure [] b).
  { intros b []. }
  split; [exact Hgen|]. split; [exact Hres|]. split; [exact Hfail|].
  split; [exact Herr|].
  pose proof (C3_first_block_with_unmasked_failure_is_cited
                sample_path_basename [] chaff_report sample_chaff
                [] sample_block_A [sample_block_B] Hgen Hres Hpre Hfail)
    as (Hscore & _ & Htest).
  split; [exact Hscore|exact (Htest Herr)].
Defined.

(** ** The location normalizer (C8) *)

Lemma last_default {A : Type} (l : list A) (d d' : A) :
  l <> [] -> List.last l d = List.last l d'.
Proof.
  induction l as [|x [|y l'] IH]; intros Hne; [congruence|reflexivity|].
  change (List.last (y :: l') d = List.last (y :: l') d').
  apply IH. discriminate.
Qed.

Lemma split_slash_cons c s :
  split "/" (String c s)
  = if ascii_dec "/" c
    then EmptyString :: split "/" s
    else match split "/" s with
         | p :: ps => String c p :: ps
         | [] => [String c EmptyString]
         end.
Proof.
  unfold split. cbn [split_go String.prefix String.length Nat.sub].
  destruct (ascii_dec "/" c); [|reflexivity].
  now destruct s.
Qed.

Lemma includes_slash_cons c s :
  includes "/" (String c s)
  = (if ascii_dec "/" c then true else false) || includes "/" s.
Proof.
  cbn [includes String.prefix]. destruct (ascii_dec "/" c); [|reflexivity].
  now destruct s.
Qed.

Lemma split_slash_nonempty s : split "/" s <> [].
Proof.
  destruct s as [|c s]; [discriminate|].
  rewrite split_slash_cons.
  destruct (ascii_dec "/" c); [discriminate|].
  destruct (split "/" s); discriminate.
Qed.

Lemma split_slash_single s p :
  split "/" s = [p] -> p = s /\ includes "/" s = false.
Proof.
  revert p. induction s as [|c s IH]; intros p.
  - intros [= <-]. split; reflexivity.
  - rewrite split_slash_cons, includes_slash_cons.
    destruct (ascii_dec "/" c) as [Hc|Hc].
    + intros [= _ Hnil]. now apply split_slash_nonempty in Hnil.
    + destruct (split "/" s) as [|q qs] eqn:E.
      * now apply split_slash_nonempty in E.
      * intros [= <- ->]. destruct (IH q eq_refl) as [-> Hs].
        split; [reflexivity|exact Hs].
Qed.

Lemma split_no_slash s : includes "/" s = false -> split "/" s = [s].
Proof.
  induction s as [|c s IH]; [reflexivity|].
  rewrite split_slash_cons, includes_slash_cons.
  destruct (ascii_dec "/" c); [discriminate|].
  simpl. intros Hs. now rewrite (IH Hs).
Qed.

(** [get_loc_name], one character at a time. *)
Lemma get_loc_name_cons c s :
  get_loc_name (String c s)
  = if ascii_dec "/" c then get_loc_name s
    else if includes "/" s then get_loc_name s
    else String c s.
Proof.
  unfold get_loc_name. cbv zeta. rewrite split_slash_cons.
  destruct (ascii_dec "/" c) as [Hc|Hc].
  - pose proof (split_slash_nonempty s) as Hne.
    destruct (split "/" s) as [|p ps] eqn:E; [congruence|].
    change (List.last (EmptyString :: p :: ps) (String c s))
      with (List.last (p :: ps) (String c s)).
    now apply last_default.
  - destruct (includes "/" s) eqn:Hs.
    + pose proof (split_slash_nonempty s) as Hne.
      destruct (split "/" s) as [|p [|q qs]] eqn:E; [congruence| |].
      * apply split_slash_single in E as [_ E]. congruence.
      * change (List.last (String c p :: q :: qs) (String c s))
          with (List.last (q :: qs) (String c s)).
        change (List.last (p :: q :: qs) s) with (List.last (q :: qs) s).
        now apply last_default.
    + now rewrite (split_no_slash _ Hs).
Qed.

Lemma get_loc_name_no_slash loc : includes "/" (get_loc_name loc) = false.
Proof.
  induction loc as [|c s IH]; [reflexivity|].
  rewrite get_loc_name_cons.
  destruct (ascii_dec "/" c) as [Hc|Hc]; [exact IH|].
  destruct (includes "/" s) eqn:Hs; [exact IH|].
  rewrite includes_slash_cons, Hs.
  destruct (ascii_dec "/" c); [contradiction|reflexivity].
Qed.

Lemma get_loc_name_fixed loc :
  includes "/" loc = false -> get_loc_name loc = loc.
Proof.
  intros Hs. unfold get_loc_name. cbv zeta. now rewrite (split_no_slash _ Hs).
Qed.

Lemma get_loc_name_after_final_slash loc :
  includes "/" loc = true ->
  exists before, loc = before +:+ "/" +:+ get_loc_name loc.
Proof.
  induction loc as [|c s IH]; [discriminate|].
  rewrite includes_slash_cons, get_loc_name_cons.
  destruct (ascii_dec "/" c) as [Hc|Hc].
  - intros _. subst c. destruct (includes "/" s) eqn:Hs.
    + destruct (IH eq_refl) as [before Hbefore].
      exists (String "/" before).
      change (String "/" s = String "/" (before +:+ "/" +:+ get_loc_name s)).
      f_equal. exact Hbefore.
    + exists EmptyString. rewrite (get_loc_name_fixed _ Hs). reflexivity.
  - simpl. intros Hs. rewrite Hs.
    destruct (IH Hs) as [before Hbefore].
    exists (String c before).
    change (String c s = String c (before +:+ "/" +:+ get_loc_name s)).
    f_equal. exact Hbefore.
Qed.

Lemma get_loc_name_idempotent loc :
  get_loc_name (get_loc_name loc) = get_loc_name loc.
Proof. apply get_loc_name_fixed, get_loc_name_no_slash. Qed.

Lemma normalize_test_idempotent test :
  normalize_test (normalize_test test) = normalize_test test.
Proof.
  unfold normalize_test. simpl. now rewrite get_loc_name_idempotent.
Qed.

Lemma normalize_block_idempotent block :
  normalize_block (normalize_block block) = normalize_block block.
Proof.
  unfold normalize_block. simpl.
  rewrite get_loc_name_idempotent, List.map_map. f_equal.
  apply map_ext. intros test. apply normalize_test_idempotent.
Qed.

(** C8.  Normalizing twice is normalizing once; an evaluation that did not
    run is left as it is; in an evaluation that ran, the blocks and their
    tests keep their number, order, names and outcomes, and every location
    is replaced by its [get_loc_name]; and [get_loc_name loc] contains no
    slash, is [loc] itself when [loc] contains none, and otherwise is what
    follows a slash of [loc], which makes it the part after the final one. *)
Theorem C8_normalization :
  (forall evaluation,
      normalize_code_names (normalize_code_names evaluation)
      = normalize_code_names evaluation)
  /\ (forall evaluation e,
        Evaluation.result evaluation = Err e ->
        normalize_code_names evaluation = evaluation)
  /\ (forall evaluation blocks,
        Evaluation.result evaluation = Ok blocks ->
        Evaluation.code (normalize_code_names evaluation)
        = Evaluation.code evaluation
        /\ Evaluation.tests (normalize_code_names evaluation)
           = Evaluation.tests evaluation
        /\ exists blocks',
             Evaluation.result (normalize_code_names evaluation) = Ok blocks'
             /\ Forall2
                  (fun block block' =>
                     TestBlock.name block' = TestBlock.name block
                     /\ TestBlock.error block' = TestBlock.error block
                     /\ TestBlock.loc block' = get_loc_name (TestBlock.loc block)
                     /\ Forall2
                          (fun test test' =>
                             Test.passed test' = Test.passed test
                             /\ Test.loc test' = get_loc_name (Test.loc test))
                          (TestBlock.tests block) (TestBlock.tests block'))
                  blocks blocks')
  /\ (forall loc,
        includes "/" (get_loc_name loc) = false
        /\ (includes "/" loc = false -> get_loc_name loc = loc)
        /\ (includes "/" loc = true ->
            exists before, loc = before +:+ "/" +:+ get_loc_name loc)).
Proof.
  split; [|split; [|split]].
  - intros evaluation. unfold normalize_code_names.
    destruct (Evaluation.result evaluation) as [blocks|e] eqn:Hres; simpl.
    + f_equal. f_equal. rewrite List.map_map.
      apply map_ext. intros block. apply normalize_block_idempotent.
    + now rewrite Hres.
  - intros evaluation e Hres. unfold normalize_code_names. now rewrite Hres.
  - intros evaluation blocks Hres. unfold normalize_code_names.
    rewrite Hres. simpl. split; [reflexivity|]. split; [reflexivity|].
    exists (map normalize_block blocks). split; [reflexivity|].
    clear Hres. induction blocks as [|block rest IH]; constructor; [|exact IH].
    simpl. repeat split.
    induction (TestBlock.tests block) as [|test tests IHt]; constructor;
      [|exact IHt].
    split; reflexivity.
  - intros loc. split; [apply get_loc_name_no_slash|].
    split; [apply get_loc_name_fixed|apply get_loc_name_after_final_slash].
Qed.

(** The instance of [C8_normalization] at a wheat that timed out and at a
    location with its directories. *)
Lemma C8_normalization_witness :
  normalize_code_names sample_wheat_timeout = sample_wheat_timeout
  /\ get_loc_name "tests.arr:8:0-19:3" = "tests.arr:8:0-19:3"
  /\ (exists before,
         "file:///autograder/results/w1.arr;tests.arr/tests.arr:8:0-19:3"
         = before +:+ "/"
           +:+ get_loc_name
                 "file:///autograder/results/w1.arr;tests.arr/tests.arr:8:0-19:3")
  /\ exists blocks',
       Evaluation.result (normalize_code_names sample_raw_evaluation)
       = Ok blocks'
       /\ map TestBlock.loc blocks' = ["tests.arr:1:0-3:3"].
Proof.
  destruct C8_normalization as (_ & Herr & Hok & Hloc).
  split; [exact (Herr sample_wheat_timeout Err.Timeout eq_refl)|].
  split; [exact (proj1 (proj2 (Hloc "tests.arr:8:0-19:3")) eq_refl)|].
  split;
    [exact (proj2 (proj2 (Hloc
       "file:///autograder/results/w1.arr;tests.arr/tests.arr:8:0-19:3"))
       eq_refl)|].
  destruct (Hok sample_raw_evaluation _ eq_refl) as (_ & _ & blocks' & Hres & _).
  exists blocks'. split; [exact Hres|].
  cbv in Hres. injection Hres as <-. reflexivity.
Defined.

(** ** The score aggregator (C10) *)

(** The loop is two running totals: of what the reports earn, and of their
    weights. *)
Lemma score_loop_add_each
    {number : Type} {number_ops : JsNumber number}
    (reports : list (@GradescopeTestReport.t number)) point_values
    total_score possible_score :
  score_loop reports point_values total_score possible_score
  = (add_each total_score (map (earned point_values) reports),
     add_each possible_score (map (weight point_values) reports)).
Proof.
  revert total_score possible_score.
  induction reports as [|report rest IH]; intros total possible.
  - reflexivity.
  - cbn [score_loop]. rewrite IH. reflexivity.
Qed.

Lemma score_loop_snoc
    {number : Type} {number_ops : JsNumber number}
    (reports : list (@GradescopeTestReport.t number)) report point_values
    total_score possible_score :
  score_loop (reports ++ [report]) point_values total_score possible_score
  = let '(total, possible) :=
      score_loop reports point_values total_score possible_score in
    (add total (earned point_values report),
     add possible (weight point_values report)).
Proof.
  revert total_score possible_score.
  induction reports as [|r rest IH]; intros total possible.
  - reflexivity.
  - cbn [app score_loop]. apply IH.
Qed.

(** [===] on the optional fields of a report. *)
Lemma strict_equal_opt_true
    {number : Type} {number_ops : JsNumber number}
    (x y : option number) :
  strict_equal_opt x y = true
  <-> (x = None /\ y = None)
      \/ (exists a b, x = Some a /\ y = Some b /\ strict_equal a b = true).
Proof.
  destruct x as [a|], y as [b|]; cbn [strict_equal_opt]; split.
  - intros Heq. right. now exists a, b.
  - intros [[? _]|(a' & b' & [= <-] & [= <-] & Heq)]; [discriminate|exact Heq].
  - discriminate.
  - intros [[? _]|(a' & b' & _ & ? & _)]; discriminate.
  - discriminate.
  - intros [[_ ?]|(a' & b' & ? & _)]; discriminate.
  - intros _. now left.
  - reflexivity.
Qed.

(** Over the integers [===] is equality, and the totals are sums. *)
Lemma full_credit_Z (report : @GradescopeTestReport.t Z) :
  full_credit report
  = bool_decide (GradescopeTestReport.score report
                 = GradescopeTestReport.max_score report).
Proof.
  unfold full_credit.
  destruct (GradescopeTestReport.score report) as [a|],
           (GradescopeTestReport.max_score report) as [b|];
    cbn [strict_equal_opt strict_equal JsNumber_Z]; try reflexivity.
  destruct (Z.eqb_spec a b) as [->|Hne].
  - now rewrite bool_decide_eq_true_2.
  - rewrite bool_decide_eq_false_2; [reflexivity|congruence].
Qed.

Lemma score_loop_spec reports (point_values : gmap string Z)
    total_score possible_score :
  score_loop reports point_values total_score possible_score
  = ((total_score
      + sum_Z (map (weight point_values) (List.filter full_credit reports)))%Z,
     (possible_score + sum_Z (map (weight point_values) reports))%Z).
Proof.
  revert total_score possible_score.
  induction reports as [|report rest IH]; intros total possible.
  - simpl. now rewrite !Z.add_0_r.
  - cbn [score_loop]. rewrite IH. fold (weight point_values report).
    fold (full_credit report). cbn [List.filter map].
    destruct (full_credit report); cbn [map sum_Z fold_right];
      fold (sum_Z (map (weight point_values) rest));
      fold (sum_Z (map (weight point_values) (List.filter full_credit rest)));
      cbn [add zero JsNumber_Z]; f_equal; lia.
Qed.

(** The additions are those of the doubles: with the weights [2^53] and [1]
    and two reports at full credit, both totals are [2^53]. *)
Example score_loop_rounds_to_nearest_even :
  score_loop [example_report "a" one; example_report "b" one]
    large_point_values zero zero
  = (binary64_of_Z 9007199254740992, binary64_of_Z 9007199254740992).
Proof. vm_compute. reflexivity. Qed.

(** Point values need not be integers: with the weights [0.1] and [0.2] and
    two reports at full credit, both totals are the double
    [0.30000000000000004], which is not the double [0.3]. *)
Example score_loop_fractional_points :
  exists total,
    score_loop [example_report "a" one; example_report "b" one]
      fractional_point_values zero zero
    = (total, total)
    /\ total = add (binary64_of_ratio 1 10) (binary64_of_ratio 2 10)
    /\ strict_equal total (binary64_of_ratio 3 10) = false.
Proof. eexists. split; [vm_compute; reflexivity|]. split; reflexivity. Qed.

(** C10.  Over the numbers of the code, and over any others with its four
    operations: the score report of a list of reports under a point map has,
    as [max_score], the total obtained from 0 by adding the weight of each
    report in order and, as [score], the total obtained from 0 by adding, for
    each report in order, its weight when its [score] is strictly equal to
    its [max_score] and 0 otherwise.  One more report adds its weight to the
    possible total, and to the achieved total its weight when its [score]
    equals its [max_score] and 0 when not.  Two absent scores are equal,
    two numbers are as [===] has them, and an absent score equals no
    number.  The weight is the point map's value for the name of the report,
    and 1 when the map has no such name.  On the two reports of the example
    with the point map [a: 2, b: 3] the totals are the doubles 2 and 5. *)
Theorem C10_score_aggregation {number : Type} {number_ops : JsNumber number} :
  (forall (reports : list (@GradescopeTestReport.t number)) point_values
          name section,
      GradescopeTestReport.score
        (generate_score_report reports point_values name section)
      = Some (add_each zero (map (earned point_values) reports))
      /\ GradescopeTestReport.max_score
           (generate_score_report reports point_values name section)
         = Some (add_each zero (map (weight point_values) reports)))
  /\ (forall (reports : list (@GradescopeTestReport.t number)) report
             point_values total possible,
        score_loop reports point_values zero zero = (total, possible) ->
        (full_credit report = true ->
         score_loop (reports ++ [report]) point_values zero zero
         = (add total (weight point_values report),
            add possible (weight point_values report)))
        /\ (full_credit report = false ->
            score_loop (reports ++ [report]) point_values zero zero
            = (add total zero, add possible (weight point_values report))))
  /\ (forall report : @GradescopeTestReport.t number,
        full_credit report = true
        <-> (GradescopeTestReport.score report = None
             /\ GradescopeTestReport.max_score report = None)
            \/ (exists score max_score,
                  GradescopeTestReport.score report = Some score
                  /\ GradescopeTestReport.max_score report = Some max_score
                  /\ strict_equal score max_score = true))
  /\ (forall (point_values : gmap string number) report,
        (forall points,
            point_values !! GradescopeTestReport.name report = Some points ->
            weight point_values report = points)
        /\ (point_values !! GradescopeTestReport.name report = None ->
            weight point_values report = one))
  /\ (let summary :=
        generate_score_report
          [example_report "a" one; example_report "b" zero]
          example_point_values "chaffs" ReportSection.Chaff in
      GradescopeTestReport.score summary = Some (binary64_of_Z 2)
      /\ GradescopeTestReport.max_score summary = Some (binary64_of_Z 5)).
Proof.
  split; [|split; [|split; [|split]]].
  - intros reports point_values name section.
    unfold generate_score_report. rewrite score_loop_add_each. simpl. auto.
  - intros reports report point_values total possible Hloop.
    rewrite score_loop_snoc, Hloop. unfold earned.
    split; intros ->; reflexivity.
  - intros report. apply strict_equal_opt_true.
  - intros point_values report. unfold weight. split.
    + now intros points ->.
    + now intros ->.
  - vm_compute. auto.
Qed.

(** The instance of [C10_score_aggregation] at the example, over the
    doubles: the report named [a], at full credit, is added to the report
    named [b], which is not, under the point map [a: 2, b: 3]. *)
Lemma C10_score_aggregation_witness :
  score_loop [example_report "b" zero] example_point_values zero zero
  = (zero, binary64_of_Z 3)
  /\ full_credit (example_report (number := binary64) "a" one) = true
  /\ example_point_values !! "a" = Some (binary64_of_Z 2)
  /\ weight example_point_values (example_report "a" one) = binary64_of_Z 2
  /\ score_loop ([example_report "b" zero] ++ [example_report "a" one])
       example_point_values zero zero
     = (add zero (weight example_point_values (example_report "a" one)),
        add (binary64_of_Z 3)
          (weight example_point_values (example_report "a" one))).
Proof.
  assert (Hloop : score_loop [example_report "b" zero] example_point_values
                    zero zero
                  = (zero, binary64_of_Z 3)) by (vm_compute; reflexivity).
  assert (Hfull : full_credit (example_report (number := binary64) "a" one)
                  = true)
    by reflexivity.
  assert (Hpoints : example_point_values !! "a" = Some (binary64_of_Z 2))
    by (vm_compute; reflexivity).
  destruct (@C10_score_aggregation binary64 _) as (_ & Hstep & _ & Hweight & _).
  split; [exact Hloop|]. split; [exact Hfull|]. split; [exact Hpoints|].
  split.
  - exact (proj1 (Hweight example_point_values (example_report "a" one))
             (binary64_of_Z 2) Hpoints).
  - exact (proj1 (Hstep [example_report "b" zero] (example_report "a" one)
                    example_point_values zero (binary64_of_Z 3) Hloop) Hfull).
Defined.

(** ** The detailed reports over any numbers *)

Lemma chaff_scan_tests_literal
    {number : Type} {number_ops : JsNumber number}
    all_invalid_locs block tests :
  chaff_scan_tests (number := number) all_invalid_locs block tests
  = (fun found => (fst found, literal_of_Z (snd found)))
      <$> chaff_scan_tests (number := Z) all_invalid_locs block tests.
Proof.
  induction tests as [|test rest IH]; [reflexivity|].
  cbn [chaff_scan_tests].
  destruct (negb (Test.passed test)
            && negb (Array_includes all_invalid_locs (Test.loc test)));
    [reflexivity|exact IH].
Qed.

Lemma get_score_and_output_literal
    {number : Type} {number_ops : JsNumber number}
    all_invalid_locs chaff_result :
  get_score_and_output (number := number) all_invalid_locs chaff_result
  = (fst (get_score_and_output (number := Z) all_invalid_locs chaff_result),
     literal_of_Z
       (snd (get_score_and_output (number := Z) all_invalid_locs
               chaff_result))).
Proof.
  unfold get_score_and_output.
  destruct (Evaluation.result chaff_result) as [blocks|e]; [|reflexivity].
  induction blocks as [|block rest IH]; [reflexivity|].
  cbn [chaff_scan_blocks].
  destruct (TestBlock.error block
            && negb (Array_includes all_invalid_locs (TestBlock.loc block)));
    [reflexivity|].
  rewrite (chaff_scan_tests_literal all_invalid_locs block).
  destruct (chaff_scan_tests (number := Z) all_invalid_locs block
              (TestBlock.tests block)) as [found|]; [reflexivity|exact IH].
Qed.

Lemma generate_detailed_wheat_report_of_literal
    {number : Type} {number_ops : JsNumber number}
    wheat_result test_report :
  generate_detailed_wheat_report_of (number := number) wheat_result test_report
  = match generate_detailed_wheat_report_of (number := Z) wheat_result
            test_report with
    | Return output_score =>
        Return (fst output_score, literal_of_Z (snd output_score))
    | Throw thrown => Throw thrown
    end.
Proof.
  unfold generate_detailed_wheat_report_of.
  destruct (TestFailureReport.success test_report); try reflexivity.
  destruct (TestFailureReport.failures test_report) as [invalids|];
    [|reflexivity].
  destruct (String.eqb _ EmptyString); reflexivity.
Qed.


Section DetailedReportsOverAnyNumbers.

Context {number : Type} {number_ops : JsNumber number}.
Variable path_basename : string -> string.

(** The detailed reports do no arithmetic: over any numbers they are the
    reports over the integers, with the scores 0 and 1 read as the literals
    of these numbers. *)
Lemma generate_functionality_report_literal test_result :
  generate_functionality_report (number := number) path_basename test_result
  = map report_of_Z
      (generate_functionality_report (number := Z) path_basename test_result).
Proof.
  unfold generate_functionality_report.
  destruct (Evaluation.result test_result) as [blocks|e]; [|reflexivity].
  rewrite List.map_map. apply map_ext. intros block.
  unfold functionality_block_report.
  destruct (TestBlock.error block); [reflexivity|].
  destruct (_ =? _)%nat; reflexivity.
Qed.

Lemma generate_detailed_wheat_report_literal wheat_result :
  generate_detailed_wheat_report (number := number) path_basename wheat_result
  = match generate_detailed_wheat_report (number := Z) path_basename
            wheat_result with
    | Return report => Return (report_of_Z report)
    | Throw thrown => Throw thrown
    end.
Proof.
  unfold generate_detailed_wheat_report.
  rewrite generate_detailed_wheat_report_of_literal.
  destruct (generate_detailed_wheat_report_of (number := Z) wheat_result
              (get_invalid_tests_and_blocks wheat_result))
    as [[output score]|thrown]; reflexivity.
Qed.

Lemma detailed_chaff_report_literal all_invalid_locs chaff_result :
  detailed_chaff_report (number := number) path_basename all_invalid_locs
    chaff_result
  = report_of_Z
      (detailed_chaff_report (number := Z) path_basename all_invalid_locs
         chaff_result).
Proof.
  unfold detailed_chaff_report. rewrite get_score_and_output_literal.
  reflexivity.
Qed.

End DetailedReportsOverAnyNumbers.

(** * Further properties of the engine *)

(** ** [split], [join] and [get_line_number] *)

Lemma string_append_cons c (s1 s2 : string) :
  String c s1 +:+ s2 = String c (s1 +:+ s2).
Proof. reflexivity. Qed.

Lemma string_append_assoc (s1 s2 s3 : string) :
  (s1 +:+ s2) +:+ s3 = s1 +:+ (s2 +:+ s3).
Proof.
  induction s1 as [|c s1 IH]; [reflexivity|].
  rewrite !string_append_cons. now rewrite IH.
Qed.

Lemma string_append_empty_r (s : string) : s +:+ EmptyString = s.
Proof.
  induction s as [|c s IH]; [reflexivity|].
  rewrite string_append_cons. now rewrite IH.
Qed.

Lemma prefix_append p s :
  String.prefix p s = true -> exists rest, s = p +:+ rest.
Proof.
  revert s. induction p as [|c p IH]; intros s.
  - intros _. exists s. reflexivity.
  - destruct s as [|d s]; [discriminate|].
    cbn [String.prefix]. destruct (ascii_dec c d) as [->|]; [|discriminate].
    intros Hp. destruct (IH _ Hp) as [rest ->]. exists rest. reflexivity.
Qed.

Lemma split_go_nonempty sep skip s : split_go sep skip s <> [].
Proof.
  revert skip. induction s as [|c s IH]; intros skip; [discriminate|].
  cbn [split_go]. destruct skip as [|k]; [|apply IH].
  destruct (String.prefix sep (String c s)); [discriminate|].
  destruct (split_go sep 0 s); discriminate.
Qed.

(** Once an occurrence of the separator is found, the scan resumes after
    it. *)
Lemma split_go_skip sep mid rest :
  split_go sep (String.length mid) (mid +:+ rest) = split_go sep 0 rest.
Proof.
  induction mid as [|c mid IH].
  - destruct rest; reflexivity.
  - rewrite string_append_cons. cbn [String.length split_go]. exact IH.
Qed.

Lemma split_go_found sep c s :
  String.prefix sep (String c s) = true -> sep <> EmptyString ->
  exists rest,
    String c s = sep +:+ rest
    /\ split_go sep 0 (String c s) = EmptyString :: split_go sep 0 rest.
Proof.
  intros Hp Hsep. destruct (prefix_append _ _ Hp) as [rest Hrest].
  exists rest. split; [exact Hrest|].
  cbn [split_go]. rewrite Hp.
  destruct sep as [|d sep']; [congruence|].
  rewrite string_append_cons in Hrest. injection Hrest as -> ->.
  replace (String.length (String d sep') - 1) with (String.length sep')
    by (simpl; lia).
  f_equal. apply split_go_skip.
Qed.

Lemma join_cons sep x y ys :
  join sep (x :: y :: ys) = x +:+ sep +:+ join sep (y :: ys).
Proof. reflexivity. Qed.

Lemma join_cons_char sep c p ps :
  join sep (String c p :: ps) = String c (join sep (p :: ps)).
Proof. destruct ps; reflexivity. Qed.

Lemma join_split_bounded sep n s :
  sep <> EmptyString -> String.length s <= n ->
  join sep (split sep s) = s.
Proof.
  intros Hsep. unfold split. revert s.
  induction n as [|n IH]; intros s Hlen.
  - destruct s; [reflexivity|simpl in Hlen; lia].
  - destruct s as [|c s]; [reflexivity|].
    destruct (String.prefix sep (String c s)) eqn:Hp.
    + destruct (split_go_found _ _ _ Hp Hsep) as (rest & Hrest & ->).
      pose proof (split_go_nonempty sep 0 rest) as Hne.
      assert (Hshort : String.length rest <= n).
      { apply (f_equal String.length) in Hrest.
        rewrite string_length_append in Hrest. simpl in Hrest, Hlen.
        destruct sep; [congruence|]. simpl in Hrest. lia. }
      specialize (IH rest Hshort).
      destruct (split_go sep 0 rest) as [|p ps]; [congruence|].
      rewrite join_cons, IH, Hrest. reflexivity.
    + cbn [split_go]. rewrite Hp.
      pose proof (split_go_nonempty sep 0 s) as Hne.
      assert (Hshort : String.length s <= n) by (simpl in Hlen; lia).
      specialize (IH s Hshort).
      destruct (split_go sep 0 s) as [|p ps]; [congruence|].
      rewrite join_cons_char, IH. reflexivity.
Qed.

Lemma split_single_iff sep s :
  sep <> EmptyString ->
  (length (split sep s) = 1 <-> includes sep s = false).
Proof.
  intros Hsep. unfold split. induction s as [|c s IH].
  - destruct sep; [congruence|]. simpl. tauto.
  - cbn [includes].
    destruct (String.prefix sep (String c s)) eqn:Hp.
    + destruct (split_go_found _ _ _ Hp Hsep) as (rest & _ & ->).
      pose proof (split_go_nonempty sep 0 rest) as Hne.
      destruct (split_go sep 0 rest); [congruence|].
      simpl. split; [lia|discriminate].
    + cbn [split_go orb]. rewrite Hp.
      pose proof (split_go_nonempty sep 0 s) as Hne.
      destruct (split_go sep 0 s) as [|p ps]; [congruence|].
      exact IH.
Qed.

(** Splitting on a non-empty separator and joining with it gives the string
    back, and there is one piece exactly when the separator does not
    occur. *)
Lemma split_join_round_trip (sep s : string) :
  sep <> EmptyString ->
  join sep (split sep s) = s
  /\ split sep s <> []
  /\ (length (split sep s) = 1 <-> includes sep s = false)
  /\ (includes sep s = false -> split sep s = [s]).
Proof.
  intros Hsep.
  assert (Hjoin : join sep (split sep s) = s)
    by (apply (join_split_bounded sep (String.length s)); auto).
  split; [exact Hjoin|]. split; [apply split_go_nonempty|].
  split; [now apply split_single_iff|].
  intros Hnone. apply (split_single_iff sep s Hsep) in Hnone.
  destruct (split sep s) as [|p [|q qs]]; try discriminate.
  simpl in Hjoin. now subst.
Qed.

Lemma prefix_app_l p s t :
  String.prefix p s = true -> String.prefix p (s +:+ t) = true.
Proof.
  revert s. induction p as [|c p IH]; intros s.
  - intros _. destruct (s +:+ t); reflexivity.
  - destruct s as [|d s]; [discriminate|].
    rewrite string_append_cons. cbn [String.prefix].
    destruct (ascii_dec c d); [apply IH|discriminate].
Qed.

Lemma includes_cons_false sep c s :
  includes sep (String c s) = false ->
  String.prefix sep (String c s) = false /\ includes sep s = false.
Proof. cbn [includes]. apply orb_false_iff. Qed.

Lemma includes_empty sep : sep <> EmptyString -> includes sep EmptyString = false.
Proof. destruct sep; [congruence|reflexivity]. Qed.

Lemma join_head sep p ps : exists t, join sep (p :: ps) = p +:+ t.
Proof.
  destruct ps as [|q qs].
  - exists EmptyString. simpl. now rewrite string_append_empty_r.
  - eexists. rewrite join_cons. reflexivity.
Qed.

(** The pieces of a split do not contain the separator. *)
Lemma split_pieces_free_bounded sep n s :
  sep <> EmptyString -> String.length s <= n ->
  Forall (fun piece => includes sep piece = false) (split sep s).
Proof.
  intros Hsep. unfold split. revert s.
  induction n as [|n IH]; intros s Hlen.
  - destruct s; [|simpl in Hlen; lia].
    constructor; [now apply includes_empty|constructor].
  - destruct s as [|c s].
    { constructor; [now apply includes_empty|constructor]. }
    destruct (String.prefix sep (String c s)) eqn:Hp.
    + destruct (split_go_found _ _ _ Hp Hsep) as (rest & Hrest & ->).
      assert (Hshort : String.length rest <= n).
      { apply (f_equal String.length) in Hrest.
        rewrite string_length_append in Hrest. simpl in Hrest, Hlen.
        destruct sep; [congruence|]. simpl in Hrest. lia. }
      constructor; [now apply includes_empty|now apply IH].
    + cbn [split_go]. rewrite Hp.
      assert (Hshort : String.length s <= n) by (simpl in Hlen; lia).
      pose proof (IH s Hshort) as Hfree.
      pose proof (join_split_bounded sep n s Hsep Hshort) as Hjoin.
      unfold split in Hjoin.
      pose proof (split_go_nonempty sep 0 s) as Hne.
      destruct (split_go sep 0 s) as [|p ps]; [congruence|].
      apply Forall_cons_1 in Hfree as [Hp_free Hps].
      constructor; [|exact Hps].
      cbn [includes]. rewrite Hp_free, orb_false_r.
      destruct (String.prefix sep (String c p)) eqn:Hcp; [|reflexivity].
      destruct (join_head sep p ps) as [t Ht].
      rewrite Ht in Hjoin. subst s.
      apply (prefix_app_l _ _ t) in Hcp. rewrite string_append_cons in Hcp.
      congruence.
Qed.

(** No occurrence of [.arr:] starts in a piece that is free of it and ends
    in the [.arr:] that follows the piece: [.arr:] does not overlap
    itself. *)
Lemma arr_prefix_straddle u rest :
  u <> EmptyString -> String.prefix ".arr:" u = false ->
  String.prefix ".arr:" (u +:+ ".arr:" +:+ rest) = false.
Proof.
  intros Hne Hp.
  destruct u as [|c1 u]; [congruence|].
  rewrite string_append_cons. cbn [String.prefix] in Hp |- *.
  destruct (ascii_dec "." c1); [|reflexivity].
  destruct u as [|c2 u]; [reflexivity|].
  rewrite string_append_cons. cbn [String.prefix] in Hp |- *.
  destruct (ascii_dec "a" c2); [|reflexivity].
  destruct u as [|c3 u]; [reflexivity|].
  rewrite string_append_cons. cbn [String.prefix] in Hp |- *.
  destruct (ascii_dec "r" c3); [|reflexivity].
  destruct u as [|c4 u]; [reflexivity|].
  rewrite string_append_cons. cbn [String.prefix] in Hp |- *.
  destruct (ascii_dec "r" c4); [|reflexivity].
  destruct u as [|c5 u]; [reflexivity|].
  rewrite string_append_cons. cbn [String.prefix] in Hp |- *.
  destruct (ascii_dec ":" c5); [|reflexivity].
  destruct u; discriminate.
Qed.

Lemma split_arr_first_piece file rest :
  includes ".arr:" file = false ->
  split ".arr:" (file +:+ ".arr:" +:+ rest) = file :: split ".arr:" rest.
Proof.
  unfold split. induction file as [|c file IH]; intros Hfree.
  - change (EmptyString +:+ ".arr:" +:+ rest) with (".arr:" +:+ rest).
    assert (Hp : String.prefix ".arr:" (".arr:" +:+ rest) = true)
      by (destruct rest; reflexivity).
    change (".arr:" +:+ rest) with (String "." ("arr:" +:+ rest)) in Hp |- *.
    cbn [split_go]. rewrite Hp. reflexivity.
  - apply includes_cons_false in Hfree as [Hp Hfree].
    assert (Hstraddle : String.prefix ".arr:"
                          (String c (file +:+ ".arr:" +:+ rest)) = false).
    { rewrite <- string_append_cons.
      apply arr_prefix_straddle; [discriminate|exact Hp]. }
    rewrite string_append_cons. cbn [split_go].
    now rewrite Hstraddle, (IH Hfree).
Qed.

(** [get_line_number] is undefined exactly on the locations that do not
    contain [.arr:].  When it is defined, the location is a file part that
    does not contain [.arr:], then [.arr:], then the line number, which does
    not contain [.arr:] either, and then either nothing or [.arr:] and more:
    the line number is what lies between the first [.arr:] and the next one,
    or the end.  Conversely, on every location of that form it is the line
    number. *)
Theorem get_line_number_defined (test_loc : string) :
  (get_line_number test_loc = None <-> includes ".arr:" test_loc = false)
  /\ (forall lines,
        get_line_number test_loc = Some lines ->
        exists file rest,
          split ".arr:" test_loc = file :: lines :: rest
          /\ test_loc = file +:+ ".arr:" +:+ join ".arr:" (lines :: rest)
          /\ includes ".arr:" file = false
          /\ includes ".arr:" lines = false
          /\ Forall (fun piece => includes ".arr:" piece = false) rest)
  /\ (forall file lines,
        includes ".arr:" file = false ->
        includes ".arr:" lines = false ->
        get_line_number (file +:+ ".arr:" +:+ lines) = Some lines
        /\ forall rest,
             get_line_number (file +:+ ".arr:" +:+ lines +:+ ".arr:" +:+ rest)
             = Some lines).
Proof.
  assert (Hsep : ".arr:" <> EmptyString) by discriminate.
  destruct (split_join_round_trip ".arr:" test_loc Hsep)
    as (Hjoin & Hne & Hone & _).
  pose proof (split_pieces_free_bounded ".arr:" _ test_loc Hsep (le_n _))
    as Hfree.
  unfold get_line_number. rewrite <- Hone.
  split; [|split].
  - destruct (split ".arr:" test_loc) as [|file [|lines rest]]; [congruence| |];
      split; (reflexivity || discriminate).
  - destruct (split ".arr:" test_loc) as [|file [|lines rest]];
      [congruence|discriminate|].
    intros lines' [= <-]. exists file, rest. split; [reflexivity|].
    rewrite join_cons in Hjoin.
    apply Forall_cons_1 in Hfree as [Hfile Hfree].
    apply Forall_cons_1 in Hfree as [Hlines Hrest].
    auto.
  - intros file lines Hfile Hlines. split.
    + rewrite (split_arr_first_piece file lines Hfile).
      destruct (split_join_round_trip ".arr:" lines Hsep) as (_ & _ & _ & Hsingle).
      now rewrite (Hsingle Hlines).
    + intros rest.
      rewrite (split_arr_first_piece file _ Hfile).
      now rewrite (split_arr_first_piece lines rest Hlines).
Qed.

Lemma get_line_number_defined_witness :
  get_line_number "tests.arr:8:0-19:3" = Some "8:0-19:3"
  /\ (exists file rest,
        split ".arr:" "tests.arr:8:0-19:3" = file :: "8:0-19:3" :: rest
        /\ "tests.arr:8:0-19:3"
           = file +:+ ".arr:" +:+ join ".arr:" ("8:0-19:3" :: rest)
        /\ includes ".arr:" file = false
        /\ includes ".arr:" "8:0-19:3" = false
        /\ Forall (fun piece => includes ".arr:" piece = false) rest)
  /\ includes ".arr:" "w1.arr;tests" = false
  /\ get_line_number ("w1.arr;tests" +:+ ".arr:" +:+ "8:0-19:3")
     = Some "8:0-19:3".
Proof.
  assert (H : get_line_number "tests.arr:8:0-19:3" = Some "8:0-19:3")
    by reflexivity.
  assert (Hfile : includes ".arr:" "w1.arr;tests" = false) by reflexivity.
  assert (Hlines : includes ".arr:" "8:0-19:3" = false) by reflexivity.
  split; [exact H|].
  split; [exact (proj1 (proj2 (get_line_number_defined "tests.arr:8:0-19:3"))
                   _ H)|].
  split; [exact Hfile|].
  exact (proj1 (proj2 (proj2 (get_line_number_defined EmptyString))
                  "w1.arr;tests" "8:0-19:3" Hfile Hlines)).
Defined.

(** ** The removal of duplicate messages *)

Lemma first_occurrences_fixed seen xs :
  List.NoDup xs -> (forall x, In x xs -> ~ In x seen) ->
  first_occurrences seen xs = xs.
Proof.
  revert seen. induction xs as [|x rest IH]; intros seen Hnd Hseen.
  - reflexivity.
  - apply List.NoDup_cons_iff in Hnd as [Hx Hnd]. simpl.
    destruct (Array_includes seen x) eqn:E.
    + apply Array_includes_In in E. exfalso. apply (Hseen x); [now left|exact E].
    + f_equal. apply IH; [exact Hnd|].
      intros y Hy Hin. apply in_app_iff in Hin as [Hin|[->|[]]].
      * apply (Hseen y); [now right|exact Hin].
      * contradiction.
Qed.

Lemma first_occurrences_snoc seen xs x :
  first_occurrences seen (xs ++ [x])
  = first_occurrences seen xs
    ++ (if Array_includes (seen ++ xs) x then [] else [x]).
Proof.
  revert seen. induction xs as [|y rest IH]; intros seen.
  - simpl. rewrite app_nil_r. now destruct (Array_includes seen x).
  - cbn [app first_occurrences].
    destruct (Array_includes seen y) eqn:E.
    + assert (Hsame : Array_includes (seen ++ y :: rest) x
                      = Array_includes (seen ++ rest) x).
      { rewrite !Array_includes_app.
        change (Array_includes (y :: rest) x)
          with (String.eqb x y || Array_includes rest x).
        destruct (String.eqb_spec x y) as [->|Hne]; [|reflexivity].
        now rewrite E. }
      now rewrite IH, Hsame.
    + cbn [app]. f_equal. rewrite IH. now rewrite <- app_assoc.
Qed.

(** The duplicate filter of the aggregate wheat report keeps the first
    occurrence of every message: the result has no repeats, the same
    members as the input and their order; read from left to right, a
    message is kept exactly when it has not occurred before; a list without
    repeats is left as it is, so filtering twice is filtering once. *)
Theorem remove_duplicates_keeps_first_occurrences (messages : list string) :
  List.NoDup (remove_duplicates messages)
  /\ (forall message,
        In message (remove_duplicates messages) <-> In message messages)
  /\ sublist (remove_duplicates messages) messages
  /\ (forall message,
        (In message messages ->
         remove_duplicates (messages ++ [message])
         = remove_duplicates messages)
        /\ (~ In message messages ->
            remove_duplicates (messages ++ [message])
            = remove_duplicates messages ++ [message]))
  /\ (List.NoDup messages -> remove_duplicates messages = messages)
  /\ remove_duplicates (remove_duplicates messages)
     = remove_duplicates messages.
Proof.
  rewrite !remove_duplicates_first_occurrences.
  assert (Hfixed : forall l, List.NoDup l -> first_occurrences [] l = l).
  { intros l Hl. apply first_occurrences_fixed; [exact Hl|]. intros x _ []. }
  split; [apply first_occurrences_NoDup|].
  split; [intros message; rewrite first_occurrences_In; simpl; tauto|].
  split; [apply first_occurrences_sublist|].
  split; [|split; [apply Hfixed|apply Hfixed, first_occurrences_NoDup]].
  intros message. rewrite remove_duplicates_first_occurrences.
  rewrite first_occurrences_snoc. cbn [app].
  split; intros Hin.
  - apply Array_includes_In in Hin. rewrite Hin. now rewrite app_nil_r.
  - destruct (Array_includes messages message) eqn:E; [|reflexivity].
    apply Array_includes_In in E. contradiction.
Qed.

Lemma remove_duplicates_keeps_first_occurrences_witness :
  In "m1" ["m1"; "m2"]
  /\ remove_duplicates (["m1"; "m2"] ++ ["m1"]) = remove_duplicates ["m1"; "m2"]
  /\ ~ In "m3" ["m1"; "m2"]
  /\ remove_duplicates (["m1"; "m2"] ++ ["m3"])
     = remove_duplicates ["m1"; "m2"] ++ ["m3"].
Proof.
  assert (Hin : In "m1" ["m1"; "m2"]) by (now left).
  assert (Hout : ~ In "m3" ["m1"; "m2"]).
  { simpl. intros [H|[H|[]]]; discriminate. }
  destruct (remove_duplicates_keeps_first_occurrences ["m1"; "m2"])
    as (_ & _ & _ & Hsnoc & _).
  split; [exact Hin|]. split; [exact (proj1 (Hsnoc "m1") Hin)|].
  split; [exact Hout|exact (proj2 (Hsnoc "m3") Hout)].
Defined.

(** ** The classifier and the functionality grader *)

Section Classifier.

Variable path_basename : string -> string.
Variable path_dirname : string -> string.

Local Abbreviation dir := (get_code_dir_name path_basename path_dirname).

(** [partition_results] splits the evaluations three ways, keeping their
    order within each part: the wheats are the evaluations whose directory
    name contains [wheat], the chaffs those whose directory name contains
    [chaff] and not [wheat], the rest are the functionality evaluations;
    nothing is lost and nothing is duplicated. *)
Theorem partition_results_is_a_partition (results : list Evaluation.t) :
  partition_results path_basename path_dirname results
  = (List.filter
       (fun r => negb (includes "wheat" (dir r))
                 && negb (includes "chaff" (dir r))) results,
     List.filter (fun r => includes "wheat" (dir r)) results,
     List.filter
       (fun r => negb (includes "wheat" (dir r))
                 && includes "chaff" (dir r)) results)
  /\ Permutation
       (List.filter
          (fun r => negb (includes "wheat" (dir r))
                    && negb (includes "chaff" (dir r))) results
        ++ List.filter (fun r => includes "wheat" (dir r)) results
        ++ List.filter
             (fun r => negb (includes "wheat" (dir r))
                       && includes "chaff" (dir r)) results)
       results.
Proof.
  split.
  - unfold partition_results. rewrite partition_loop_spec. reflexivity.
  - induction results as [|r rest IH]; [constructor|].
    cbn [List.filter].
    destruct (includes "wheat" (dir r)); cbn [negb andb].
    + cbn [app]. rewrite <- Permutation_middle. now constructor.
    + destruct (includes "chaff" (dir r)); cbn [app].
      * rewrite app_assoc, <- Permutation_middle, <- app_assoc.
        now constructor.
      * now constructor.
Qed.

Lemma filter_passed_length tests :
  length (List.filter Test.passed tests)
  + length (List.filter (fun test => negb (Test.passed test)) tests)
  = length tests.
Proof.
  induction tests as [|test rest IH]; [reflexivity|].
  cbn [List.filter]. destruct (Test.passed test); simpl; lia.
Qed.

(** An evaluation of the student's code that did not run gets one report,
    0 out of 1, with the kind of the error.  One that ran gets one report
    per block, in order, each out of 1: a block scores 1 exactly when it did
    not error and none of its tests failed (a block without tests
    included); an errored block says so, and a block with failing tests
    reports how many failed. *)
Theorem generate_functionality_report_per_block (test_result : Evaluation.t) :
  (forall e,
      Evaluation.result test_result = Err e ->
      exists report,
        generate_functionality_report path_basename test_result = [report]
        /\ GradescopeTestReport.score report = Some 0%Z
        /\ GradescopeTestReport.max_score report = Some 1%Z
        /\ GradescopeTestReport.output report = "Error: " +:+ Err.to_string e)
  /\ (forall blocks,
        Evaluation.result test_result = Ok blocks ->
        Forall2
          (fun block report =>
             let failing :=
               length (List.filter (fun test => negb (Test.passed test))
                         (TestBlock.tests block)) in
             GradescopeTestReport.name report
             = "Test: " +:+ dq +:+ TestBlock.name block +:+ dq
             /\ GradescopeTestReport.max_score report = Some 1%Z
             /\ (GradescopeTestReport.score report = Some 1%Z
                 <-> TestBlock.error block = false /\ failing = 0)
             /\ (GradescopeTestReport.score report = Some 0%Z
                 <-> TestBlock.error block = true \/ 0 < failing)
             /\ (TestBlock.error block = true ->
                 GradescopeTestReport.output report = "Block errored.")
             /\ (TestBlock.error block = false -> 0 < failing ->
                 GradescopeTestReport.output report
                 = "Missing " +:+ string_of_nat failing
                   +:+ " tests in this block")
             /\ (TestBlock.error block = false -> failing = 0 ->
                 GradescopeTestReport.output report
                 = "Passed all "
                   +:+ string_of_nat (length (TestBlock.tests block))
                   +:+ " tests in this block!"))
          blocks (generate_functionality_report path_basename test_result)).
Proof.
  split.
  - intros e Hres. unfold generate_functionality_report. rewrite Hres.
    eexists. split; [reflexivity|]. repeat split.
  - intros blocks Hres. unfold generate_functionality_report. rewrite Hres.
    clear Hres. induction blocks as [|block rest IH]; constructor; [|exact IH].
    pose proof (filter_passed_length (TestBlock.tests block)) as Hlen.
    unfold functionality_block_report.
    destruct (TestBlock.error block).
    + cbn. repeat split; try discriminate; auto; intros []; discriminate.
    + destruct (Nat.eqb_spec
                  (length (List.filter Test.passed (TestBlock.tests block)))
                  (length (TestBlock.tests block))) as [Heq|Hne].
      * assert (Hzero : length (List.filter
                                  (fun test => negb (Test.passed test))
                                  (TestBlock.tests block)) = 0) by lia.
        cbn. rewrite Hzero.
        repeat split; try discriminate; auto; try lia.
      * assert (Hpos : 0 < length (List.filter
                                     (fun test => negb (Test.passed test))
                                     (TestBlock.tests block))) by lia.
        cbn.
        replace (length (TestBlock.tests block)
                 - length (List.filter Test.passed (TestBlock.tests block)))
          with (length (List.filter (fun test => negb (Test.passed test))
                          (TestBlock.tests block))) by lia.
        repeat split; try discriminate; auto; try lia.
Qed.

(** The functionality report does not read the locations: it is the same
    before and after normalization. *)
Theorem generate_functionality_report_normalized
    {number : Type} {number_ops : JsNumber number}
    (test_result : Evaluation.t) :
  generate_functionality_report path_basename
    (normalize_code_names test_result)
  = generate_functionality_report path_basename test_result.
Proof.
  unfold generate_functionality_report, normalize_code_names.
  destruct (Evaluation.result test_result) as [blocks|e] eqn:Hres;
    cbn [Evaluation.result]; [|now rewrite Hres].
  rewrite List.map_map. apply map_ext. intros block.
  unfold functionality_block_report, normalize_block.
  cbn [TestBlock.error TestBlock.tests TestBlock.name].
  rewrite length_map.
  assert (Hpassed : length (List.filter Test.passed
                              (map normalize_test (TestBlock.tests block)))
                    = length (List.filter Test.passed (TestBlock.tests block))).
  { induction (TestBlock.tests block) as [|test tests IH]; [reflexivity|].
    cbn [map List.filter normalize_test Test.passed].
    destruct (Test.passed test); simpl; now rewrite IH. }
  now rewrite Hpassed.
Qed.

End Classifier.

Lemma generate_functionality_report_per_block_witness :
  Evaluation.result sample_functionality
  = Ok [TestBlock.mk "sum" "tests.arr:1:0-5:3" false
          [Test.mk "tests.arr:2:2-2:20" true;
           Test.mk "tests.arr:3:2-3:20" false;
           Test.mk "tests.arr:4:2-4:20" true]]
  /\ exists report,
       generate_functionality_report sample_path_basename sample_functionality
       = [report]
       /\ GradescopeTestReport.score report = Some 0%Z
       /\ GradescopeTestReport.output report = "Missing 1 tests in this block".
Proof.
  assert (Hres : Evaluation.result sample_functionality
                 = Ok [TestBlock.mk "sum" "tests.arr:1:0-5:3" false
                         [Test.mk "tests.arr:2:2-2:20" true;
                          Test.mk "tests.arr:3:2-3:20" false;
                          Test.mk "tests.arr:4:2-4:20" true]])
    by reflexivity.
  split; [exact Hres|].
  pose proof (proj2 (generate_functionality_report_per_block
                       sample_path_basename sample_functionality) _ Hres)
    as Hall.
  change (generate_functionality_report sample_path_basename
            sample_functionality)
    with [functionality_block_report
            (TestBlock.mk "sum" "tests.arr:1:0-5:3" false
               [Test.mk "tests.arr:2:2-2:20" true;
                Test.mk "tests.arr:3:2-3:20" false;
                Test.mk "tests.arr:4:2-4:20" true])] in Hall.
  apply Forall2_cons_1 in Hall as [Hhead _].
  eexists. split; [reflexivity|].
  destruct Hhead as (_ & _ & _ & Hzero & _ & Hmissing & _).
  split.
  - apply Hzero. right. simpl. lia.
  - apply Hmissing; [reflexivity|simpl; lia].
Defined.

(** ** Normalization and the failure detector *)

Lemma all_errored_blocks_normalized blocks :
  all_errored_blocks (map normalize_block blocks)
  = map normalize_block (all_errored_blocks blocks).
Proof.
  unfold all_errored_blocks.
  induction blocks as [|block rest IH]; [reflexivity|].
  cbn [map List.filter normalize_block TestBlock.error].
  destruct (TestBlock.error block); simpl; now rewrite IH.
Qed.

Lemma all_failing_tests_normalized blocks :
  all_failing_tests (map normalize_block blocks)
  = map normalize_test_and_block (all_failing_tests blocks).
Proof.
  unfold all_failing_tests.
  induction blocks as [|block rest IH]; [reflexivity|].
  cbn [map flat_map]. rewrite IH, List.map_app. f_equal.
  unfold failing_tests_of. cbn [normalize_block TestBlock.tests].
  fold (normalize_block block). rewrite List.map_map.
  induction (TestBlock.tests block) as [|test tests IHt]; [reflexivity|].
  cbn [map List.filter normalize_test Test.passed].
  destruct (Test.passed test); simpl; now rewrite IHt.
Qed.

(** Normalization does not change what the failure detector finds: the
    report of the normalized evaluation has the tag of the report of the
    evaluation and, when there are failures, the same failing tests and
    errored blocks, normalized, in the same order. *)
Theorem get_invalid_tests_and_blocks_normalized (evaluation : Evaluation.t) :
  TestFailureReport.success
    (get_invalid_tests_and_blocks (normalize_code_names evaluation))
  = TestFailureReport.success (get_invalid_tests_and_blocks evaluation)
  /\ TestFailureReport.failures
       (get_invalid_tests_and_blocks (normalize_code_names evaluation))
     = normalize_failures
         <$> TestFailureReport.failures (get_invalid_tests_and_blocks evaluation).
Proof.
  destruct (Evaluation.result evaluation) as [blocks|e] eqn:Hres.
  - assert (Hres' : Evaluation.result (normalize_code_names evaluation)
                    = Ok (map normalize_block blocks)).
    { unfold normalize_code_names. now rewrite Hres. }
    rewrite (get_invalid_tests_and_blocks_Ok _ _ Hres),
      (get_invalid_tests_and_blocks_Ok _ _ Hres').
    rewrite all_errored_blocks_normalized, all_failing_tests_normalized.
    destruct (all_failing_tests blocks), (all_errored_blocks blocks);
      split; reflexivity.
  - assert (Hsame : normalize_code_names evaluation = evaluation).
    { unfold normalize_code_names. now rewrite Hres. }
    rewrite Hsame, (get_invalid_tests_and_blocks_Err _ _ Hres).
    split; reflexivity.
Qed.

(** ** The examplar chaff report *)

(** The examplar report of a chaff always exists.  A chaff that did not run
    is reported caught, with the kind of the error.  A chaff that ran is
    reported not caught, with an empty output, exactly when no block errored
    and no test failed; otherwise it is reported caught, and the output
    lists the errored blocks first, then the failing tests, one line each,
    in their order.  No location is discounted here. *)
Theorem generate_examplar_chaff_report_verdict
    {number : Type} {number_ops : JsNumber number}
    (chaff_result : Evaluation.t) (chaff_number : nat) :
  exists report,
    generate_examplar_chaff_report chaff_result chaff_number = Return report
    /\ (forall e,
          Evaluation.result chaff_result = Err e ->
          GradescopeTestReport.name report
          = "Chaff number " +:+ string_of_nat chaff_number +:+ " caught!"
          /\ GradescopeTestReport.output report
             = "Chaff errored: " +:+ Err.to_string e +:+ "." +:+ nl
               +:+ "Note that this means you are not testing defensively.")
    /\ (forall blocks,
          Evaluation.result chaff_result = Ok blocks ->
          (all_errored_blocks blocks = [] /\ all_failing_tests blocks = [] ->
           GradescopeTestReport.name report
           = "Chaff number " +:+ string_of_nat chaff_number +:+ " not caught."
           /\ GradescopeTestReport.output report = EmptyString)
          /\ (all_errored_blocks blocks <> [] \/ all_failing_tests blocks <> [] ->
              GradescopeTestReport.name report
              = "Chaff number " +:+ string_of_nat chaff_number +:+ " caught!"
              /\ GradescopeTestReport.output report
                 = "The following tests caught this chaff:" +:+ nl
                   +:+ join nl
                         (map chaff_block_message (all_errored_blocks blocks)
                          ++ map chaff_test_message
                               (all_failing_tests blocks)))).
Proof.
  unfold generate_examplar_chaff_report.
  destruct (Evaluation.result chaff_result) as [blocks|e] eqn:Hres.
  - rewrite (get_invalid_tests_and_blocks_Ok _ _ Hres).
    unfold generate_examplar_chaff_report_of.
    destruct (all_failing_tests blocks) as [|tb tbs] eqn:Et;
      destruct (all_errored_blocks blocks) as [|b bs] eqn:Eb;
      cbn [TestFailureReport.success TestFailureReport.failures
           Failures.tests Failures.blocks];
      rewrite ?push_each_spec; cbn [app map length Nat.eqb bind];
      eexists; (split; [reflexivity|]); (split; [discriminate|]);
      intros blocks0 [= <-]; rewrite ?Et, ?Eb;
      cbn [GradescopeTestReport.name GradescopeTestReport.output];
      split; try (intros [? ?]; discriminate);
      try (intros [?|?]; congruence); auto.
    all: intros _; split; [reflexivity|]; now rewrite ?app_nil_r.
  - rewrite (get_invalid_tests_and_blocks_Err _ _ Hres).
    unfold generate_examplar_chaff_report_of, template_of_Err.
    cbn [TestFailureReport.success bind]. rewrite Hres.
    eexists. split; [reflexivity|]. split; [|discriminate].
    intros e0 [= <-]. split; reflexivity.
Qed.

Lemma generate_examplar_chaff_report_verdict_witness :
  Evaluation.result sample_chaff = Ok [sample_block_A; sample_block_B]
  /\ exists report,
       generate_examplar_chaff_report sample_chaff 3 = Return report
       /\ GradescopeTestReport.name report = "Chaff number 3 caught!".
Proof.
  assert (Hres : Evaluation.result sample_chaff
                 = Ok [sample_block_A; sample_block_B]) by reflexivity.
  split; [exact Hres|].
  destruct (generate_examplar_chaff_report_verdict sample_chaff 3)
    as (report & Hreport & _ & Hok).
  exists report. split; [exact Hreport|].
  apply (proj2 (Hok _ Hres)). left. discriminate.
Defined.

(** ** The examplar phase and [main] *)

Lemma examplar_chaff_reports_total
    {number : Type} {number_ops : JsNumber number}
    index chaff_results :
  exists reports,
    examplar_chaff_reports index chaff_results = Return reports
    /\ length reports = length chaff_results
    /\ forall i chaff,
         chaff_results !! i = Some chaff ->
         exists report,
           reports !! i = Some report
           /\ generate_examplar_chaff_report chaff (index + i) = Return report.
Proof.
  revert index. induction chaff_results as [|chaff rest IH]; intros index.
  - exists []. split; [reflexivity|]. split; [reflexivity|].
    intros i chaff Hi. discriminate.
  - cbn [examplar_chaff_reports].
    destruct (generate_examplar_chaff_report_total chaff index)
      as [report Hreport].
    destruct (IH (S index)) as (reports & Hreports & Hlen & Hnth).
    rewrite Hreport, Hreports. cbn [bind].
    exists (report :: reports). split; [reflexivity|].
    split; [simpl; now rewrite Hlen|].
    intros [|i] c Hi.
    + injection Hi as <-. exists report. rewrite Nat.add_0_r. auto.
    + destruct (Hnth i c Hi) as (r & Hr & Hgen).
      exists r. split; [exact Hr|].
      now replace (index + S i) with (S index + i) by lia.
Qed.

Lemma map_exc_length {A B : Type} (f : A -> Exc B) xs ys :
  map_exc f xs = Return ys -> length ys = length xs.
Proof.
  revert ys. induction xs as [|x rest IH]; intros ys.
  - intros [= <-]. reflexivity.
  - cbn [map_exc]. destruct (f x) as [y|e]; [|discriminate]. cbn [bind].
    destruct (map_exc f rest) as [ys'|e]; [|discriminate]. cbn [bind].
    intros [= <-]. simpl. now rewrite (IH ys' eq_refl).
Qed.

Lemma map_exc_Forall2 {A B : Type} (f : A -> Exc B) xs ys :
  map_exc f xs = Return ys -> Forall2 (fun x y => f x = Return y) xs ys.
Proof.
  revert ys. induction xs as [|x rest IH]; intros ys.
  - intros [= <-]. constructor.
  - cbn [map_exc]. destruct (f x) as [y|e] eqn:Hx; [|discriminate]. cbn [bind].
    destruct (map_exc f rest) as [ys'|e]; [|discriminate]. cbn [bind].
    intros [= <-]. constructor; [exact Hx|now apply IH].
Qed.

Lemma forallb_ran_normalized evaluations :
  forallb ran (map normalize_code_names evaluations) = forallb ran evaluations.
Proof.
  induction evaluations as [|e rest IH]; [reflexivity|].
  cbn [map forallb]. now rewrite normalize_code_names_ran, IH.
Qed.

Lemma forallb_exists_false {A : Type} (f : A -> bool) xs :
  forallb f xs = false -> exists x, In x xs /\ f x = false.
Proof.
  induction xs as [|x rest IH]; [discriminate|].
  cbn [forallb]. destruct (f x) eqn:Hx.
  - intros Hrest. destruct (IH Hrest) as (y & Hin & Hy).
    exists y. split; [now right|exact Hy].
  - intros _. exists x. split; [now left|exact Hx].
Qed.

Section Main.

Variable path_basename : string -> string.
Variable path_dirname : string -> string.

Lemma examplar_phase_total
    {number : Type} {number_ops : JsNumber number} examplar_config wheat_results chaff_results :
  exists reports,
    examplar_phase path_basename examplar_config wheat_results chaff_results
    = Return reports.
Proof.
  unfold examplar_phase.
  destruct examplar_config as [config|]; [|eauto].
  destruct (ExamplarConfig.useWheats config); [|eauto].
  rewrite generate_examplar_wheat_report_spec. cbn [bind].
  destruct (String.eqb _ "VALID"); [|eauto].
  match goal with
  | |- context [examplar_chaff_reports 0 ?selected] =>
      destruct (examplar_chaff_reports_total 0 selected) as (reports & -> & _)
  end.
  cbn [bind]. eauto.
Qed.

(** The examplar phase never throws.  Without a configuration, or with
    [useWheats] off, it reports nothing.  Otherwise it reports the aggregate
    wheat verdict first; the chaffs follow only under a [VALID] verdict, one
    report for each chaff the configuration selects, in order, numbered
    from 0 by its position among the selected chaffs. *)
Theorem examplar_phase_reports
    {number : Type} {number_ops : JsNumber number}
    (examplar_config : option ExamplarConfig.t)
    (wheat_results chaff_results : list Evaluation.t) :
  exists reports,
    examplar_phase path_basename examplar_config wheat_results chaff_results
    = Return reports
    /\ (examplar_config = None -> reports = [])
    /\ (forall config,
          examplar_config = Some config ->
          (ExamplarConfig.useWheats config = false -> reports = [])
          /\ (ExamplarConfig.useWheats config = true ->
              exists wheat_report chaff_reports,
                generate_examplar_wheat_report wheat_results
                = Return wheat_report
                /\ reports = wheat_report :: chaff_reports
                /\ (GradescopeTestReport.name wheat_report <> "VALID" ->
                    chaff_reports = [])
                /\ (GradescopeTestReport.name wheat_report = "VALID" ->
                    length chaff_reports
                    = length (examplar_chaffs path_basename config
                                chaff_results)
                    /\ forall i chaff,
                         examplar_chaffs path_basename config chaff_results
                           !! i = Some chaff ->
                         exists report,
                           chaff_reports !! i = Some report
                           /\ generate_examplar_chaff_report chaff i
                              = Return report))).
Proof.
  unfold examplar_phase.
  destruct examplar_config as [config|].
  2:{ exists []. split; [reflexivity|]. split; [reflexivity|discriminate]. }
  destruct (ExamplarConfig.useWheats config) eqn:Huse.
  2:{ exists []. split; [reflexivity|]. split; [discriminate|].
      intros config0 [= <-]. rewrite Huse. split; [reflexivity|discriminate]. }
  rewrite generate_examplar_wheat_report_spec. cbn [bind].
  set (wheat_report := GradescopeTestReport.mk _ _ _ _ _ _ _).
  fold (examplar_chaffs path_basename config chaff_results).
  destruct (String.eqb_spec (GradescopeTestReport.name wheat_report) "VALID")
    as [Hvalid|Hinvalid].
  - destruct (examplar_chaff_reports_total 0
                (examplar_chaffs path_basename config chaff_results))
      as (chaff_reports & -> & Hlen & Hnth).
    cbn [bind]. exists (wheat_report :: chaff_reports).
    split; [reflexivity|]. split; [discriminate|].
    intros config0 [= <-]. rewrite Huse. split; [discriminate|]. intros _.
    exists wheat_report, chaff_reports. split; [reflexivity|].
    split; [reflexivity|]. split; [contradiction|]. intros _.
    split; [exact Hlen|exact Hnth].
  - exists [wheat_report]. split; [reflexivity|]. split; [discriminate|].
    intros config0 [= <-]. rewrite Huse. split; [discriminate|]. intros _.
    exists wheat_report, []. split; [reflexivity|].
    split; [reflexivity|]. split; [reflexivity|]. contradiction.
Qed.

Lemma detailed_phase_errored
    {number : Type} {number_ops : JsNumber number} point_values test_results wheat_results
    chaff_results :
  forallb ran wheat_results = false ->
  detailed_phase path_basename point_values test_results wheat_results
    chaff_results = Throw TypeError.
Proof.
  intros Hran. unfold detailed_phase.
  destruct (map_exc_generate_detailed_wheat_report path_basename wheat_results)
    as [reports ->].
  cbn [bind]. now rewrite generate_detailed_chaff_report_errored.
Qed.

Lemma detailed_phase_ran
    {number : Type} {number_ops : JsNumber number}
    point_values test_results wheat_results chaff_results :
  forallb ran wheat_results = true ->
  exists wheat_reports chaff_report,
    Forall2 (fun wheat report =>
               generate_detailed_wheat_report path_basename wheat
               = Return report)
      wheat_results wheat_reports
    /\ generate_detailed_chaff_report path_basename wheat_results
       = Return chaff_report
    /\ detailed_phase path_basename point_values test_results wheat_results
         chaff_results
       = Return
           (concat (map (generate_functionality_report path_basename)
                      test_results)
            ++ wheat_reports ++ map chaff_report chaff_results,
            map (fun evaluation =>
                   generate_score_report
                     (generate_functionality_report path_basename evaluation)
                     (PointData.functionality point_values)
                     "functionality" ReportSection.Functionality)
                test_results
            ++ [generate_score_report wheat_reports
                  (PointData.testing point_values) "wheats"
                  ReportSection.Wheat;
                generate_score_report (map chaff_report chaff_results)
                  (PointData.testing point_values) "chaffs"
                  ReportSection.Chaff]).
Proof.
  intros Hran. unfold detailed_phase.
  destruct (map_exc_generate_detailed_wheat_report path_basename wheat_results)
    as [reports Hreports].
  rewrite Hreports. cbn [bind].
  unfold generate_detailed_chaff_report, all_invalid_locs_of.
  rewrite collect_all_invalid_ran by assumption. cbn [bind].
  eexists. eexists. split; [exact (map_exc_Forall2 _ _ _ Hreports)|].
  split; [reflexivity|]. now rewrite List.map_map.
Qed.

(** [main] ends in one of two ways.  When an evaluation classified as a
    wheat did not run it throws a [TypeError]; it never throws anything
    else.  When every wheat ran it returns the report: visible, with overall
    score 0 out of 0 whatever the points, and with these tests, in this
    order: the examplar reports; the functionality reports of each
    functionality evaluation; the detailed report of each wheat; the
    detailed report of each chaff, from the generator built from the wheats;
    the score report of the functionality reports of each functionality
    evaluation, under the functionality points; the score report of the
    detailed wheat reports and the score report of the detailed chaff
    reports, both under the testing points.  All of them are computed from
    the normalized evaluations. *)
Theorem main_outcome
    {number : Type} {number_ops : JsNumber number}
    (results : list Evaluation.t)
    (examplar_config : option ExamplarConfig.t) (point_values : PointData.t) :
  let functionality :=
    map normalize_code_names
      (classified_functionality path_basename path_dirname results) in
  let wheats :=
    map normalize_code_names
      (classified_wheats path_basename path_dirname results) in
  let chaffs :=
    map normalize_code_names
      (classified_chaffs path_basename path_dirname results) in
  (forall thrown,
      main path_basename path_dirname results examplar_config point_values
      = Throw thrown ->
      thrown = TypeError)
  /\ (main path_basename path_dirname results examplar_config point_values
      = Throw TypeError
      <-> exists wheat e,
            In wheat results
            /\ includes "wheat"
                 (get_code_dir_name path_basename path_dirname wheat) = true
            /\ Evaluation.result wheat = Err e)
  /\ (forall report,
        main path_basename path_dirname results examplar_config point_values
        = Return report ->
        GradescopeReport.score report = zero
        /\ GradescopeReport.max_score report = zero
        /\ GradescopeReport.visibility report = Visible
        /\ GradescopeReport.stdout_visibility report = Visible
        /\ exists examplar_reports wheat_reports chaff_report,
             examplar_phase path_basename examplar_config wheats chaffs
             = Return examplar_reports
             /\ Forall2 (fun wheat wheat_report =>
                           generate_detailed_wheat_report path_basename wheat
                           = Return wheat_report)
                  wheats wheat_reports
             /\ generate_detailed_chaff_report path_basename wheats
                = Return chaff_report
             /\ GradescopeReport.tests report
                = examplar_reports
                  ++ (concat
                        (map (generate_functionality_report path_basename)
                           functionality)
                      ++ wheat_reports ++ map chaff_report chaffs)
                  ++ (map (fun evaluation =>
                             generate_score_report
                               (generate_functionality_report path_basename
                                  evaluation)
                               (PointData.functionality point_values)
                               "functionality" ReportSection.Functionality)
                          functionality
                      ++ [generate_score_report wheat_reports
                            (PointData.testing point_values) "wheats"
                            ReportSection.Wheat;
                          generate_score_report (map chaff_report chaffs)
                            (PointData.testing point_values) "chaffs"
                            ReportSection.Chaff])).
Proof.
  intros functionality wheats chaffs.
  assert (Hmain :
    main path_basename path_dirname results examplar_config point_values
    = let* examplar_reports :=
        examplar_phase path_basename examplar_config wheats chaffs in
      let* detailed_score :=
        detailed_phase path_basename point_values functionality wheats
          chaffs in
      let '(detailed_reports, score_reports) := detailed_score in
      Return (generate_overall_report
                (examplar_reports ++ detailed_reports ++ score_reports))).
  { unfold main, partition_results. rewrite partition_loop_spec. reflexivity. }
  destruct (examplar_phase_total examplar_config wheats chaffs)
    as (examplar_reports & Hexamplar).
  rewrite Hmain, Hexamplar. cbn [bind].
  assert (Hwheats : forallb ran wheats
                    = forallb ran
                        (classified_wheats path_basename path_dirname results))
    by apply forallb_ran_normalized.
  assert (Herr : forallb ran
                   (classified_wheats path_basename path_dirname results)
                 = false
                 <-> exists wheat e,
                       In wheat results
                       /\ includes "wheat"
                            (get_code_dir_name path_basename path_dirname wheat)
                          = true
                       /\ Evaluation.result wheat = Err e).
  { split.
    - intros Hfalse.
      destruct (forallb_exists_false _ _ Hfalse) as (wheat & Hin & Hwheat).
      apply filter_In in Hin as [Hin Hdir]. unfold ran in Hwheat.
      destruct (Evaluation.result wheat) as [|e] eqn:Hres; [discriminate|].
      eauto.
    - intros (wheat & e & Hin & Hdir & Hres).
      apply (forallb_ran_false _ wheat e); [|exact Hres].
      apply filter_In. auto. }
  destruct (forallb ran wheats) eqn:Hran.
  - destruct (detailed_phase_ran point_values functionality wheats chaffs Hran)
      as (wheat_reports & chaff_report & Hwheat_reports & Hgen & Hphase).
    rewrite Hphase. cbn [bind].
    split; [discriminate|]. split.
    + split; [discriminate|]. intros Hex. apply Herr in Hex. congruence.
    + intros report [= <-]. repeat split.
      exists examplar_reports, wheat_reports, chaff_report. auto.
  - rewrite detailed_phase_errored by assumption.
    split; [now intros thrown [= <-]|]. split.
    + split; [|reflexivity]. intros _. apply Herr. congruence.
    + discriminate.
Qed.

End Main.

(** The instance of [main_outcome] at one functionality evaluation, one
    passing wheat and one chaff, under an examplar configuration and no
    points: the tests of the report are the two examplar reports, the
    functionality report, the wheat report, the chaff report and the three
    score reports. *)
Lemma main_outcome_witness :
  let results := [sample_functionality; sample_wheat_passing; sample_chaff] in
  let config := Some (ExamplarConfig.mk true None) in
  exists report,
    main sample_path_basename sample_path_dirname results config
      (PointData.mk ∅ ∅) = Return report
    /\ GradescopeReport.score report = 0%Z
    /\ GradescopeReport.max_score report = 0%Z
    /\ exists examplar_reports wheat_reports chaff_report,
         generate_detailed_chaff_report sample_path_basename
           [normalize_code_names sample_wheat_passing] = Return chaff_report
         /\ length examplar_reports = 2
         /\ length wheat_reports = 1
         /\ GradescopeReport.tests report
            = examplar_reports
              ++ (generate_functionality_report sample_path_basename
                    (normalize_code_names sample_functionality)
                  ++ wheat_reports
                  ++ [chaff_report (normalize_code_names sample_chaff)])
              ++ [generate_score_report
                    (generate_functionality_report sample_path_basename
                       (normalize_code_names sample_functionality))
                    ∅ "functionality" ReportSection.Functionality;
                  generate_score_report wheat_reports ∅ "wheats"
                    ReportSection.Wheat;
                  generate_score_report
                    [chaff_report (normalize_code_names sample_chaff)]
                    ∅ "chaffs" ReportSection.Chaff].
Proof.
  intros results config.
  assert (Hmain : exists report,
            main sample_path_basename sample_path_dirname results config
              (PointData.mk ∅ ∅) = Return report).
  { eexists. vm_compute. reflexivity. }
  destruct Hmain as (report & Hmain).
  exists report. split; [exact Hmain|].
  destruct (proj2 (proj2 (main_outcome sample_path_basename
                            sample_path_dirname results config
                            (PointData.mk ∅ ∅))) report Hmain)
    as (Hscore & Hmax & _ & _ & examplar_reports & wheat_reports
        & chaff_report & Hexamplar & Hwheats & Hgen & Htests).
  split; [exact Hscore|]. split; [exact Hmax|].
  exists examplar_reports, wheat_reports, chaff_report.
  split; [exact Hgen|].
  split; [vm_compute in Hexamplar; now injection Hexamplar as <-|].
  split; [exact (eq_sym (Forall2_length _ _ _ Hwheats))|].
  rewrite Htests. reflexivity.
Defined.

(** ** The detailed chaff score on the evaluations of [main] (C2) *)

(** The failure report of a normalized evaluation: the failures of the
    evaluation, normalized. *)
Lemma failures_normalized evaluation :
  TestFailureReport.failures
    (get_invalid_tests_and_blocks (normalize_code_names evaluation))
  = normalize_failures
      <$> TestFailureReport.failures (get_invalid_tests_and_blocks evaluation).
Proof.
  destruct (Evaluation.result evaluation) as [blocks|e] eqn:Hres.
  - assert (Hres' : Evaluation.result (normalize_code_names evaluation)
                    = Ok (map normalize_block blocks)).
    { unfold normalize_code_names. now rewrite Hres. }
    rewrite (get_invalid_tests_and_blocks_Ok _ _ Hres),
      (get_invalid_tests_and_blocks_Ok _ _ Hres').
    rewrite all_errored_blocks_normalized, all_failing_tests_normalized.
    destruct (all_failing_tests blocks), (all_errored_blocks blocks);
      reflexivity.
  - assert (Hsame : normalize_code_names evaluation = evaluation).
    { unfold normalize_code_names. now rewrite Hres. }
    rewrite Hsame, (get_invalid_tests_and_blocks_Err _ _ Hres). reflexivity.
Qed.

Lemma known_bad_normalized wheat_results loc :
  known_bad (map normalize_code_names wheat_results) loc
  <-> normalized_known_bad wheat_results loc.
Proof.
  unfold normalized_known_bad, known_bad. split.
  - intros (wheat' & invalids' & Hin & Hf & Hloc).
    apply in_map_iff in Hin as (wheat & <- & Hin).
    rewrite failures_normalized in Hf.
    destruct (TestFailureReport.failures (get_invalid_tests_and_blocks wheat))
      as [invalids|] eqn:Hraw; [|discriminate].
    injection Hf as <-.
    cbn [normalize_failures Failures.tests Failures.blocks] in Hloc.
    destruct Hloc as [Hloc|Hloc].
    + rewrite List.map_map in Hloc.
      apply in_map_iff in Hloc as (tb & <- & Htb).
      exists (Test.loc (TestAndBlock.test tb)). split; [|reflexivity].
      exists wheat, invalids. split; [exact Hin|]. split; [exact Hraw|].
      left. apply in_map_iff. eauto.
    + rewrite List.map_map in Hloc.
      apply in_map_iff in Hloc as (b & <- & Hb).
      exists (TestBlock.loc b). split; [|reflexivity].
      exists wheat, invalids. split; [exact Hin|]. split; [exact Hraw|].
      right. apply in_map_iff. eauto.
  - intros (raw & (wheat & invalids & Hin & Hf & Hloc) & ->).
    exists (normalize_code_names wheat), (normalize_failures invalids).
    split; [now apply in_map|].
    split; [rewrite failures_normalized, Hf; reflexivity|].
    cbn [normalize_failures Failures.tests Failures.blocks].
    rewrite !List.map_map.
    destruct Hloc as [Hloc|Hloc].
    + left. apply in_map_iff in Hloc as (tb & <- & Htb).
      apply in_map_iff. exists tb. split; [reflexivity|exact Htb].
    + right. apply in_map_iff in Hloc as (b & <- & Hb).
      apply in_map_iff. exists b. split; [reflexivity|exact Hb].
Qed.

Lemma unmasked_failure_normalized wheat_results block :
  unmasked_failure (map normalize_code_names wheat_results)
    (normalize_block block)
  <-> genuine_failure wheat_results block.
Proof.
  unfold unmasked_failure, unmasked_error, unmasked_failing_test,
    genuine_failure.
  cbn [normalize_block TestBlock.error TestBlock.loc TestBlock.tests].
  rewrite known_bad_normalized. split.
  - intros [H|(test' & Hin & Hp & Hloc)]; [now left|right].
    apply in_map_iff in Hin as (test & <- & Hin).
    rewrite known_bad_normalized in Hloc. exists test. auto.
  - intros [H|(test & Hin & Hp & Hloc)]; [now left|right].
    exists (normalize_test test). split; [now apply in_map|].
    split; [exact Hp|]. now rewrite known_bad_normalized.
Qed.

Section DetailedChaffScore.

Variable path_basename : string -> string.

Lemma generate_detailed_chaff_report_ran
    {number : Type} {number_ops : JsNumber number} wheat_results :
  forallb ran wheat_results = true ->
  exists chaff_report,
    generate_detailed_chaff_report path_basename wheat_results
    = Return chaff_report.
Proof.
  intros Hran. unfold generate_detailed_chaff_report, all_invalid_locs_of.
  rewrite collect_all_invalid_ran by assumption. cbn [bind]. eauto.
Qed.

(** C2.  With a wheat that did not run, no chaff is scored.  Building the
    generator of detailed chaff reports from the wheat that timed out raises
    a [TypeError], and so does the detailed phase for the chaff that did not
    run, which scores 1 when there is no wheat; the same holds for every
    list of wheats one of which did not run.  When every wheat ran the
    generator is built, and on the normalized evaluations that [main] passes
    to it the report of a chaff is out of 1 and
    - scores 1 when the chaff did not run;
    - when the chaff ran, scores 1 exactly when one of its blocks errored,
      or has a failing test, at a location whose normalization is not the
      normalization of a location in the failure reports of the wheats, and
      scores 0 exactly when there is no such block;
    - with no wheat at all, no location is known-bad, and a chaff with an
      errored block or a failing test scores 1. *)
Theorem C2_errored_wheat_leaves_chaffs_unscored :
  (Evaluation.result sample_wheat_timeout = Err Err.Timeout
   /\ Evaluation.result sample_chaff_errored = Err Err.Runtime
   /\ generate_detailed_chaff_report path_basename
        (map normalize_code_names [sample_wheat_timeout])
      = Throw TypeError
   /\ (forall point_values,
         detailed_phase path_basename point_values []
           (map normalize_code_names [sample_wheat_timeout])
           (map normalize_code_names [sample_chaff_errored])
         = Throw TypeError)
   /\ exists chaff_report,
        generate_detailed_chaff_report path_basename [] = Return chaff_report
        /\ GradescopeTestReport.score
             (chaff_report (normalize_code_names sample_chaff_errored))
           = Some 1%Z)
  /\ (forall (wheat_results : list Evaluation.t) (wheat : Evaluation.t)
             (e : Err.t),
        In wheat wheat_results ->
        Evaluation.result wheat = Err e ->
        generate_detailed_chaff_report path_basename
          (map normalize_code_names wheat_results)
        = Throw TypeError)
  /\ (forall (wheat_results : list Evaluation.t) (chaff : Evaluation.t),
        forallb ran wheat_results = true ->
        exists chaff_report,
          generate_detailed_chaff_report path_basename
            (map normalize_code_names wheat_results)
          = Return chaff_report
          /\ GradescopeTestReport.max_score
               (chaff_report (normalize_code_names chaff)) = Some 1%Z
          /\ (forall e,
                Evaluation.result chaff = Err e ->
                GradescopeTestReport.score
                  (chaff_report (normalize_code_names chaff)) = Some 1%Z)
          /\ (forall blocks,
                Evaluation.result chaff = Ok blocks ->
                (GradescopeTestReport.score
                   (chaff_report (normalize_code_names chaff)) = Some 1%Z
                 <-> exists block,
                       In block blocks
                       /\ genuine_failure wheat_results block)
                /\ (GradescopeTestReport.score
                      (chaff_report (normalize_code_names chaff)) = Some 0%Z
                    <-> ~ exists block,
                            In block blocks
                            /\ genuine_failure wheat_results block))
          /\ (wheat_results = [] ->
              (forall loc, ~ normalized_known_bad wheat_results loc)
              /\ forall blocks,
                   Evaluation.result chaff = Ok blocks ->
                   (exists block,
                       In block blocks
                       /\ (TestBlock.error block = true
                           \/ exists test,
                                In test (TestBlock.tests block)
                                /\ Test.passed test = false)) ->
                   GradescopeTestReport.score
                     (chaff_report (normalize_code_names chaff)) = Some 1%Z)).
Proof.
  assert (Herrored : forall wheat_results wheat e,
            In wheat wheat_results ->
            Evaluation.result wheat = Err e ->
            generate_detailed_chaff_report path_basename
              (map normalize_code_names wheat_results)
            = Throw TypeError).
  { intros wheat_results wheat e Hin Hres.
    apply generate_detailed_chaff_report_errored.
    rewrite forallb_ran_normalized.
    exact (forallb_ran_false _ _ _ Hin Hres). }
  split; [|split; [exact Herrored|]].
  - split; [reflexivity|]. split; [reflexivity|].
    split; [exact (Herrored [sample_wheat_timeout] _ _
                     (or_introl eq_refl) eq_refl)|].
    split.
    + intros point_values. unfold detailed_phase.
      destruct (map_exc_generate_detailed_wheat_report path_basename
                  (map normalize_code_names [sample_wheat_timeout]))
        as [reports ->].
      cbn [bind].
      now rewrite (Herrored [sample_wheat_timeout] _ _
                     (or_introl eq_refl) eq_refl).
    + eexists. split; reflexivity.
  - intros wheat_results chaff Hran.
    rewrite <- forallb_ran_normalized in Hran.
    destruct (generate_detailed_chaff_report_ran _ Hran)
      as [chaff_report Hgen].
    exists chaff_report. split; [exact Hgen|].
    destruct (detailed_chaff_score path_basename _ _
                (normalize_code_names chaff) Hgen)
      as (Hmax & Herr & Hok & _).
    split; [exact Hmax|]. split; [|split].
    + intros e Hres. apply (Herr e).
      unfold normalize_code_names. now rewrite Hres.
    + intros blocks Hres.
      assert (Hres' : Evaluation.result (normalize_code_names chaff)
                      = Ok (map normalize_block blocks)).
      { unfold normalize_code_names. now rewrite Hres. }
      assert (Hsame :
        (exists block,
            In block (map normalize_block blocks)
            /\ unmasked_failure (map normalize_code_names wheat_results) block)
        <-> exists block,
              In block blocks /\ genuine_failure wheat_results block).
      { split.
        - intros (block' & Hin & Hfail).
          apply in_map_iff in Hin as (block & <- & Hin).
          exists block. split; [exact Hin|].
          now apply unmasked_failure_normalized.
        - intros (block & Hin & Hfail).
          exists (normalize_block block). split; [now apply in_map|].
          now apply unmasked_failure_normalized. }
      rewrite <- Hsame. exact (Hok _ Hres').
    + intros ->.
      assert (Hnone : forall loc, ~ normalized_known_bad [] loc).
      { intros loc (raw & (wheat & _ & [] & _) & _). }
      split; [exact Hnone|].
      intros blocks Hres (block & Hin & Hfail).
      assert (Hres' : Evaluation.result (normalize_code_names chaff)
                      = Ok (map normalize_block blocks)).
      { unfold normalize_code_names. now rewrite Hres. }
      apply (Hok _ Hres'). exists (normalize_block block).
      split; [now apply in_map|].
      apply (unmasked_failure_normalized []).
      destruct Hfail as [Herror|(test & Htest & Hp)].
      * left. split; [exact Herror|apply Hnone].
      * right. exists test. repeat split; [assumption..|apply Hnone].
Qed.

End DetailedChaffScore.

(** The instances of [C2_errored_wheat_leaves_chaffs_unscored]: the wheat
    that timed out, and a wheat with a failing test at a location that
    still carries its directories.  The failing test of the chaff, in block
    A, is at the same location once normalized and is discounted; the chaff
    scores 1 by the error in its block B. *)
Lemma C2_errored_wheat_leaves_chaffs_unscored_witness :
  In sample_wheat_timeout [sample_wheat_timeout]
  /\ generate_detailed_chaff_report sample_path_basename
       (map normalize_code_names [sample_wheat_timeout])
     = Throw TypeError
  /\ forallb ran [sample_raw_evaluation] = true
  /\ Evaluation.result sample_chaff = Ok [sample_block_A; sample_block_B]
  /\ exists chaff_report,
       generate_detailed_chaff_report sample_path_basename
         (map normalize_code_names [sample_raw_evaluation])
       = Return chaff_report
       /\ GradescopeTestReport.score
            (chaff_report (normalize_code_names sample_chaff)) = Some 1%Z
       /\ exists block,
            In block [sample_block_A; sample_block_B]
            /\ genuine_failure [sample_raw_evaluation] block.
Proof.
  assert (Hin : In sample_wheat_timeout [sample_wheat_timeout]) by (now left).
  assert (Hran : forallb ran [sample_raw_evaluation] = true) by reflexivity.
  assert (Hres : Evaluation.result sample_chaff
                 = Ok [sample_block_A; sample_block_B]) by reflexivity.
  split; [exact Hin|].
  split; [exact (proj1 (proj2 (C2_errored_wheat_leaves_chaffs_unscored
                                 sample_path_basename))
                   [sample_wheat_timeout] sample_wheat_timeout Err.Timeout
                   Hin eq_refl)|].
  split; [exact Hran|]. split; [exact Hres|].
  destruct (proj2 (proj2 (C2_errored_wheat_leaves_chaffs_unscored
                            sample_path_basename))
              [sample_raw_evaluation] sample_chaff Hran)
    as (chaff_report & Hgen & _ & _ & Hok & _).
  exists chaff_report. split; [exact Hgen|].
  assert (Hscore : GradescopeTestReport.score
                     (chaff_report (normalize_code_names sample_chaff))
                   = Some 1%Z).
  { vm_compute in Hgen. injection Hgen as <-. reflexivity. }
  split; [exact Hscore|].
  exact (proj1 (proj1 (Hok _ Hres)) Hscore).
Defined.

(** ** Masking by the known-bad locations *)

Lemma chaff_scan_blocks_score all_invalid_locs blocks :
  snd (chaff_scan_blocks all_invalid_locs blocks)
  = if existsb (caught_by all_invalid_locs) blocks then 1%Z else 0%Z.
Proof.
  induction blocks as [|block rest IH]; [reflexivity|].
  rewrite chaff_scan_blocks_cons. cbn [existsb]. unfold caught_by at 1.
  destruct (error_unmasked all_invalid_locs block); [reflexivity|].
  destruct (has_unmasked_test all_invalid_locs block); [reflexivity|exact IH].
Qed.

Lemma caught_by_mono locs locs' block :
  (forall loc, In loc locs -> In loc locs') ->
  caught_by locs' block = true -> caught_by locs block = true.
Proof.
  intros Hincl.
  assert (Hinc : forall loc,
            Array_includes locs' loc = false -> Array_includes locs loc = false).
  { intros loc Hloc. destruct (Array_includes locs loc) eqn:E; [|reflexivity].
    apply Array_includes_In, Hincl, Array_includes_In in E. congruence. }
  unfold caught_by, error_unmasked, has_unmasked_test, test_unmasked.
  rewrite !orb_true_iff, !andb_true_iff, !negb_true_iff, !existsb_exists.
  intros [[He Hloc]|(test & Hin & Htest)].
  - left. auto.
  - right. exists test. split; [exact Hin|].
    apply andb_true_iff in Htest as [Hp Hloc]. apply negb_true_iff in Hloc.
    now rewrite Hp, (Hinc _ Hloc).
Qed.

Lemma get_score_and_output_score all_invalid_locs chaff :
  snd (get_score_and_output all_invalid_locs chaff)
  = match Evaluation.result chaff with
    | Err _ => 1%Z
    | Ok blocks =>
        if existsb (caught_by all_invalid_locs) blocks then 1%Z else 0%Z
    end.
Proof.
  unfold get_score_and_output.
  destruct (Evaluation.result chaff); [apply chaff_scan_blocks_score|reflexivity].
Qed.

Lemma known_bad_incl wheat_results wheat_results' loc :
  (forall wheat, In wheat wheat_results -> In wheat wheat_results') ->
  known_bad wheat_results loc -> known_bad wheat_results' loc.
Proof.
  intros Hincl (wheat & invalids & Hin & Hf & Hloc).
  exists wheat, invalids. auto.
Qed.

Section Masking.

Variable path_basename : string -> string.

(** More wheats never raise the score of a chaff: when the generator is
    built from a list of wheats and from a list that contains them all, the
    score under the larger list is at most the score under the smaller;
    both are 0 or 1. *)
Theorem more_wheats_never_raise_chaff_score
    (wheat_results wheat_results' : list Evaluation.t)
    (chaff_report chaff_report' : Evaluation.t -> GradescopeTestReport.t)
    (chaff : Evaluation.t) :
  (forall wheat, In wheat wheat_results -> In wheat wheat_results') ->
  generate_detailed_chaff_report path_basename wheat_results
  = Return chaff_report ->
  generate_detailed_chaff_report path_basename wheat_results'
  = Return chaff_report' ->
  exists score score',
    GradescopeTestReport.score (chaff_report chaff) = Some score
    /\ GradescopeTestReport.score (chaff_report' chaff) = Some score'
    /\ (0 <= score' <= score)%Z /\ (score <= 1)%Z.
Proof.
  intros Hincl Hgen Hgen'.
  destruct (generate_detailed_chaff_report_inv _ _ _ Hgen)
    as (locs & Hlocs & ->).
  destruct (generate_detailed_chaff_report_inv _ _ _ Hgen')
    as (locs' & Hlocs' & ->).
  pose proof (all_invalid_locs_of_known_bad _ _ Hlocs) as Hknown.
  pose proof (all_invalid_locs_of_known_bad _ _ Hlocs') as Hknown'.
  assert (Hsub : forall loc, In loc locs -> In loc locs').
  { intros loc Hloc. apply Hknown', (known_bad_incl _ _ _ Hincl), Hknown, Hloc. }
  unfold detailed_chaff_report. cbn [GradescopeTestReport.score].
  eexists. eexists. split; [reflexivity|]. split; [reflexivity|].
  rewrite !get_score_and_output_score.
  destruct (Evaluation.result chaff) as [blocks|e]; [|lia].
  destruct (existsb (caught_by locs' ) blocks) eqn:E'.
  - apply existsb_exists in E' as (block & Hin & Hcaught).
    apply (caught_by_mono _ _ _ Hsub) in Hcaught.
    assert (E : existsb (caught_by locs) blocks = true)
      by (apply existsb_exists; eauto).
    rewrite E. lia.
  - destruct (existsb (caught_by locs) blocks); lia.
Qed.

Lemma failures_of_ran_wheat wheat blocks :
  Evaluation.result wheat = Ok blocks ->
  all_failing_tests blocks <> [] \/ all_errored_blocks blocks <> [] ->
  TestFailureReport.failures (get_invalid_tests_and_blocks wheat)
  = Some (Failures.mk (all_failing_tests blocks) (all_errored_blocks blocks)).
Proof.
  intros Hwheat Hne. rewrite (get_invalid_tests_and_blocks_Ok _ _ Hwheat).
  destruct (all_failing_tests blocks), (all_errored_blocks blocks);
    try reflexivity. destruct Hne; congruence.
Qed.

Lemma same_result_not_caught wheat_results chaff_report wheat chaff blocks :
  generate_detailed_chaff_report path_basename wheat_results
  = Return chaff_report ->
  In wheat wheat_results ->
  Evaluation.result wheat = Ok blocks ->
  Evaluation.result chaff = Ok blocks ->
  GradescopeTestReport.score (chaff_report chaff) = Some 0%Z
  /\ GradescopeTestReport.output (chaff_report chaff) = "Chaff not caught.".
Proof.
  intros Hgen Hin Hwheat Hchaff.
  destruct (generate_detailed_chaff_report_inv _ _ _ Hgen)
    as (locs & Hlocs & ->).
  pose proof (all_invalid_locs_of_known_bad _ _ Hlocs) as Hknown.
  unfold detailed_chaff_report, get_score_and_output.
  cbn [GradescopeTestReport.score GradescopeTestReport.output].
  rewrite Hchaff, chaff_scan_blocks_not_caught; [split; reflexivity|].
  apply List.Forall_forall. intros block Hblock.
  apply (caught_by_false_iff _ _ Hknown).
  intros [[Herr Hloc]|(test & Htest & Hp & Hloc)]; apply Hloc.
  - assert (Hx : In block (all_errored_blocks blocks))
      by (apply all_errored_blocks_In; auto).
    exists wheat. eexists. split; [exact Hin|]. split.
    + apply (failures_of_ran_wheat _ _ Hwheat). right. intros E.
      rewrite E in Hx. destruct Hx.
    + right. cbn [Failures.blocks]. now apply in_map.
  - assert (Hx : In (TestAndBlock.mk test block) (all_failing_tests blocks))
      by (apply all_failing_tests_In; simpl; auto).
    exists wheat. eexists. split; [exact Hin|]. split.
    + apply (failures_of_ran_wheat _ _ Hwheat). left. intros E.
      rewrite E in Hx. destruct Hx.
    + left. cbn [Failures.tests].
      apply in_map_iff. exists (TestAndBlock.mk test block). auto.
Qed.

(** A chaff that fails exactly as one of the wheats does is not caught,
    when the generator is built from the wheats.  If the chaff ran and its
    blocks are the blocks of a wheat of the list, every failure of the chaff
    is at a known-bad location and the report of the generator scores 0.
    When the generator is built from the normalized wheats, the same holds
    for the normalized chaff if its blocks and those of the wheat differ
    only in the directories of their locations. *)
Theorem chaff_failing_as_a_wheat_scores_0
    (wheat_results : list Evaluation.t) (wheat chaff : Evaluation.t)
    (wheat_blocks chaff_blocks : list TestBlock.t) :
  In wheat wheat_results ->
  Evaluation.result wheat = Ok wheat_blocks ->
  Evaluation.result chaff = Ok chaff_blocks ->
  (forall chaff_report,
      generate_detailed_chaff_report path_basename wheat_results
      = Return chaff_report ->
      chaff_blocks = wheat_blocks ->
      GradescopeTestReport.score (chaff_report chaff) = Some 0%Z
      /\ GradescopeTestReport.output (chaff_report chaff)
         = "Chaff not caught.")
  /\ (forall chaff_report,
        generate_detailed_chaff_report path_basename
          (map normalize_code_names wheat_results) = Return chaff_report ->
        map normalize_block chaff_blocks = map normalize_block wheat_blocks ->
        GradescopeTestReport.score
          (chaff_report (normalize_code_names chaff)) = Some 0%Z
        /\ GradescopeTestReport.output
             (chaff_report (normalize_code_names chaff))
           = "Chaff not caught.").
Proof.
  intros Hin Hwheat Hchaff. split.
  - intros chaff_report Hgen ->.
    exact (same_result_not_caught _ _ _ _ _ Hgen Hin Hwheat Hchaff).
  - intros chaff_report Hgen Hsame.
    apply (same_result_not_caught _ _ (normalize_code_names wheat)
             (normalize_code_names chaff) (map normalize_block wheat_blocks)
             Hgen).
    + now apply in_map.
    + unfold normalize_code_names. now rewrite Hwheat.
    + unfold normalize_code_names. rewrite Hchaff. simpl. now rewrite Hsame.
Qed.

(** When the generator is built from the wheats, a chaff whose suite
    passes is not scored as caught by it; and if moreover every wheat
    passes, no location is known-bad and a chaff scores 1 exactly when its
    suite does not pass. *)
Theorem chaff_score_against_passing_wheats
    (wheat_results : list Evaluation.t)
    (chaff_report : Evaluation.t -> GradescopeTestReport.t)
    (chaff : Evaluation.t) :
  generate_detailed_chaff_report path_basename wheat_results
  = Return chaff_report ->
  (TestFailureReport.success (get_invalid_tests_and_blocks chaff)
   = TestFailure.Pass ->
   GradescopeTestReport.score (chaff_report chaff) = Some 0%Z)
  /\ ((forall wheat,
         In wheat wheat_results ->
         TestFailureReport.success (get_invalid_tests_and_blocks wheat)
         = TestFailure.Pass) ->
      (forall loc, ~ known_bad wheat_results loc)
      /\ (GradescopeTestReport.score (chaff_report chaff) = Some 1%Z
          <-> TestFailureReport.success (get_invalid_tests_and_blocks chaff)
              <> TestFailure.Pass)
      /\ (GradescopeTestReport.score (chaff_report chaff) = Some 0%Z
          <-> TestFailureReport.success (get_invalid_tests_and_blocks chaff)
              = TestFailure.Pass)).
Proof.
  intros Hgen.
  destruct (generate_detailed_chaff_report_inv _ _ _ Hgen)
    as (locs & Hlocs & ->).
  pose proof (all_invalid_locs_of_known_bad _ _ Hlocs) as Hknown.
  unfold detailed_chaff_report. cbn [GradescopeTestReport.score].
  rewrite get_score_and_output_score.
  assert (Hclean : forall blocks,
            all_failing_tests blocks = [] -> all_errored_blocks blocks = [] ->
            forall locs0, existsb (caught_by locs0) blocks = false).
  { intros blocks Ht Hb locs0.
    destruct (existsb (caught_by locs0) blocks) eqn:E; [|reflexivity].
    apply existsb_exists in E as (block & Hin & Hcaught).
    unfold caught_by, error_unmasked, has_unmasked_test in Hcaught.
    apply orb_true_iff in Hcaught as [Herr|Htest].
    - apply andb_true_iff in Herr as [Herr _].
      assert (Hx : In block (all_errored_blocks blocks))
        by (apply all_errored_blocks_In; auto).
      rewrite Hb in Hx. destruct Hx.
    - apply existsb_exists in Htest as (test & Hintest & Htest).
      apply andb_true_iff in Htest as [Hp _]. apply negb_true_iff in Hp.
      assert (Hx : In (TestAndBlock.mk test block) (all_failing_tests blocks))
        by (apply all_failing_tests_In; simpl; auto).
      rewrite Ht in Hx. destruct Hx. }
  assert (Hdirty : forall blocks,
            (forall loc, ~ In loc locs) ->
            all_failing_tests blocks <> [] \/ all_errored_blocks blocks <> [] ->
            existsb (caught_by locs) blocks = true).
  { intros blocks Hnone Hne. apply existsb_exists.
    assert (Hfree : forall loc, Array_includes locs loc = false).
    { intros loc. destruct (Array_includes locs loc) eqn:E; [|reflexivity].
      apply Array_includes_In in E. now apply Hnone in E. }
    destruct Hne as [Hne|Hne].
    - destruct (all_failing_tests blocks) as [|tb tbs] eqn:E; [congruence|].
      assert (Hx : In tb (all_failing_tests blocks)) by (rewrite E; now left).
      apply all_failing_tests_In in Hx as (Hb & Ht & Hp).
      exists (TestAndBlock.block tb). split; [exact Hb|].
      unfold caught_by, has_unmasked_test. apply orb_true_iff. right.
      apply existsb_exists. exists (TestAndBlock.test tb).
      split; [exact Ht|]. unfold test_unmasked. now rewrite Hp, Hfree.
    - destruct (all_errored_blocks blocks) as [|b bs] eqn:E; [congruence|].
      assert (Hx : In b (all_errored_blocks blocks)) by (rewrite E; now left).
      apply all_errored_blocks_In in Hx as [Hb He].
      exists b. split; [exact Hb|].
      unfold caught_by, error_unmasked. now rewrite He, Hfree. }
  destruct (Evaluation.result chaff) as [blocks|e] eqn:Hres.
  - rewrite (get_invalid_tests_and_blocks_Ok _ _ Hres).
    split.
    + destruct (all_failing_tests blocks) eqn:Et;
        destruct (all_errored_blocks blocks) eqn:Eb;
        cbn [TestFailureReport.success]; try discriminate.
      intros _. now rewrite (Hclean blocks Et Eb).
    + intros Hpass.
      assert (Hnone : forall loc, ~ known_bad wheat_results loc).
      { intros loc (wheat & invalids & Hin & Hf & _).
        specialize (Hpass _ Hin).
        destruct (get_invalid_tests_and_blocks_shape wheat)
          as [[_ Hn]|[[Hs _]|(x & Hs & _)]]; congruence. }
      split; [exact Hnone|].
      assert (Hnone' : forall loc, ~ In loc locs).
      { intros loc Hloc. apply Hknown in Hloc. now apply Hnone in Hloc. }
      destruct (all_failing_tests blocks) as [|tb tbs] eqn:Et;
        destruct (all_errored_blocks blocks) as [|b bs] eqn:Eb;
        cbn [TestFailureReport.success].
      * rewrite (Hclean blocks Et Eb).
        split; split; try discriminate; congruence.
      * rewrite (Hdirty blocks Hnone')
          by (rewrite Eb; right; discriminate).
        split; split; try discriminate; congruence.
      * rewrite (Hdirty blocks Hnone')
          by (rewrite Et; left; discriminate).
        split; split; try discriminate; congruence.
      * rewrite (Hdirty blocks Hnone')
          by (rewrite Et; left; discriminate).
        split; split; try discriminate; congruence.
  - rewrite (get_invalid_tests_and_blocks_Err _ _ Hres).
    cbn [TestFailureReport.success].
    split; [discriminate|]. intros Hpass. split.
    + intros loc (wheat & invalids & Hin & Hf & _).
      specialize (Hpass _ Hin).
      destruct (get_invalid_tests_and_blocks_shape wheat)
        as [[_ Hn]|[[Hs _]|(x & Hs & _)]]; congruence.
    + split; split; try discriminate; congruence.
Qed.

End Masking.

Lemma more_wheats_never_raise_chaff_score_witness :
  let chaff_report := detailed_chaff_report sample_path_basename [] in
  let chaff_report' :=
    detailed_chaff_report sample_path_basename
      ["tests.arr:2:2-2:20"; "tests.arr:5:0-7:3"] in
  generate_detailed_chaff_report sample_path_basename [] = Return chaff_report
  /\ generate_detailed_chaff_report sample_path_basename [sample_wheat_failing]
     = Return chaff_report'
  /\ exists score score',
       GradescopeTestReport.score (chaff_report sample_chaff) = Some score
       /\ GradescopeTestReport.score (chaff_report' sample_chaff) = Some score'
       /\ (0 <= score' <= score)%Z /\ (score <= 1)%Z.
Proof.
  intros chaff_report chaff_report'.
  assert (Hgen : generate_detailed_chaff_report sample_path_basename []
                 = Return chaff_report) by reflexivity.
  assert (Hgen' : generate_detailed_chaff_report sample_path_basename
                    [sample_wheat_failing] = Return chaff_report')
    by reflexivity.
  split; [exact Hgen|]. split; [exact Hgen'|].
  apply (more_wheats_never_raise_chaff_score sample_path_basename
           [] [sample_wheat_failing] chaff_report chaff_report' sample_chaff);
    [intros wheat []|exact Hgen|exact Hgen'].
Defined.

Lemma chaff_failing_as_a_wheat_scores_0_witness :
  let chaff_report :=
    detailed_chaff_report sample_path_basename
      ["tests.arr:2:2-2:20"; "tests.arr:5:0-7:3"] in
  In sample_wheat_failing [sample_wheat_failing]
  /\ Evaluation.result sample_wheat_failing
     = Ok [sample_block_A; sample_block_B]
  /\ Evaluation.result sample_chaff = Ok [sample_block_A; sample_block_B]
  /\ generate_detailed_chaff_report sample_path_basename [sample_wheat_failing]
     = Return chaff_report
  /\ GradescopeTestReport.score (chaff_report sample_chaff) = Some 0%Z
  /\ GradescopeTestReport.output (chaff_report sample_chaff)
     = "Chaff not caught.".
Proof.
  intros chaff_report.
  assert (Hin : In sample_wheat_failing [sample_wheat_failing]) by (now left).
  assert (Hwheat : Evaluation.result sample_wheat_failing
                   = Ok [sample_block_A; sample_block_B]) by reflexivity.
  assert (Hchaff : Evaluation.result sample_chaff
                   = Ok [sample_block_A; sample_block_B]) by reflexivity.
  assert (Hgen : generate_detailed_chaff_report sample_path_basename
                   [sample_wheat_failing] = Return chaff_report)
    by reflexivity.
  split; [exact Hin|]. split; [exact Hwheat|]. split; [exact Hchaff|].
  split; [exact Hgen|].
  exact (proj1 (chaff_failing_as_a_wheat_scores_0 sample_path_basename
                  [sample_wheat_failing] sample_wheat_failing sample_chaff
                  _ _ Hin Hwheat Hchaff) chaff_report Hgen eq_refl).
Defined.

Lemma chaff_score_against_passing_wheats_witness :
  let chaff_report := detailed_chaff_report sample_path_basename [] in
  generate_detailed_chaff_report sample_path_basename [sample_wheat_passing]
  = Return chaff_report
  /\ (forall wheat,
        In wheat [sample_wheat_passing] ->
        TestFailureReport.success (get_invalid_tests_and_blocks wheat)
        = TestFailure.Pass)
  /\ TestFailureReport.success (get_invalid_tests_and_blocks sample_chaff)
     <> TestFailure.Pass
  /\ GradescopeTestReport.score (chaff_report sample_chaff) = Some 1%Z.
Proof.
  intros chaff_report.
  assert (Hgen : generate_detailed_chaff_report sample_path_basename
                   [sample_wheat_passing] = Return chaff_report)
    by reflexivity.
  assert (Hpass : forall wheat,
            In wheat [sample_wheat_passing] ->
            TestFailureReport.success (get_invalid_tests_and_blocks wheat)
            = TestFailure.Pass).
  { intros wheat [<-|[]]. reflexivity. }
  assert (Hfail : TestFailureReport.success
                    (get_invalid_tests_and_blocks sample_chaff)
                  <> TestFailure.Pass) by discriminate.
  split; [exact Hgen|]. split; [exact Hpass|]. split; [exact Hfail|].
  apply (proj2 (chaff_score_against_passing_wheats sample_path_basename
                  [sample_wheat_passing] chaff_report sample_chaff Hgen)
           Hpass).
  exact Hfail.
Defined.

(** ** The score reports *)




Lemma json_to_map_from_lookup obj (map : gmap string Z) name :
  List.NoDup (List.map fst obj) ->
  (forall points,
      In (name, points) obj -> json_to_map_from obj map !! name = Some points)
  /\ (~ In name (List.map fst obj) ->
      json_to_map_from obj map !! name = map !! name).
Proof.
  revert map. induction obj as [|[item value] rest IH]; intros map Hnd.
  - split; [intros points []|reflexivity].
  - cbn [List.map fst] in Hnd. apply List.NoDup_cons_iff in Hnd as [Hitem Hnd].
    cbn [json_to_map_from].
    destruct (IH (<[item := value]> map) Hnd) as [Hin Hout]. split.
    + intros points [[= -> ->]|Hrest]; [|now apply Hin].
      rewrite Hout by exact Hitem. apply lookup_insert_eq.
    + intros Hname. cbn [List.map fst] in Hname.
      rewrite Hout by (intros H; apply Hname; now right).
      apply lookup_insert_ne. intros ->. apply Hname. now left.
Qed.

(** The point map read from a JSON object with distinct property names
    holds exactly its properties: an item of the object is looked up to its
    points, an item that is not in the object is absent, and so a report
    weighs the points of its name in the object, or 1 when the object does
    not name it. *)
Theorem json_to_map_lookup (obj : list (string * Z)) :
  List.NoDup (List.map fst obj) ->
  (forall name points,
      json_to_map obj !! name = Some points <-> In (name, points) obj)
  /\ (forall name,
        json_to_map obj !! name = None <-> ~ In name (List.map fst obj))
  /\ (forall report,
        (forall points,
            In (GradescopeTestReport.name report, points) obj ->
            weight (json_to_map obj) report = points)
        /\ (~ In (GradescopeTestReport.name report) (List.map fst obj) ->
            weight (json_to_map obj) report = 1%Z)).
Proof.
  intros Hnd. unfold json_to_map.
  assert (Hin : forall name points,
            In (name, points) obj ->
            json_to_map_from obj ∅ !! name = Some points).
  { intros name. apply (json_to_map_from_lookup obj ∅ name Hnd). }
  assert (Hout : forall name,
            ~ In name (List.map fst obj) ->
            json_to_map_from obj ∅ !! name = None).
  { intros name Hname.
    rewrite (proj2 (json_to_map_from_lookup obj ∅ name Hnd) Hname).
    apply lookup_empty. }
  assert (Hdec : forall name,
            In name (List.map fst obj) \/ ~ In name (List.map fst obj)).
  { intros name. destruct (In_dec string_dec name (List.map fst obj)); auto. }
  split; [|split].
  - intros name points. split; [|apply Hin].
    intros Hlookup. destruct (Hdec name) as [Hname|Hname].
    + apply in_map_iff in Hname as ([name' points'] & Hfst & Hpair).
      simpl in Hfst. subst name'.
      rewrite (Hin _ _ Hpair) in Hlookup. now injection Hlookup as <-.
    + rewrite (Hout _ Hname) in Hlookup. discriminate.
  - intros name. split; [|apply Hout].
    intros Hlookup Hname.
    apply in_map_iff in Hname as ([name' points'] & Hfst & Hpair).
    simpl in Hfst. subst name'.
    rewrite (Hin _ _ Hpair) in Hlookup. discriminate.
  - intros report. unfold weight. split.
    + intros points Hpair. now rewrite (Hin _ _ Hpair).
    + intros Hname. now rewrite (Hout _ Hname).
Qed.

Lemma json_to_map_lookup_witness :
  List.NoDup (List.map fst [("a", 2%Z); ("b", 3%Z)])
  /\ (json_to_map [("a", 2%Z); ("b", 3%Z)] !! "b" = Some 3%Z
      <-> In ("b", 3%Z) [("a", 2%Z); ("b", 3%Z)])
  /\ weight (json_to_map [("a", 2%Z); ("b", 3%Z)]) (sample_report "c" 1)
     = 1%Z.
Proof.
  assert (Hnd : List.NoDup (List.map fst [("a", 2%Z); ("b", 3%Z)])).
  { apply List.NoDup_cons; [simpl; intros [H|[]]; discriminate|].
    apply List.NoDup_cons; [intros []|apply List.NoDup_nil]. }
  destruct (json_to_map_lookup [("a", 2%Z); ("b", 3%Z)] Hnd)
    as (Hlookup & _ & Hweight).
  split; [exact Hnd|]. split; [apply Hlookup|].
  apply (proj2 (Hweight (sample_report "c" 1))).
  simpl. intros [H|[H|[]]]; discriminate.
Defined.

Lemma append_each_concat_lines {A : Type} (line : A -> string) xs output :
  append_each line xs output = output +:+ concat_lines line xs.
Proof.
  revert output. induction xs as [|x rest IH]; intros output.
  - simpl. now rewrite string_append_empty_r.
  - cbn [append_each concat_lines fold_right]. rewrite IH.
    apply string_append_assoc.
Qed.

Lemma sum_Z_default_weights point_values reports :
  (forall report, In report reports -> weight point_values report = 1%Z) ->
  sum_Z (map (weight point_values) reports) = Z.of_nat (length reports).
Proof.
  induction reports as [|report rest IH]; intros Hone; [reflexivity|].
  cbn [map sum_Z fold_right]. fold (sum_Z (map (weight point_values) rest)).
  rewrite (Hone report (or_introl eq_refl)), IH
    by (intros r Hr; apply Hone; now right).
  simpl length. lia.
Qed.

Section WheatReports.

Variable path_basename : string -> string.

(** The detailed report of a wheat is out of 1.  A wheat that did not run
    scores 0 and its output gives the kind of the error.  A wheat that ran
    with no errored block scores 1 with [Passed wheat!] when no test failed,
    and otherwise scores 0 with one line per failing test, in order, each
    naming the block and the location of the test. *)
Theorem generate_detailed_wheat_report_lines (wheat_result : Evaluation.t) :
  exists report,
    generate_detailed_wheat_report path_basename wheat_result = Return report
    /\ GradescopeTestReport.name report
       = "Wheat: " +:+ get_code_file_name path_basename wheat_result
    /\ GradescopeTestReport.max_score report = Some 1%Z
    /\ (forall e,
          Evaluation.result wheat_result = Err e ->
          GradescopeTestReport.score report = Some 0%Z
          /\ GradescopeTestReport.output report
             = "Wheat errored; " +:+ Err.to_string e)
    /\ (forall blocks,
          Evaluation.result wheat_result = Ok blocks ->
          all_errored_blocks blocks = [] ->
          (all_failing_tests blocks = [] ->
           GradescopeTestReport.score report = Some 1%Z
           /\ GradescopeTestReport.output report = "Passed wheat!")
          /\ (all_failing_tests blocks <> [] ->
              GradescopeTestReport.score report = Some 0%Z
              /\ GradescopeTestReport.output report
                 = concat_lines detailed_wheat_test_message
                     (all_failing_tests blocks))).
Proof.
  unfold generate_detailed_wheat_report.
  destruct (Evaluation.result wheat_result) as [blocks|e] eqn:Hres.
  - rewrite (get_invalid_tests_and_blocks_Ok _ _ Hres).
    destruct (generate_detailed_wheat_report_of_total wheat_result)
      as [output Htotal].
    rewrite (get_invalid_tests_and_blocks_Ok _ _ Hres) in Htotal.
    rewrite Htotal. cbn [bind].
    eexists. split; [reflexivity|]. split; [reflexivity|].
    split; [reflexivity|]. split; [discriminate|].
    intros blocks0 [= <-] Hb. rewrite Hb in Htotal |- *.
    unfold generate_detailed_wheat_report_of in Htotal.
    destruct (all_failing_tests blocks) as [|tb tbs] eqn:Et;
      cbn [TestFailureReport.success TestFailureReport.failures
           Failures.tests Failures.blocks assign_each] in Htotal |- *.
    + injection Htotal as <-. split; [auto|congruence].
    + split; [discriminate|]. intros _.
      rewrite append_each_concat_lines in Htotal.
      change (EmptyString +:+ concat_lines detailed_wheat_test_message
                                (tb :: tbs))
        with (concat_lines detailed_wheat_test_message (tb :: tbs)) in Htotal.
      destruct (String.eqb
                  (concat_lines detailed_wheat_test_message (tb :: tbs))
                  EmptyString); [discriminate|].
      injection Htotal as <-. split; reflexivity.
  - rewrite (get_invalid_tests_and_blocks_Err _ _ Hres).
    unfold generate_detailed_wheat_report_of, template_of_Err.
    cbn [TestFailureReport.success bind]. rewrite Hres.
    eexists. split; [reflexivity|]. split; [reflexivity|].
    split; [reflexivity|]. split; [|discriminate].
    intros e0 [= <-]. split; reflexivity.
Qed.

(** A wheat that did not run makes the aggregate verdict [INVALID], and its
    message, with the kind of the error, is among the lines of the
    explanation, which has no line twice. *)
Theorem errored_wheat_makes_the_verdict_INVALID
    {number : Type} {number_ops : JsNumber number}
    (wheat_results : list Evaluation.t) (wheat : Evaluation.t) (e : Err.t) :
  In wheat wheat_results ->
  Evaluation.result wheat = Err e ->
  exists report messages,
    generate_examplar_wheat_report wheat_results = Return report
    /\ GradescopeTestReport.name report = "INVALID"
    /\ GradescopeTestReport.output report
       = "Your test suite failed at least one of our wheats." +:+ nl
         +:+ join nl messages
    /\ In ("Wheat errored; " +:+ Err.to_string e) messages
    /\ List.NoDup messages.
Proof.
  intros Hin Hres.
  pose proof (forallb_ran_false _ _ _ Hin Hres) as Hran.
  rewrite generate_examplar_wheat_report_spec, Hran.
  eexists. exists (remove_duplicates (wheat_errored_messages wheat_results)).
  split; [reflexivity|]. split; [reflexivity|]. split; [reflexivity|].
  rewrite remove_duplicates_first_occurrences.
  split; [|apply first_occurrences_NoDup].
  apply first_occurrences_In. split; [|intros []].
  unfold wheat_errored_messages. apply in_flat_map.
  exists wheat. split; [exact Hin|]. rewrite Hres. now left.
Qed.

(** When the generator of the detailed chaff reports is built from the
    wheats and the point map names none of the chaff reports it produces,
    the score report of these reports counts them: its maximum is the number
    of chaffs and its score the number of chaffs whose detailed report
    scores 1. *)
Theorem chaff_score_report_counts
    (wheat_results : list Evaluation.t)
    (chaff_report : Evaluation.t -> GradescopeTestReport.t)
    (chaff_results : list Evaluation.t) (point_values : gmap string Z) :
  generate_detailed_chaff_report path_basename wheat_results
  = Return chaff_report ->
  (forall chaff,
      In chaff chaff_results ->
      point_values !! ("Chaff: " +:+ get_code_file_name path_basename chaff)
      = None) ->
  GradescopeTestReport.max_score
    (generate_score_report (map chaff_report chaff_results) point_values
       "chaffs" ReportSection.Chaff)
  = Some (Z.of_nat (length chaff_results))
  /\ GradescopeTestReport.score
       (generate_score_report (map chaff_report chaff_results) point_values
          "chaffs" ReportSection.Chaff)
     = Some (Z.of_nat
               (length
                  (List.filter
                     (fun chaff =>
                        bool_decide
                          (GradescopeTestReport.score (chaff_report chaff)
                           = Some 1%Z))
                     chaff_results))).
Proof.
  intros Hgen Hnone.
  destruct (generate_detailed_chaff_report_inv _ _ _ Hgen)
    as (locs & _ & ->).
  unfold generate_score_report. rewrite score_loop_spec.
  cbn [GradescopeTestReport.score GradescopeTestReport.max_score].
  rewrite !Z.add_0_l.
  assert (Hweight : forall report,
            In report (map (detailed_chaff_report path_basename locs)
                         chaff_results) ->
            weight point_values report = 1%Z).
  { intros report Hreport.
    apply in_map_iff in Hreport as (chaff & <- & Hchaff).
    unfold weight, detailed_chaff_report. cbn [GradescopeTestReport.name].
    now rewrite (Hnone chaff Hchaff). }
  rewrite !sum_Z_default_weights.
  - rewrite length_map. split; [reflexivity|].
    do 2 f_equal. clear. induction chaff_results as [|chaff rest IH];
      [reflexivity|].
    cbn [map List.filter]. rewrite full_credit_Z.
    cbn [detailed_chaff_report GradescopeTestReport.score
         GradescopeTestReport.max_score].
    destruct (get_score_and_output_score locs chaff) as [].
    destruct (decide (snd (get_score_and_output locs chaff) = 1%Z))
      as [Hone|Hother].
    + rewrite !bool_decide_eq_true_2 by (now rewrite Hone).
      simpl. now rewrite IH.
    + rewrite !bool_decide_eq_false_2 by (intros [= H]; contradiction).
      exact IH.
  - intros report Hreport. apply Hweight.
    apply filter_In in Hreport. tauto.
  - exact Hweight.
Qed.

(** When every wheat passes, and also when there is no wheat, the aggregate
    verdict is [VALID]. *)
Theorem passing_wheats_make_the_verdict_VALID
    {number : Type} {number_ops : JsNumber number}
    (wheat_results : list Evaluation.t) :
  (forall wheat,
      In wheat wheat_results ->
      TestFailureReport.success (get_invalid_tests_and_blocks wheat)
      = TestFailure.Pass) ->
  exists report,
    generate_examplar_wheat_report wheat_results = Return report
    /\ GradescopeTestReport.name report = "VALID"
    /\ GradescopeTestReport.output report
       = "These tests are valid and consistent with the assignment handout.".
Proof.
  intros Hpass.
  assert (Hran : forallb ran wheat_results = true).
  { apply forallb_forall. intros wheat Hin. specialize (Hpass _ Hin).
    unfold ran. destruct (Evaluation.result wheat) as [|e] eqn:Hres;
      [reflexivity|].
    rewrite (get_invalid_tests_and_blocks_Err _ _ Hres) in Hpass.
    discriminate. }
  rewrite generate_examplar_wheat_report_spec, Hran.
  eexists. split; [reflexivity|]. split; reflexivity.
Qed.

End WheatReports.

Lemma generate_detailed_wheat_report_lines_witness :
  Evaluation.result sample_wheat_test_failure = Ok [sample_block_A]
  /\ all_errored_blocks [sample_block_A] = []
  /\ all_failing_tests [sample_block_A] <> []
  /\ exists report,
       generate_detailed_wheat_report sample_path_basename
         sample_wheat_test_failure = Return report
       /\ GradescopeTestReport.score report = Some 0%Z
       /\ GradescopeTestReport.output report
          = "Wheat failed test in block " +:+ dq +:+ "A" +:+ dq
            +:+ " at location tests.arr:2:2-2:20" +:+ nl.
Proof.
  assert (Hres : Evaluation.result sample_wheat_test_failure
                 = Ok [sample_block_A]) by reflexivity.
  assert (Hb : all_errored_blocks [sample_block_A] = []) by reflexivity.
  assert (Ht : all_failing_tests [sample_block_A] <> []) by discriminate.
  split; [exact Hres|]. split; [exact Hb|]. split; [exact Ht|].
  destruct (generate_detailed_wheat_report_lines sample_path_basename
              sample_wheat_test_failure)
    as (report & Hreport & _ & _ & _ & Hok).
  exists report. split; [exact Hreport|].
  exact (proj2 (Hok _ Hres Hb) Ht).
Defined.

Lemma errored_wheat_makes_the_verdict_INVALID_witness :
  In sample_wheat_timeout [sample_wheat_passing; sample_wheat_timeout]
  /\ Evaluation.result sample_wheat_timeout = Err Err.Timeout
  /\ exists report messages,
       generate_examplar_wheat_report
         [sample_wheat_passing; sample_wheat_timeout] = Return report
       /\ GradescopeTestReport.name report = "INVALID"
       /\ GradescopeTestReport.output report
          = "Your test suite failed at least one of our wheats." +:+ nl
            +:+ join nl messages
       /\ In ("Wheat errored; " +:+ Err.to_string Err.Timeout) messages
       /\ List.NoDup messages.
Proof.
  assert (Hin : In sample_wheat_timeout
                  [sample_wheat_passing; sample_wheat_timeout])
    by (right; now left).
  assert (Hres : Evaluation.result sample_wheat_timeout = Err Err.Timeout)
    by reflexivity.
  split; [exact Hin|]. split; [exact Hres|].
  exact (errored_wheat_makes_the_verdict_INVALID _ _ _ Hin Hres).
Defined.

Lemma passing_wheats_make_the_verdict_VALID_witness :
  (forall wheat,
      In wheat [sample_wheat_passing] ->
      TestFailureReport.success (get_invalid_tests_and_blocks wheat)
      = TestFailure.Pass)
  /\ exists report,
       generate_examplar_wheat_report [sample_wheat_passing] = Return report
       /\ GradescopeTestReport.name report = "VALID"
       /\ GradescopeTestReport.output report
          = "These tests are valid and consistent with the assignment handout.".
Proof.
  assert (Hpass : forall wheat,
            In wheat [sample_wheat_passing] ->
            TestFailureReport.success (get_invalid_tests_and_blocks wheat)
            = TestFailure.Pass).
  { intros wheat [<-|[]]. reflexivity. }
  split; [exact Hpass|].
  exact (passing_wheats_make_the_verdict_VALID _ Hpass).
Defined.

Lemma chaff_score_report_counts_witness :
  let chaff_report := detailed_chaff_report sample_path_basename [] in
  let chaff_results := [sample_chaff; sample_wheat_passing] in
  generate_detailed_chaff_report sample_path_basename [] = Return chaff_report
  /\ (forall chaff,
        In chaff chaff_results ->
        (∅ : gmap string Z)
          !! ("Chaff: " +:+ get_code_file_name sample_path_basename chaff)
        = None)
  /\ GradescopeTestReport.max_score
       (generate_score_report (map chaff_report chaff_results) ∅
          "chaffs" ReportSection.Chaff) = Some 2%Z
  /\ GradescopeTestReport.score
       (generate_score_report (map chaff_report chaff_results) ∅
          "chaffs" ReportSection.Chaff) = Some 1%Z.
Proof.
  intros chaff_report chaff_results.
  assert (Hgen : generate_detailed_chaff_report sample_path_basename []
                 = Return chaff_report) by reflexivity.
  assert (Hnone : forall chaff,
            In chaff chaff_results ->
            (∅ : gmap string Z)
              !! ("Chaff: " +:+ get_code_file_name sample_path_basename chaff)
            = None).
  { intros chaff _. apply lookup_empty. }
  split; [exact Hgen|]. split; [exact Hnone|].
  exact (chaff_score_report_counts sample_path_basename [] chaff_report
           chaff_results ∅ Hgen Hnone).
Defined.

(** ** Locations that differ only in their directories *)

Lemma includes_slash_append before name :
  includes "/" (before +:+ "/" +:+ name) = true.
Proof.
  induction before as [|c before IH].
  - change (EmptyString +:+ "/" +:+ name) with (String "/" name).
    rewrite includes_slash_cons.
    destruct (ascii_dec "/" "/"); [reflexivity|congruence].
  - rewrite string_append_cons, includes_slash_cons, IH. apply orb_true_r.
Qed.

(** [get_loc_name] strips the directories: whatever precedes the last
    slash, a name without a slash behind it is what is returned; so two
    locations with the same name under different directories normalize to
    the same location. *)
Theorem get_loc_name_strips_directory (directory name : string) :
  includes "/" name = false ->
  get_loc_name (directory +:+ "/" +:+ name) = name
  /\ (forall directory',
        get_loc_name (directory' +:+ "/" +:+ name)
        = get_loc_name (directory +:+ "/" +:+ name)).
Proof.
  intros Hname.
  assert (Hstrip : forall d, get_loc_name (d +:+ "/" +:+ name) = name).
  { induction d as [|c d IH].
    - change (EmptyString +:+ "/" +:+ name) with (String "/" name).
      rewrite get_loc_name_cons.
      destruct (ascii_dec "/" "/"); [|congruence].
      now apply get_loc_name_fixed.
    - rewrite string_append_cons, get_loc_name_cons, includes_slash_append.
      destruct (ascii_dec "/" c); exact IH. }
  split; [apply Hstrip|]. intros directory'. now rewrite !Hstrip.
Qed.

Lemma get_loc_name_strips_directory_witness :
  includes "/" "tests.arr:8:0-19:3" = false
  /\ get_loc_name
       ("file:///autograder/results/wheat.arr;tests.arr" +:+ "/"
        +:+ "tests.arr:8:0-19:3")
     = "tests.arr:8:0-19:3".
Proof.
  assert (Hname : includes "/" "tests.arr:8:0-19:3" = false) by reflexivity.
  split; [exact Hname|].
  exact (proj1 (get_loc_name_strips_directory
                  "file:///autograder/results/wheat.arr;tests.arr"
                  "tests.arr:8:0-19:3" Hname)).
Defined.

Lemma examplar_phase_reports_witness :
  let config := ExamplarConfig.mk true (Some ["c1.arr"]) in
  let chaff_results := [sample_chaff; sample_wheat_test_failure] in
  examplar_chaffs sample_path_basename config chaff_results = [sample_chaff]
  /\ exists wheat_report chaff_reports,
       generate_examplar_wheat_report [sample_wheat_passing]
       = Return wheat_report
       /\ examplar_phase sample_path_basename (Some config)
            [sample_wheat_passing] chaff_results
          = Return (wheat_report :: chaff_reports)
       /\ GradescopeTestReport.name wheat_report = "VALID"
       /\ length chaff_reports = 1.
Proof.
  intros config chaff_results.
  assert (Hselected : examplar_chaffs sample_path_basename config chaff_results
                      = [sample_chaff]) by reflexivity.
  split; [exact Hselected|].
  destruct (examplar_phase_reports sample_path_basename (Some config)
              [sample_wheat_passing] chaff_results)
    as (reports & Hphase & _ & Hconfig).
  destruct (proj2 (Hconfig config eq_refl) eq_refl)
    as (wheat_report & chaff_reports & Hwheat & -> & _ & Hvalid).
  assert (Hname : GradescopeTestReport.name wheat_report = "VALID").
  { assert (Hcomputed : exists report,
              generate_examplar_wheat_report [sample_wheat_passing]
              = Return report
              /\ GradescopeTestReport.name report = "VALID")
      by (eexists; split; reflexivity).
    destruct Hcomputed as (report & Hreport & Hvalid').
    rewrite Hreport in Hwheat. now injection Hwheat as <-. }
  exists wheat_report, chaff_reports.
  split; [exact Hwheat|]. split; [exact Hphase|]. split; [exact Hname|].
  rewrite (proj1 (Hvalid Hname)), Hselected. reflexivity.
Defined.
